(** * Seat-Assigner: a shallow embedding of [assign_seats.py]

    The development models the four functions of [assign_seats.py]:

    - [load_available_seats], the loader of the seat file,
    - [load_student_requests], the loader of the request file,
    - [assign_seats], the two-phase assignment engine, and
    - [main], which loads, assigns and prints.

    Python values are modelled as follows.
    - [str] is [string]; a character stands for a code point below 256.
    - [set[str]] is [gset string]; [list(s)] enumerates it with [elements].
      Python leaves the order of that enumeration open; the engine reads
      the list only through [in], [remove] and a random index, and every
      statement below holds for every [rnd].
    - the input [dict[str, list[str]]] is an association list in insertion
      order (the order of [student_requests.keys()]); a Python dict never
      holds a key twice, which is the predicate [dict_wf].
    - the returned [dict[str, str]] is a [gmap string string], and an
      association list in insertion order where [main] reads its keys.
    - Python lists are Rocq lists; [l.remove(x)] and [random.choice(l)] raise
      as in Python, which is made explicit with the [result] type.
    - the generator behind [random.choice] is an arbitrary function
      [rnd : nat -> nat]; the [n]-th draw on a list [l] picks the element of
      index [rnd n mod length l]. A property of every run is a property of
      every [rnd].
    - the [while] loop takes fuel; one unit is spent per iteration.
    - where it matters which object a name refers to, the engine runs on a
      store of objects ([assign_seats_on]): names hold references, and a
      method that changes a list or a mapping changes the object in the
      store. *)

From stdpp Require Import base option list strings gmap fin_maps fin_sets sorting.
From Stdlib Require Import Ascii Lia.

Open Scope string_scope.
Open Scope list_scope.
Open Scope nat_scope.

(** ** Exceptions *)

Inductive exn : Type :=
  IndexError | ValueError | KeyError | UnicodeDecodeError | TypeError.

Inductive result (A : Type) : Type :=
| Ok (a : A)
| Raise (e : exn).
Arguments Ok {A} a.
Arguments Raise {A} e.

#[global] Instance result_ret : MRet result := λ A a, Ok a.
#[global] Instance result_bind : MBind result := λ A B f m,
  match m with
  | Ok a => f a
  | Raise e => Raise e
  end.
#[global] Instance result_fmap : FMap result := λ A B f m,
  match m with
  | Ok a => Ok (f a)
  | Raise e => Raise e
  end.

(** ** Python list and dict primitives *)

(** [l.remove(x)]: drops the first occurrence, [ValueError] when absent. *)
Fixpoint list_remove (x : string) (l : list string) : result (list string) :=
  match l with
  | [] => Raise ValueError
  | y :: l' =>
      if decide (y = x) then Ok l'
      else l'' ← list_remove x l'; Ok (y :: l'')
  end.

(** [random.choice(l)] with the drawn number [r]: [IndexError] on an empty
    list ([r mod 0 = r] and the lookup in [[]] fails). *)
Definition choice (r : nat) (l : list string) : result string :=
  match l !! (r mod length l) with
  | Some x => Ok x
  | None => Raise IndexError
  end.

(** The input dictionary, in insertion order. *)
Abbreviation dict := (list (string * list string)).

Definition keys (d : dict) : list string := d.*1.

Definition dict_wf (d : dict) : Prop := NoDup (keys d).

(** [d[k]]: [KeyError] when absent. *)
Fixpoint dict_get (d : dict) (k : string) : result (list string) :=
  match d with
  | [] => Raise KeyError
  | (k', v) :: d' => if decide (k' = k) then Ok v else dict_get d' k
  end.

(** Truth value of a list: non-empty. *)
Definition truthy {A} (l : list A) : bool :=
  match l with
  | [] => false
  | _ :: _ => true
  end.

(** ** [load_available_seats] *)

(** [str.isspace] on the code points below 256. *)
Definition isspace (c : ascii) : bool :=
  let n := nat_of_ascii c in
  ((9 <=? n) && (n <=? 13)) || ((28 <=? n) && (n <=? 32))
  || (n =? 133) || (n =? 160).

Fixpoint lstrip (s : string) : string :=
  match s with
  | EmptyString => EmptyString
  | String c s' => if isspace c then lstrip s' else s
  end.

Definition rstrip (s : string) : string := String.rev (lstrip (String.rev s)).

(** [s.strip()] *)
Definition strip (s : string) : string := rstrip (lstrip s).

Definition newline : ascii := "010"%char.

Definition carriage_return : ascii := "013"%char.

(** Iterating over a file opened in text mode yields its lines. A line
    ends at a line feed, at a carriage return, or at a carriage return
    followed by a line feed, and is handed over with one line feed in
    their place; the last line may have no end. *)
Fixpoint file_lines (content : string) : list string :=
  match content with
  | EmptyString => []
  | String c rest =>
      if decide (c = newline) then String newline EmptyString :: file_lines rest
      else if decide (c = carriage_return) then
        match rest with
        | String c' rest' =>
            if decide (c' = newline)
            then String newline EmptyString :: file_lines rest'
            else String newline EmptyString :: file_lines rest
        | EmptyString => [String newline EmptyString]
        end
      else match file_lines rest with
           | [] => [String c EmptyString]
           | l :: ls => String c l :: ls
           end
  end.

(** The file system maps a file name to the text of the file; opening a
    missing file is the [FileNotFoundError] branch, which returns [None]. *)
Definition load_available_seats
    (fs : gmap string string) (file_name : string) : option (gset string) :=
  match fs !! file_name with
  | None => None
  | Some content =>
      Some (foldl (λ available_seats seat, {[strip seat]} ∪ available_seats)
                  ∅ (file_lines content))
  end.

(** ** Files that cannot be read

    Under a name the file system may also hold something that does not
    read as text to its end: an entry for which [open], or a later read,
    raises an [OSError] other than [FileNotFoundError] (a directory, a
    file without read permission, a failing device), which the loaders
    catch as [IOError]; or a file whose bytes stop decoding, for which
    reading raises [UnicodeDecodeError], which no loader catches. In both
    [read] is the text of the lines the loop got before the error, empty
    when [open] itself fails. *)
Inductive file : Type :=
| Text (content : string)
| Unreadable (read : string)
| Undecodable (read : string).

(** Lines 63-87 on such a file system. *)
Definition load_available_seats_file
    (fs : gmap string file) (file_name : string)
    : result (option (gset string)) :=
  match fs !! file_name with
  | None => Ok None
  | Some (Unreadable _) => Ok None
  | Some (Undecodable _) => Raise UnicodeDecodeError
  | Some (Text content) =>
      Ok (Some (foldl (λ available_seats seat, {[strip seat]} ∪ available_seats)
                      ∅ (file_lines content)))
  end.

(** The files that read as text, with their text. *)
Definition texts (fs : gmap string file) : gmap string string :=
  omap (λ f, match f with Text content => Some content | _ => None end) fs.

(** ** [load_student_requests] *)

Definition comma : ascii := ","%char.

(** [s.split(",")]: the pieces between the commas, at least one. *)
Fixpoint split_comma (s : string) : list string :=
  match s with
  | EmptyString => [EmptyString]
  | String c rest =>
      if decide (c = comma) then EmptyString :: split_comma rest
      else match split_comma rest with
           | [] => [String c EmptyString]
           | p :: ps => String c p :: ps
           end
  end.

(** Line 38: [[p.strip() for p in request.split(",")]]. *)
Definition pieces_of (request : string) : list string :=
  strip <$> split_comma request.

(** The records the loader writes to the log; lines are counted from 1. *)
Inductive log_record : Type :=
| NoStudentName (line : nat)
| DuplicateStudent (student : string) (line : nat)
| RequestsFileNotFound (file_name : string)
| RequestsIOError.

(** Lines 44-50: the loop over [pieces[1:]], with the locals [seen] and
    [seats]. *)
Fixpoint valid_requests (available : gset string) (seen : gset string)
    (seats : list string) (pieces : list string) : list string :=
  match pieces with
  | [] => seats
  | seat :: pieces' =>
      if decide ((seat ∉ seen) ∧ seat ∈ available)
      then valid_requests available ({[seat]} ∪ seen) (seats ++ [seat]) pieces'
      else valid_requests available seen seats pieces'
  end.

(** Lines 38-54: the body of the loop over the lines of the file; [i] is
    the index [enumerate] gives, [pieces[0]] raises on an empty list. *)
Definition read_request (available : gset string) (i : nat) (request : string)
    (requests : dict) (log : list log_record)
    : result (dict * list log_record) :=
  match pieces_of request with
  | [] => Raise IndexError
  | student :: pieces =>
      if decide (student = EmptyString)
      then Ok (requests, log ++ [NoStudentName (S i)])
      else
        let seats := valid_requests available ∅ [] pieces in
        if decide (student ∈ keys requests)
        then Ok (requests, log ++ [DuplicateStudent student (S i)])
        else Ok (requests ++ [(student, seats)], log)
  end.

(** Lines 37-54. *)
Fixpoint read_requests (available : gset string) (i : nat) (lines : list string)
    (requests : dict) (log : list log_record)
    : result (dict * list log_record) :=
  match lines with
  | [] => Ok (requests, log)
  | request :: lines' =>
      match read_request available i request requests log with
      | Ok (requests', log') =>
          read_requests available (S i) lines' requests' log'
      | Raise e => Raise e
      end
  end.

(** Lines 22-61: the returned value and the log. A missing file and an
    [IOError] give [None] and an error record, the second after the
    warnings of the lines read until then; [UnicodeDecodeError] is not
    caught. *)
Definition load_student_requests (fs : gmap string file) (file_name : string)
    (available : gset string) : result (option dict * list log_record) :=
  match fs !! file_name with
  | None => Ok (None, [RequestsFileNotFound file_name])
  | Some (Unreadable read) =>
      match read_requests available 0 (file_lines read) [] [] with
      | Ok (_, log) => Ok (None, log ++ [RequestsIOError])
      | Raise e => Raise e
      end
  | Some (Undecodable read) =>
      match read_requests available 0 (file_lines read) [] [] with
      | Ok _ => Raise UnicodeDecodeError
      | Raise e => Raise e
      end
  | Some (Text content) =>
      match read_requests available 0 (file_lines content) [] [] with
      | Ok (requests, log) => Ok (Some requests, log)
      | Raise e => Raise e
      end
  end.

(** The name a line of the request file gives, blank when it gives none. *)
Definition student_name (request : string) : string :=
  match pieces_of request with
  | [] => EmptyString
  | student :: _ => student
  end.

(** A request file: a repeated seat, a seat that does not exist, a line
    without a name and a student given twice. *)
Definition request_file : string :=
  "Alice, 2, 1, 2
Bob,9 ,1
 , 3
Alice,3
".

(** ** [assign_seats] *)

(** The objects of one call: the two arguments, the locals, and the number
    of draws made from the random generator so far. *)
Record state : Type := State {
  available_seats : gset string;
  student_requests : dict;
  seat_assignments : gmap string string;
  seats : list string;
  students : list string;
  holding : list string;
  draws : nat
}.

Definition set_seat_assignments (m : gmap string string) (st : state) : state :=
  State (available_seats st) (student_requests st) m
        (seats st) (students st) (holding st) (draws st).
Definition set_seats (l : list string) (st : state) : state :=
  State (available_seats st) (student_requests st) (seat_assignments st)
        l (students st) (holding st) (draws st).
Definition set_students (l : list string) (st : state) : state :=
  State (available_seats st) (student_requests st) (seat_assignments st)
        (seats st) l (holding st) (draws st).
Definition set_holding (l : list string) (st : state) : state :=
  State (available_seats st) (student_requests st) (seat_assignments st)
        (seats st) (students st) l (draws st).
Definition tick (st : state) : state :=
  State (available_seats st) (student_requests st) (seat_assignments st)
        (seats st) (students st) (holding st) (S (draws st)).

(** Lines 102-107. *)
Definition init_state (available : gset string) (requests : dict) : state :=
  State available requests ∅ (elements available) (keys requests) [] 0.

Section Engine.

Variable rnd : nat → nat.

(** Lines 113-123: the [for] loop over the ranked preferences, left by
    [break] at the first seat that is still in [seats]. *)
Fixpoint scan_requests (student : string) (prefs : list string) (st : state)
    : result state :=
  match prefs with
  | [] => Ok st
  | seat :: prefs' =>
      if decide (seat ∈ seats st) then
        let st := set_seat_assignments
                    (<[seat := student]> (seat_assignments st)) st in
        seats' ← list_remove seat (seats st);
        let st := set_seats seats' st in
        students' ← list_remove student (students st);
        Ok (set_students students' st)
      else scan_requests student prefs' st
  end.

(** Lines 111-130: one iteration of the [while] loop. *)
Definition loop_body (st : state) : result state :=
  student ← choice (rnd (draws st)) (students st);
  let st := tick st in
  prefs ← dict_get (student_requests st) student;
  st ← scan_requests student prefs st;
  if decide (student ∈ students st) then
    let st := set_holding (holding st ++ [student]) st in
    students' ← list_remove student (students st);
    Ok (set_students students' st)
  else Ok st.

(** Line 109. *)
Definition loop_cond (st : state) : bool :=
  truthy (seats st) && truthy (students st).

(** Lines 109-130; [None] when the fuel runs out before the loop ends. *)
Fixpoint phase1 (fuel : nat) (st : state) : option (result state) :=
  if loop_cond st then
    match fuel with
    | 0 => None
    | S fuel' =>
        match loop_body st with
        | Ok st' => phase1 fuel' st'
        | Raise e => Some (Raise e)
        end
    end
  else Some (Ok st).

(** Lines 133-134. *)
Definition hold_rest (st : state) : state :=
  if truthy (students st) then set_holding (holding st ++ students st) st
  else st.

(** Lines 137-144: the [for] loop over [holding]. *)
Fixpoint phase2 (held : list string) (st : state) : result state :=
  match held with
  | [] => Ok st
  | student :: held' =>
      if truthy (seats st) then
        seat ← choice (rnd (draws st)) (seats st);
        let st := tick st in
        let st := set_seat_assignments
                    (<[seat := student]> (seat_assignments st)) st in
        seats' ← list_remove seat (seats st);
        phase2 held' (set_seats seats' st)
      else phase2 held' st
  end.

(** The whole call, returning the final state of all objects. *)
Definition run (fuel : nat) (available : gset string) (requests : dict)
    : option (result state) :=
  match phase1 fuel (init_state available requests) with
  | None => None
  | Some (Raise e) => Some (Raise e)
  | Some (Ok st) => let st := hold_rest st in Some (phase2 (holding st) st)
  end.

(** Lines 89-146: the value returned to the caller. *)
Definition assign_seats (fuel : nat) (available : gset string) (requests : dict)
    : option (result (gmap string string)) :=
  fmap (M := result) seat_assignments <$> run fuel available requests.

End Engine.

(** ** [main] *)

(** [main] sorts the keys of the returned [dict[str, str]]; [sorted] keeps
    keys that compare equal in the order the dict gives them, which is the
    order of insertion. The engine is therefore embedded a second time,
    with the result as an association list in insertion order; it is
    related to the first embedding by [o_run_refines]. *)
Abbreviation items := (list (string * string)).

(** [d[k] = v]: in place when the key is present, at the end otherwise. *)
Fixpoint items_set (k v : string) (d : items) : items :=
  match d with
  | [] => [(k, v)]
  | (k', v') :: d' =>
      if decide (k' = k) then (k, v) :: d' else (k', v') :: items_set k v d'
  end.

(** [d[k]]: [KeyError] when absent. *)
Fixpoint items_get (d : items) (k : string) : result string :=
  match d with
  | [] => Raise KeyError
  | (k', v) :: d' => if decide (k' = k) then Ok v else items_get d' k
  end.

Record ostate : Type := OState {
  o_available_seats : gset string;
  o_student_requests : dict;
  o_seat_assignments : items;
  o_seats : list string;
  o_students : list string;
  o_holding : list string;
  o_draws : nat
}.

Definition o_set_seat_assignments (d : items) (st : ostate) : ostate :=
  OState (o_available_seats st) (o_student_requests st) d
         (o_seats st) (o_students st) (o_holding st) (o_draws st).
Definition o_set_seats (l : list string) (st : ostate) : ostate :=
  OState (o_available_seats st) (o_student_requests st) (o_seat_assignments st)
         l (o_students st) (o_holding st) (o_draws st).
Definition o_set_students (l : list string) (st : ostate) : ostate :=
  OState (o_available_seats st) (o_student_requests st) (o_seat_assignments st)
         (o_seats st) l (o_holding st) (o_draws st).
Definition o_set_holding (l : list string) (st : ostate) : ostate :=
  OState (o_available_seats st) (o_student_requests st) (o_seat_assignments st)
         (o_seats st) (o_students st) l (o_draws st).
Definition o_tick (st : ostate) : ostate :=
  OState (o_available_seats st) (o_student_requests st) (o_seat_assignments st)
         (o_seats st) (o_students st) (o_holding st) (S (o_draws st)).

(** The state of the first embedding that an ordered state stands for. *)
Definition to_state (st : ostate) : state :=
  State (o_available_seats st) (o_student_requests st)
        (list_to_map (o_seat_assignments st))
        (o_seats st) (o_students st) (o_holding st) (o_draws st).

Definition o_init_state (available : gset string) (requests : dict) : ostate :=
  OState available requests [] (elements available) (keys requests) [] 0.

Section OrderedEngine.

Variable rnd : nat → nat.

(** Lines 113-123. *)
Fixpoint o_scan_requests (student : string) (prefs : list string) (st : ostate)
    : result ostate :=
  match prefs with
  | [] => Ok st
  | seat :: prefs' =>
      if decide (seat ∈ o_seats st) then
        let st := o_set_seat_assignments
                    (items_set seat student (o_seat_assignments st)) st in
        seats' ← list_remove seat (o_seats st);
        let st := o_set_seats seats' st in
        students' ← list_remove student (o_students st);
        Ok (o_set_students students' st)
      else o_scan_requests student prefs' st
  end.

(** Lines 111-130. *)
Definition o_loop_body (st : ostate) : result ostate :=
  student ← choice (rnd (o_draws st)) (o_students st);
  let st := o_tick st in
  prefs ← dict_get (o_student_requests st) student;
  st ← o_scan_requests student prefs st;
  if decide (student ∈ o_students st) then
    let st := o_set_holding (o_holding st ++ [student]) st in
    students' ← list_remove student (o_students st);
    Ok (o_set_students students' st)
  else Ok st.

(** Line 109. *)
Definition o_loop_cond (st : ostate) : bool :=
  truthy (o_seats st) && truthy (o_students st).

(** Lines 109-130. *)
Fixpoint o_phase1 (fuel : nat) (st : ostate) : option (result ostate) :=
  if o_loop_cond st then
    match fuel with
    | 0 => None
    | S fuel' =>
        match o_loop_body st with
        | Ok st' => o_phase1 fuel' st'
        | Raise e => Some (Raise e)
        end
    end
  else Some (Ok st).

(** Lines 133-134. *)
Definition o_hold_rest (st : ostate) : ostate :=
  if truthy (o_students st)
  then o_set_holding (o_holding st ++ o_students st) st
  else st.

(** Lines 137-144. *)
Fixpoint o_phase2 (held : list string) (st : ostate) : result ostate :=
  match held with
  | [] => Ok st
  | student :: held' =>
      if truthy (o_seats st) then
        seat ← choice (rnd (o_draws st)) (o_seats st);
        let st := o_tick st in
        let st := o_set_seat_assignments
                    (items_set seat student (o_seat_assignments st)) st in
        seats' ← list_remove seat (o_seats st);
        o_phase2 held' (o_set_seats seats' st)
      else o_phase2 held' st
  end.

Definition o_run (fuel : nat) (available : gset string) (requests : dict)
    : option (result ostate) :=
  match o_phase1 fuel (o_init_state available requests) with
  | None => None
  | Some (Raise e) => Some (Raise e)
  | Some (Ok st) =>
      let st := o_hold_rest st in Some (o_phase2 (o_holding st) st)
  end.

(** Lines 89-146, the returned dict in insertion order. *)
Definition o_assign_seats (fuel : nat) (available : gset string)
    (requests : dict) : option (result items) :=
  fmap (M := result) o_seat_assignments <$> o_run fuel available requests.

(** The builtin [int] applied to a seat name: a number, or [None] where it
    raises [ValueError]. *)
Variable int : string → option Z.

(** [sorted(l, key=int)] first computes the key of every element. *)
Fixpoint keyed (l : list string) : result (list (Z * string)) :=
  match l with
  | [] => Ok []
  | seat :: l' =>
      match int seat with
      | None => Raise ValueError
      | Some n => rest ← keyed l'; Ok ((n, seat) :: rest)
      end
  end.

(** A stable sort by key: an element goes in front of the elements that
    followed it and whose key is not smaller. *)
Fixpoint insert_by_key (x : Z * string) (l : list (Z * string))
    : list (Z * string) :=
  match l with
  | [] => [x]
  | y :: l' => if (x.1 <=? y.1)%Z then x :: y :: l' else y :: insert_by_key x l'
  end.

Definition sort_by_key (l : list (Z * string)) : list (Z * string) :=
  foldr insert_by_key [] l.

(** Lines 179-180: one printed line per sorted key. *)
Fixpoint print_lines (d : items) (sorted_keys : list string)
    : result (list string) :=
  match sorted_keys with
  | [] => Ok []
  | seat :: rest =>
      student ← items_get d seat;
      lines ← print_lines d rest;
      Ok ((seat +:+ ": " +:+ student) :: lines)
  end.

(** Lines 148-180: what [main] writes to standard output, line by line;
    log records go elsewhere and are not part of it. *)
Definition main (fuel : nat) (fs : gmap string file) (argv : list string)
    : option (result (list string)) :=
  match argv !! 1 with
  | None => Some (Ok [])
  | Some seat_file_name =>
      if decide (seat_file_name = "") then Some (Ok []) else
      match argv !! 2 with
      | None => Some (Ok [])
      | Some request_file_name =>
          if decide (request_file_name = "") then Some (Ok []) else
          match load_available_seats_file fs seat_file_name with
          | Raise e => Some (Raise e)
          | Ok None => Some (Ok [])
          | Ok (Some available) =>
              match load_student_requests fs request_file_name available with
              | Raise e => Some (Raise e)
              | Ok (None, _) => Some (Ok [])
              | Ok (Some requests, _) =>
                  match o_assign_seats fuel available requests with
                  | None => None
                  | Some (Raise e) => Some (Raise e)
                  | Some (Ok d) =>
                      Some (ks ← keyed d.*1;
                            print_lines d (sort_by_key ks).*2)
                  end
              end
          end
      end
  end.

End OrderedEngine.

(** ** [assign_seats] on a store of objects

    The third embedding keeps the Python objects apart from the names
    that refer to them: a store maps references to objects, the two
    arguments are references into the store of the caller, every
    [list(...)], [.copy()], [[]] and [{}] makes a new object, and
    [remove], [append], [+=] and [d[k] = v] change the object their
    reference points to. A [for] loop reads its list through the
    reference at every step, as the list iterator does. Whether the call
    changes an object of the caller is then a matter of which references
    the code writes through. *)
Abbreviation loc := positive.

Inductive object : Type :=
| SetObj (members : gset string)
| ListObj (items : list string)
| RequestsObj (entries : list (string * loc))
| SeatingObj (entries : gmap string string).

(** The objects, and the number of draws made from the generator. *)
Record store : Type := Store { heap : gmap loc object; drawn : nat }.

(** A computation on the store: [None] when a loop runs out of fuel. *)
Definition prog (X : Type) : Type := store → option (result (X * store)).

Definition ret {X} (x : X) : prog X := λ σ, Some (Ok (x, σ)).
Definition raise {X} (e : exn) : prog X := λ _, Some (Raise e).
Definition out_of_fuel {X} : prog X := λ _, None.
Definition bind {X Y} (m : prog X) (k : X → prog Y) : prog Y := λ σ,
  match m σ with
  | Some (Ok (x, σ')) => k x σ'
  | Some (Raise e) => Some (Raise e)
  | None => None
  end.

Notation "x ⇐ m ;; k" := (bind m (λ x, k))
  (at level 100, m at next level, right associativity).
Notation "m ;;; k" := (bind m (λ _, k))
  (at level 100, right associativity).

(** A new object gets a reference that is not in use. *)
Definition alloc (o : object) : prog loc := λ σ,
  let l := fresh (dom (heap σ)) in
  Some (Ok (l, Store (<[l := o]> (heap σ)) (drawn σ))).

Definition load_obj (l : loc) : prog object := λ σ,
  match heap σ !! l with
  | Some o => Some (Ok (o, σ))
  | None => Some (Raise TypeError)
  end.

Definition store_obj (l : loc) (o : object) : prog unit := λ σ,
  Some (Ok ((), Store (<[l := o]> (heap σ)) (drawn σ))).

Definition as_list (l : loc) : prog (list string) :=
  o ⇐ load_obj l ;;
  match o with
  | ListObj xs => ret xs
  | _ => raise TypeError
  end.

Definition as_set (l : loc) : prog (gset string) :=
  o ⇐ load_obj l ;;
  match o with
  | SetObj A => ret A
  | _ => raise TypeError
  end.

(** [bool(l)] *)
Definition list_truth (l : loc) : prog bool :=
  xs ⇐ as_list l ;; ret (truthy xs).

(** [x in l] *)
Definition list_contains (l : loc) (x : string) : prog bool :=
  xs ⇐ as_list l ;; ret (bool_decide (x ∈ xs)).

(** The step of a list iterator at index [i]. *)
Definition list_item (l : loc) (i : nat) : prog (option string) :=
  xs ⇐ as_list l ;; ret (xs !! i).

(** [l.remove(x)] *)
Definition list_remove_at (l : loc) (x : string) : prog unit :=
  xs ⇐ as_list l ;;
  match list_remove x xs with
  | Ok xs' => store_obj l (ListObj xs')
  | Raise e => raise e
  end.

(** [l.append(x)] *)
Definition list_append (l : loc) (x : string) : prog unit :=
  xs ⇐ as_list l ;; store_obj l (ListObj (xs ++ [x])).

(** [l += l2] *)
Definition list_extend (l l2 : loc) : prog unit :=
  ys ⇐ as_list l2 ;; xs ⇐ as_list l ;; store_obj l (ListObj (xs ++ ys)).

(** [s.copy()] *)
Definition set_copy (s : loc) : prog loc :=
  A ⇐ as_set s ;; alloc (SetObj A).

(** [list(s)] for a set [s] *)
Definition list_of_set (s : loc) : prog loc :=
  A ⇐ as_set s ;; alloc (ListObj (elements A)).

Fixpoint entries_get (entries : list (string * loc)) (k : string) : result loc :=
  match entries with
  | [] => Raise KeyError
  | (k', l) :: entries' => if decide (k' = k) then Ok l else entries_get entries' k
  end.

(** [list(d.keys())] for the request mapping *)
Definition keys_list (d : loc) : prog loc :=
  o ⇐ load_obj d ;;
  match o with
  | RequestsObj entries => alloc (ListObj entries.*1)
  | _ => raise TypeError
  end.

(** [d[k]] for the request mapping: a reference to the list object. *)
Definition requests_getitem (d : loc) (k : string) : prog loc :=
  o ⇐ load_obj d ;;
  match o with
  | RequestsObj entries =>
      match entries_get entries k with
      | Ok l => ret l
      | Raise e => raise e
      end
  | _ => raise TypeError
  end.

(** [d[k] = v] for the returned mapping *)
Definition seating_setitem (d : loc) (k v : string) : prog unit :=
  o ⇐ load_obj d ;;
  match o with
  | SeatingObj m => store_obj d (SeatingObj (<[k := v]> m))
  | _ => raise TypeError
  end.

(** The references the names of [assign_seats] hold. *)
Record vars : Type := Vars {
  v_available_seats : loc;
  v_student_requests : loc;
  v_seat_assignments : loc;
  v_seats : loc;
  v_students : loc;
  v_holding : loc
}.

Section OnStore.

Variable rnd : nat → nat.

(** [random.choice(l)] *)
Definition random_choice (l : loc) : prog string :=
  xs ⇐ as_list l ;;
  λ σ, match choice (rnd (drawn σ)) xs with
       | Ok x => Some (Ok (x, Store (heap σ) (S (drawn σ))))
       | Raise e => Some (Raise e)
       end.

(** Lines 113-123, from index [i] of the list at [prefs]. *)
Fixpoint for_requests (fuel : nat) (v : vars) (student : string) (prefs : loc)
    (i : nat) : prog unit :=
  item ⇐ list_item prefs i ;;
  match item with
  | None => ret ()
  | Some seat =>
      match fuel with
      | 0 => out_of_fuel
      | S fuel' =>
          found ⇐ list_contains (v_seats v) seat ;;
          if found : bool then
            seating_setitem (v_seat_assignments v) seat student ;;;
            list_remove_at (v_seats v) seat ;;;
            list_remove_at (v_students v) student
          else for_requests fuel' v student prefs (S i)
      end
  end.

(** Lines 111-130. *)
Definition loop_body_on (budget : nat) (v : vars) : prog unit :=
  student ⇐ random_choice (v_students v) ;;
  prefs ⇐ requests_getitem (v_student_requests v) student ;;
  for_requests budget v student prefs 0 ;;;
  still ⇐ list_contains (v_students v) student ;;
  if still : bool then
    list_append (v_holding v) student ;;;
    list_remove_at (v_students v) student
  else ret ().

(** Line 109: [seats and students]. *)
Definition loop_cond_on (v : vars) : prog bool :=
  some ⇐ list_truth (v_seats v) ;;
  if some : bool then list_truth (v_students v) else ret false.

(** Lines 109-130; [budget] is the fuel of each inner loop. *)
Fixpoint while_on (budget fuel : nat) (v : vars) : prog unit :=
  go ⇐ loop_cond_on v ;;
  if go : bool then
    match fuel with
    | 0 => out_of_fuel
    | S fuel' => loop_body_on budget v ;;; while_on budget fuel' v
    end
  else ret ().

(** Lines 137-144, from index [i] of [holding]. *)
Fixpoint for_holding (fuel : nat) (v : vars) (i : nat) : prog unit :=
  item ⇐ list_item (v_holding v) i ;;
  match item with
  | None => ret ()
  | Some student =>
      match fuel with
      | 0 => out_of_fuel
      | S fuel' =>
          some ⇐ list_truth (v_seats v) ;;
          (if some : bool then
             seat ⇐ random_choice (v_seats v) ;;
             seating_setitem (v_seat_assignments v) seat student ;;;
             list_remove_at (v_seats v) seat
           else ret ()) ;;;
          for_holding fuel' v (S i)
      end
  end.

(** Lines 89-146: the call with references to the two arguments; it
    returns the reference to the new mapping. *)
Definition assign_seats_on (fuel : nat) (available_seats student_requests : loc)
    : prog loc :=
  seat_assignments ⇐ alloc (SeatingObj ∅) ;;
  copy ⇐ set_copy available_seats ;;
  seats ⇐ list_of_set copy ;;
  students ⇐ keys_list student_requests ;;
  holding ⇐ alloc (ListObj []) ;;
  let v := Vars available_seats student_requests
                seat_assignments seats students holding in
  while_on fuel fuel v ;;;
  rest ⇐ list_truth students ;;
  (if rest : bool then list_extend holding students else ret ()) ;;;
  for_holding fuel v 0 ;;;
  ret seat_assignments.

End OnStore.

(** The store of the caller holds the seat set at [available_seats] and
    the request mapping at [student_requests], each student's list being
    an object of its own or one shared with other students. *)
Definition holds_inputs (h : gmap loc object)
    (available_seats student_requests : loc)
    (A : gset string) (R : dict) : Prop :=
  h !! available_seats = Some (SetObj A) ∧
  ∃ entries,
    h !! student_requests = Some (RequestsObj entries) ∧
    Forall2 (λ (e : string * loc) (r : string * list string),
               e.1 = r.1 ∧ h !! e.2 = Some (ListObj r.2)) entries R.

(** The names of the locals refer to objects made by the call, each its
    own. *)
Definition local_vars (h0 : gmap loc object) (v : vars) : Prop :=
  h0 !! v_seat_assignments v = None ∧ h0 !! v_seats v = None ∧
  h0 !! v_students v = None ∧ h0 !! v_holding v = None ∧
  NoDup [v_seat_assignments v; v_seats v; v_students v; v_holding v].

(** The store [σ] during the call and the state [st] of the first
    embedding say the same; [h0] is the store at the call, [d0] the number
    of draws made before it, [A] and [R] what the two arguments held at
    the call. *)
Definition rep (h0 : gmap loc object) (d0 : nat) (v : vars)
    (A : gset string) (R : dict) (σ : store) (st : state) : Prop :=
  (∀ l o, h0 !! l = Some o → heap σ !! l = Some o) ∧
  heap σ !! v_seat_assignments v = Some (SeatingObj (seat_assignments st)) ∧
  heap σ !! v_seats v = Some (ListObj (seats st)) ∧
  heap σ !! v_students v = Some (ListObj (students st)) ∧
  heap σ !! v_holding v = Some (ListObj (holding st)) ∧
  drawn σ = d0 + draws st ∧
  available_seats st = A ∧ student_requests st = R.

(** ** Specification vocabulary *)

(** What an iteration does to the state once [student] is drawn and
    [prefs] is the student's ranked list: the first listed seat that is
    still in [seats] is assigned, or the student moves to [holding]. *)
Inductive outcome (st : state) (student : string) (prefs : list string)
  : state → Prop :=
| outcome_assigned pre seat post seats' students' :
    prefs = pre ++ seat :: post →
    Forall (λ p, p ∉ seats st) pre →
    seat ∈ seats st →
    list_remove seat (seats st) = Ok seats' →
    list_remove student (students st) = Ok students' →
    outcome st student prefs
      (State (available_seats st) (student_requests st)
             (<[seat := student]> (seat_assignments st))
             seats' students' (holding st) (S (draws st)))
| outcome_held students' :
    Forall (λ p, p ∉ seats st) prefs →
    list_remove student (students st) = Ok students' →
    outcome st student prefs
      (State (available_seats st) (student_requests st) (seat_assignments st)
             (seats st) students' (holding st ++ [student]) (S (draws st))).

(** Every available seat is either a key of the result or still in
    [seats]; every student is either a value of the result, or still in
    [students], or in [holding]; each exactly once. *)
Definition inv (A : gset string) (R : dict) (st : state) : Prop :=
  available_seats st = A ∧ student_requests st = R ∧
  elements A ≡ₚ (map_to_list (seat_assignments st)).*1 ++ seats st ∧
  keys R ≡ₚ (map_to_list (seat_assignments st)).*2 ++ students st ++ holding st.

(** The states at the head of the [while] loop in the run on [A] and [R]. *)
Inductive reachable (rnd : nat → nat) (A : gset string) (R : dict)
  : state → Prop :=
| reach_init : reachable rnd A R (init_state A R)
| reach_iter st st' :
    reachable rnd A R st →
    loop_cond st = true →
    loop_body rnd st = Ok st' →
    reachable rnd A R st'.

(** Nothing to strip on the left. *)
Definition starts_clean (s : string) : Prop :=
  match s with
  | EmptyString => True
  | String c _ => isspace c = false
  end.

(** The preference list a line of the request file gives. *)
Definition requests_of_line (available : gset string) (request : string)
    : list string :=
  valid_requests available ∅ [] (tail (pieces_of request)).

(** A printed line. *)
Definition line_of (entry : string * string) : string :=
  entry.1 +:+ ": " +:+ entry.2.

(** A reading of [int] on plain digit strings, with which the statements
    about [main] are tried. *)
Fixpoint digits_value (acc : Z) (s : string) : option Z :=
  match s with
  | EmptyString => Some acc
  | String c s' =>
      match Ascii.is_nat c with
      | Some d => digits_value (10 * acc + Z.of_nat d)%Z s'
      | None => None
      end
  end.
Definition decimal (s : string) : option Z :=
  match s with
  | EmptyString => None
  | _ => digits_value 0 s
  end.

(** Seat names in the order of the numbers [int] reads from them. *)
Definition by_number (int : string → option Z) (a b : string * string) : Prop :=
  ∃ x y, int a.1 = Some x ∧ int b.1 = Some y ∧ (x ≤ y)%Z.

(** The ordered result never has a key twice. *)
Definition o_wf (st : ostate) : Prop := NoDup (o_seat_assignments st).*1.

(** A line that is blank or holds white space only. *)
Fixpoint all_space (s : string) : bool :=
  match s with
  | EmptyString => true
  | String c s' => isspace c && all_space s'
  end.

(** *** Every run on a concrete input

    The outcomes of all random generators, listed by the index each draw
    selects: a draw on a list of length [n] selects one of [0 .. n-1]. *)
Fixpoint all_phase1 (fuel : nat) (st : state) : list (option (result state)) :=
  if loop_cond st then
    match fuel with
    | 0 => [None]
    | S fuel' =>
        i ← seq 0 (length (students st));
        match loop_body (λ _, i) st with
        | Ok st' => all_phase1 fuel' st'
        | Raise e => [Some (Raise e)]
        end
    end
  else [Some (Ok st)].

Fixpoint all_phase2 (held : list string) (st : state) : list (result state) :=
  match held with
  | [] => [Ok st]
  | student :: held' =>
      i ← seq 0 (1 `max` length (seats st));
      match phase2 (λ _, i) [student] st with
      | Ok st' => all_phase2 held' st'
      | Raise e => [Raise e]
      end
  end.

Definition all_runs (fuel : nat) (available : gset string) (requests : dict)
    : list (option (result state)) :=
  r ← all_phase1 fuel (init_state available requests);
  match r with
  | None => [None]
  | Some (Raise e) => [Some (Raise e)]
  | Some (Ok st) => let st := hold_rest st in Some <$> all_phase2 (holding st) st
  end.

(** The end-to-end example of the specification. *)
Definition ex_seats : gset string := {["1"; "2"; "3"]}.
Definition ex_requests : dict :=
  [("Alice", ["2"; "1"]); ("Bob", ["1"]); ("Carol", [])].
Definition ex_result : gmap string string :=
  {["2" := "Alice"; "1" := "Bob"; "3" := "Carol"]}.

(** A store with a seat set and a request mapping in which two students
    share one list object. *)
Definition caller_heap : gmap loc object :=
  {[ 1%positive := SetObj ex_seats;
     2%positive := RequestsObj [("Alice", 3%positive); ("Bob", 4%positive);
                                ("Carol", 4%positive)];
     3%positive := ListObj ["2"; "1"];
     4%positive := ListObj ["1"] ]}.
Definition caller_requests : dict :=
  [("Alice", ["2"; "1"]); ("Bob", ["1"]); ("Carol", ["1"])].

(** One seat for three students. *)
Definition one_seat : gset string := {["7"]}.
Definition three_students : dict := [("a", ["7"]); ("b", ["7"]); ("c", [])].

(** Preferences that repeat a seat and name a seat that does not exist. *)
Definition unchecked_requests : dict :=
  [("a", ["9"; "1"; "1"]); ("b", ["1"; "9"; "9"])].

(** Five students none of whom lists an available seat. *)
Definition five_students : dict :=
  [("a", []); ("b", ["9"]); ("c", []); ("d", []); ("e", ["9"; "9"])].
Definition five_after_loop : state :=
  State ex_seats five_students ∅ (elements ex_seats) []
        ["a"; "c"; "e"; "d"; "b"] 5.

(** A seat file with a blank line and a line of blanks. *)
Definition seat_file : string :=
  "1

2
   
3
".

(** File systems on which [main] is tried: a seat file of numbers, and one
    with a blank line. *)
Definition numbered_files : gmap string file :=
  {["s" := Text "10
9
"; "r" := Text request_file]}.
Definition blank_line_files : gmap string file :=
  {["s" := Text "1

"; "r" := Text request_file]}.
Definition main_argv : list string := ["assign_seats.py"; "s"; "r"].

Definition ex_check (r : option (result state)) : bool :=
  match r with
  | Some (Ok st) => bool_decide (seat_assignments st = ex_result)
  | _ => false
  end.

(** ** The model at work *)

Example strip_line : strip "  a b
" = "a b".
Proof. reflexivity. Qed.

Example file_lines_seat_file :
  file_lines seat_file = ["1
"; "
"; "2
"; "   
"; "3
"].
Proof. reflexivity. Qed.

Example file_lines_carriage_returns :
  file_lines ("1" +:+ String carriage_return "2" +:+ String newline ""
              +:+ String carriage_return (String newline "3")
              +:+ String carriage_return "")
  = ["1
"; "2
"; "
"; "3
"].
Proof. reflexivity. Qed.

Example remove_first_only :
  list_remove "b" ["a"; "b"; "c"; "b"] = Ok ["a"; "c"; "b"].
Proof. reflexivity. Qed.

Example remove_absent : list_remove "z" ["a"; "b"] = Raise ValueError.
Proof. reflexivity. Qed.

Example choice_empty : choice 4 [] = Raise IndexError.
Proof. reflexivity. Qed.

Example example_one_run :
  assign_seats (λ n, n) 3 ex_seats ex_requests = Some (Ok ex_result).
Proof. vm_compute. reflexivity. Qed.

Example example_short_of_fuel :
  assign_seats (λ n, n) 2 ex_seats ex_requests = None.
Proof. vm_compute. reflexivity. Qed.

Example two_seats_no_preference :
  assign_seats (λ n, n) 1 {["1"; "2"]} [("a", [])] = Some (Ok {["2" := "a"]}).
Proof. vm_compute. reflexivity. Qed.

Example split_comma_trailing : split_comma "a,,b," = ["a"; ""; "b"; ""].
Proof. reflexivity. Qed.

Example load_request_file :
  load_student_requests {["r" := Text request_file]} "r" ex_seats
  = Ok (Some [("Alice", ["2"; "1"]); ("Bob", ["1"])],
        [NoStudentName 3; DuplicateStudent "Alice" 4]).
Proof. vm_compute. reflexivity. Qed.

Example load_requests_io_error :
  load_student_requests {["r" := Unreadable " , 3
"]} "r" ex_seats
  = Ok (None, [NoStudentName 1; RequestsIOError]).
Proof. vm_compute. reflexivity. Qed.

Example load_requests_undecodable :
  load_student_requests {["r" := Undecodable "Alice, 2
"]} "r" ex_seats
  = Raise UnicodeDecodeError.
Proof. vm_compute. reflexivity. Qed.

Example main_undecodable_requests :
  main (λ n, n) decimal 2
       (<["r" := Undecodable "Alice, 2
"]> numbered_files) main_argv
  = Some (Raise UnicodeDecodeError).
Proof. vm_compute. reflexivity. Qed.

Example main_unreadable_seats :
  main (λ n, n) decimal 2 (<["s" := Unreadable "10
"]> numbered_files) main_argv
  = Some (Ok []).
Proof. vm_compute. reflexivity. Qed.

Example main_prints_sorted :
  main (λ n, n) decimal 2 numbered_files main_argv
  = Some (Ok ["9: Bob"; "10: Alice"]).
Proof. vm_compute. reflexivity. Qed.

Example main_blank_seat_line :
  main (λ n, n) decimal 2 blank_line_files main_argv
  = Some (Raise ValueError).
Proof. vm_compute. reflexivity. Qed.

Example call_on_caller_heap :
  ∃ σ', assign_seats_on (λ n, n) 3 1%positive 2%positive (Store caller_heap 0)
          = Some (Ok (5%positive, σ')) ∧
        heap σ' !! 5%positive
          = Some (SeatingObj {["2" := "Alice"; "1" := "Carol"; "3" := "Bob"]}) ∧
        heap σ' !! 4%positive = Some (ListObj ["1"]) ∧
        drawn σ' = 4.
Proof. eexists. split; [vm_compute; reflexivity|]. vm_compute. done. Qed.

(** A [remove] through the reference of Bob's list shows in Carol's, the
    two being one object. *)
Example remove_in_shared_list :
  ∃ σ', list_remove_at 4%positive "1" (Store caller_heap 0) = Some (Ok ((), σ')) ∧
        heap σ' !! 3%positive = Some (ListObj ["2"; "1"]) ∧
        heap σ' !! 4%positive = Some (ListObj []).
Proof. eexists. split; [vm_compute; reflexivity|]. vm_compute. done. Qed.

(** ** Facts about the primitives *)

Ltac unbind := unfold mbind, result_bind, mret, result_ret in *; simpl in *.

Lemma list_remove_inv x l l' :
  list_remove x l = Ok l' →
  ∃ l1 l2, l = l1 ++ x :: l2 ∧ l' = l1 ++ l2 ∧ x ∉ l1.
Proof.
  revert l'. induction l as [|y l IH]; intros l' H; simpl in H; [discriminate|].
  destruct (decide (y = x)) as [->|Hne].
  - injection H as <-. exists [], l. repeat split; [done..|]. apply not_elem_of_nil.
  - unbind. destruct (list_remove x l) as [l''|e]; [|discriminate].
    injection H as <-. destruct (IH _ eq_refl) as (l1 & l2 & -> & -> & Hn).
    exists (y :: l1), l2. repeat split; [done..|].
    apply not_elem_of_cons. split; [congruence | done].
Qed.

Lemma list_remove_ok x l : x ∈ l → ∃ l', list_remove x l = Ok l'.
Proof.
  induction l as [|y l IH]; intros Hin; [by apply elem_of_nil in Hin|].
  simpl. destruct (decide (y = x)) as [->|Hne]; [by eexists|].
  apply elem_of_cons in Hin as [->|Hin]; [done|].
  destruct (IH Hin) as [l' ->]. unbind. by eexists.
Qed.

Lemma list_remove_perm x l l' : list_remove x l = Ok l' → l ≡ₚ x :: l'.
Proof.
  intros (l1 & l2 & -> & -> & _)%list_remove_inv.
  symmetry. apply Permutation_middle.
Qed.

Lemma list_remove_length x l l' :
  list_remove x l = Ok l' → length l = S (length l').
Proof. intros H%list_remove_perm. by rewrite H. Qed.

Lemma list_remove_elem_of x l l' y :
  list_remove x l = Ok l' → y ∈ l' → y ∈ l.
Proof. intros H%list_remove_perm Hy. rewrite H. by apply elem_of_cons; right. Qed.

Lemma list_remove_NoDup x l l' :
  list_remove x l = Ok l' → NoDup l → NoDup l' ∧ x ∉ l'.
Proof.
  intros H%list_remove_perm Hnd. rewrite H in Hnd.
  apply NoDup_cons in Hnd. tauto.
Qed.

Lemma choice_elem r l x : choice r l = Ok x → x ∈ l.
Proof.
  unfold choice. destruct (l !! (r mod length l)) eqn:E; [|discriminate].
  intros [= <-]. by eapply list_elem_of_lookup_2.
Qed.

Lemma choice_ok r l : l ≠ [] → ∃ x, choice r l = Ok x.
Proof.
  intros Hl. unfold choice.
  assert (r mod length l < length l) as Hlt.
  { apply Nat.mod_upper_bound. destruct l; [done | simpl; lia]. }
  apply lookup_lt_is_Some_2 in Hlt as [x ->]. by eexists.
Qed.

Lemma dict_get_ok (d : dict) k : k ∈ keys d → ∃ v, dict_get d k = Ok v.
Proof.
  unfold keys. induction d as [|[k' v] d IH]; simpl; intros Hin.
  - by apply elem_of_nil in Hin.
  - destruct (decide (k' = k)); [by eexists|].
    apply elem_of_cons in Hin as [->|Hin]; [done | by apply IH].
Qed.

Lemma dict_get_elem (d : dict) k v : dict_get d k = Ok v → (k, v) ∈ d.
Proof.
  induction d as [|[k' v'] d IH]; simpl; [done|].
  destruct (decide (k' = k)) as [->|Hne]; intros H.
  - injection H as ->. by apply elem_of_cons; left.
  - apply elem_of_cons; right. by apply IH.
Qed.

Lemma truthy_true {A} (l : list A) : truthy l = true ↔ l ≠ [].
Proof. by destruct l. Qed.

Lemma truthy_false {A} (l : list A) : truthy l = false ↔ l = [].
Proof. by destruct l. Qed.

(** ** One iteration of the first phase *)

Lemma scan_requests_spec student prefs st :
  student ∈ students st →
  (Forall (λ p, p ∉ seats st) prefs ∧ scan_requests student prefs st = Ok st) ∨
  (∃ pre seat post seats' students',
      prefs = pre ++ seat :: post ∧ Forall (λ p, p ∉ seats st) pre ∧
      seat ∈ seats st ∧ list_remove seat (seats st) = Ok seats' ∧
      list_remove student (students st) = Ok students' ∧
      scan_requests student prefs st =
        Ok (State (available_seats st) (student_requests st)
                  (<[seat := student]> (seat_assignments st))
                  seats' students' (holding st) (draws st))).
Proof.
  intros Hs. induction prefs as [|p prefs IH]; simpl.
  - left. by split.
  - destruct (decide (p ∈ seats st)) as [Hp|Hp].
    + right. destruct (list_remove_ok _ _ Hp) as [seats' Hr1].
      destruct (list_remove_ok _ _ Hs) as [students' Hr2].
      exists [], p, prefs, seats', students'.
      rewrite Hr1. unbind. rewrite Hr2. by repeat split.
    + destruct IH as [[Hall Heq]|(pre & seat & post & s' & t' & -> & Hall & H)].
      * left. split; [by constructor | done].
      * right. exists (p :: pre), seat, post, s', t'.
        split; [done|]. split; [by constructor | done].
Qed.

Section Iteration.

Variable rnd : nat → nat.

Lemma loop_body_outcome st :
  NoDup (students st) →
  (∀ x, x ∈ students st → x ∈ keys (student_requests st)) →
  students st ≠ [] →
  ∃ student prefs st',
    choice (rnd (draws st)) (students st) = Ok student ∧
    dict_get (student_requests st) student = Ok prefs ∧
    loop_body rnd st = Ok st' ∧
    outcome st student prefs st'.
Proof.
  intros Hnd Hsub Hne.
  destruct (choice_ok (rnd (draws st)) _ Hne) as [student Hc].
  pose proof (choice_elem _ _ _ Hc) as Hin.
  destruct (dict_get_ok _ _ (Hsub _ Hin)) as [prefs Hg].
  exists student, prefs. unfold loop_body. rewrite Hc. unbind. rewrite Hg.
  destruct (scan_requests_spec student prefs (tick st) Hin)
    as [[Hall ->]|(pre & seat & post & s' & t' & -> & Hall & Hseat & Hr1 & Hr2 & ->)];
    simpl in *.
  - rewrite decide_True by done.
    destruct (list_remove_ok _ _ Hin) as [students' Hr]. rewrite Hr.
    eexists. split; [done|]. split; [done|]. split; [reflexivity|].
    exact (outcome_held st student prefs students' Hall Hr).
  - destruct (list_remove_NoDup _ _ _ Hr2 Hnd) as [_ Hnot].
    rewrite decide_False by done.
    eexists. split; [done|]. split; [done|]. split; [reflexivity|].
    exact (outcome_assigned st student _ pre seat post s' t'
             eq_refl Hall Hseat Hr1 Hr2).
Qed.

End Iteration.

(** ** The invariant of a run *)

Lemma inv_init A R : inv A R (init_state A R).
Proof.
  unfold inv, init_state; simpl. rewrite map_to_list_empty; simpl.
  by rewrite app_nil_r.
Qed.

Lemma free_seat (m : gmap string string) (l : list string) seat :
  NoDup ((map_to_list m).*1 ++ l) → seat ∈ l → m !! seat = None.
Proof.
  intros (_ & Hdisj & _)%NoDup_app Hin.
  destruct (m !! seat) as [v|] eqn:E; [|done].
  exfalso. apply (Hdisj seat); [|done].
  apply list_elem_of_fmap. exists (seat, v). split; [done|].
  by apply elem_of_map_to_list.
Qed.

Lemma inv_free_seat A R st seat :
  inv A R st → seat ∈ seats st → seat_assignments st !! seat = None.
Proof.
  intros (_ & _ & HA & _) Hin. eapply free_seat; [|done].
  rewrite <- HA. apply NoDup_elements.
Qed.

Lemma inv_NoDup_seats A R st : inv A R st → NoDup (seats st).
Proof.
  intros (_ & _ & HA & _).
  pose proof (NoDup_elements A) as Hnd. rewrite HA in Hnd.
  by apply NoDup_app in Hnd as (_ & _ & ?).
Qed.

Lemma inv_NoDup_people A R st :
  dict_wf R → inv A R st →
  NoDup ((map_to_list (seat_assignments st)).*2 ++ students st ++ holding st).
Proof. intros Hwf (_ & _ & _ & HR). unfold dict_wf in Hwf. by rewrite HR in Hwf. Qed.

Lemma inv_NoDup_students A R st : dict_wf R → inv A R st → NoDup (students st).
Proof.
  intros Hwf Hinv. pose proof (inv_NoDup_people _ _ _ Hwf Hinv) as Hnd.
  apply NoDup_app in Hnd as (_ & _ & Hnd). by apply NoDup_app in Hnd as (? & _).
Qed.

Lemma inv_students_keys A R st x :
  inv A R st → x ∈ students st → x ∈ keys (student_requests st).
Proof.
  intros (_ & -> & _ & HR) Hin. rewrite HR.
  apply elem_of_app; right. by apply elem_of_app; left.
Qed.

Lemma outcome_inv A R st student prefs st' :
  inv A R st → outcome st student prefs st' → inv A R st'.
Proof.
  intros Hinv Ho. pose proof Hinv as (HA0 & HR0 & HA & HR).
  destruct Ho as [pre seat post seats' students' _ _ Hseat Hr1 Hr2
                 | students' _ Hr2]; unfold inv; simpl.
  - split; [done|]. split; [done|].
    pose proof (inv_free_seat _ _ _ _ Hinv Hseat) as Hfree.
    rewrite (map_to_list_insert _ _ _ Hfree); simpl.
    apply list_remove_perm in Hr1, Hr2.
    rewrite HA, HR, Hr1, Hr2; simpl. split.
    + by rewrite <- Permutation_middle.
    + by rewrite <- Permutation_middle.
  - split; [done|]. split; [done|]. split; [done|].
    apply list_remove_perm in Hr2. rewrite HR, Hr2; simpl.
    apply Permutation_app_head.
    rewrite (assoc_L (++)). rewrite <- Permutation_cons_append. done.
Qed.

Lemma outcome_frame st student prefs st' :
  outcome st student prefs st' →
  available_seats st' = available_seats st ∧
  student_requests st' = student_requests st ∧
  length (students st) = S (length (students st')) ∧
  draws st' = S (draws st).
Proof.
  intros [pre seat post seats' students' _ _ _ _ Hr | students' _ Hr]; simpl;
    apply list_remove_length in Hr; done.
Qed.

(** ** The first phase *)

Lemma loop_cond_true st :
  loop_cond st = true ↔ seats st ≠ [] ∧ students st ≠ [].
Proof.
  unfold loop_cond. rewrite andb_true_iff, !truthy_true. done.
Qed.

Lemma loop_cond_false st :
  loop_cond st = false ↔ seats st = [] ∨ students st = [].
Proof.
  unfold loop_cond. rewrite andb_false_iff, !truthy_false. done.
Qed.

Section Run.

Variable rnd : nat → nat.
Variable A : gset string.
Variable R : dict.
Hypothesis R_wf : dict_wf R.

Lemma loop_step st :
  inv A R st → loop_cond st = true →
  ∃ student prefs st',
    choice (rnd (draws st)) (students st) = Ok student ∧
    dict_get R student = Ok prefs ∧
    loop_body rnd st = Ok st' ∧
    outcome st student prefs st' ∧
    inv A R st'.
Proof.
  intros Hinv [_ Hne]%loop_cond_true.
  destruct (loop_body_outcome rnd st) as (student & prefs & st' & Hc & Hg & Hb & Ho).
  - by eapply inv_NoDup_students.
  - intros x. by eapply inv_students_keys.
  - done.
  - exists student, prefs, st'. pose proof Hinv as (_ & HR & _).
    rewrite HR in Hg. do 4 (split; [done|]).
    by eapply outcome_inv.
Qed.

Lemma reachable_inv st : reachable rnd A R st → inv A R st.
Proof.
  induction 1 as [|st st' _ IH Hcond Hbody]; [apply inv_init|].
  destruct (loop_step st IH Hcond) as (? & ? & st'' & _ & _ & Hb & _ & Hinv).
  rewrite Hbody in Hb. by injection Hb as ->.
Qed.

Lemma phase1_spec fuel st :
  reachable rnd A R st → length (students st) ≤ fuel →
  ∃ st', phase1 rnd fuel st = Some (Ok st') ∧
         reachable rnd A R st' ∧ loop_cond st' = false ∧
         draws st' + length (students st') = draws st + length (students st).
Proof.
  revert st. induction fuel as [|fuel IH]; intros st Hreach Hlen.
  - exists st. simpl.
    assert (loop_cond st = false) as Hc.
    { apply loop_cond_false. right. destruct (students st); [done | simpl in Hlen; lia]. }
    by rewrite Hc.
  - simpl. destruct (loop_cond st) eqn:Hc; [|by exists st].
    destruct (loop_step st (reachable_inv _ Hreach) Hc)
      as (student & prefs & st1 & _ & _ & Hb & Ho & _).
    rewrite Hb. apply outcome_frame in Ho as (_ & _ & Hl & Hd).
    destruct (IH st1) as (st' & Hp & Hr' & Hc' & Hdraws).
    + by eapply reach_iter.
    + lia.
    + exists st'. repeat split; [done..|]. lia.
Qed.

(** Spare fuel changes nothing. *)
Lemma phase1_fuel fuel fuel' st r :
  phase1 rnd fuel st = Some r → fuel ≤ fuel' → phase1 rnd fuel' st = Some r.
Proof.
  revert fuel' st. induction fuel as [|fuel IH]; intros fuel' st H Hle; simpl in H.
  - destruct (loop_cond st) eqn:Hc; [discriminate|].
    destruct fuel'; simpl; by rewrite Hc.
  - destruct fuel' as [|fuel']; [lia|]. simpl.
    destruct (loop_cond st); [|done].
    destruct (loop_body rnd st); [|done]. apply IH; [done | lia].
Qed.

(** ** The second phase *)

Lemma hold_rest_holding st : holding (hold_rest st) = holding st ++ students st.
Proof.
  unfold hold_rest. destruct (students st); simpl; [by rewrite app_nil_r | done].
Qed.

Lemma hold_rest_frame st :
  available_seats (hold_rest st) = available_seats st ∧
  student_requests (hold_rest st) = student_requests st ∧
  seat_assignments (hold_rest st) = seat_assignments st ∧
  seats (hold_rest st) = seats st ∧
  students (hold_rest st) = students st ∧
  draws (hold_rest st) = draws st.
Proof. unfold hold_rest. by destruct (truthy (students st)). Qed.

(** The seats handed out by the second phase, in the order of [held]:
    the [i]-th held student gets the [i]-th seat of [given]. *)
Lemma phase2_spec held st :
  NoDup (seats st) →
  (∀ s, s ∈ seats st → seat_assignments st !! s = None) →
  ∃ st' given,
    phase2 rnd held st = Ok st' ∧
    seats st ≡ₚ given ++ seats st' ∧
    length given = length held `min` length (seats st) ∧
    map_to_list (seat_assignments st') ≡ₚ
      zip given held ++ map_to_list (seat_assignments st) ∧
    available_seats st' = available_seats st ∧
    student_requests st' = student_requests st ∧
    students st' = students st ∧
    holding st' = holding st ∧
    draws st' = draws st + length given.
Proof.
  revert st. induction held as [|student held IH]; intros st Hnd Hfree.
  - exists st, []. simpl. repeat split; try done.
  - cbn [phase2]. destruct (truthy (seats st)) eqn:Ht.
    + apply truthy_true in Ht.
      destruct (choice_ok (rnd (draws st)) (seats st) Ht) as [seat Hc].
      pose proof (choice_elem _ _ _ Hc) as Hin.
      destruct (list_remove_ok _ _ Hin) as [seats' Hr].
      rewrite Hc. unfold mbind, result_bind. cbv beta iota zeta.
      change (seats (set_seat_assignments _ (tick st))) with (seats st).
      rewrite Hr.
      destruct (list_remove_NoDup _ _ _ Hr Hnd) as [Hnd' Hnot].
      pose proof (list_remove_perm _ _ _ Hr) as Hperm.
      set (st1 := set_seats seats' _).
      destruct (IH st1) as (st' & given & Hp & Hperm' & Hlen & Hmap & Hrest).
      { done. }
      { simpl. intros s Hs. rewrite lookup_insert_ne by by intros ->.
        apply Hfree. by eapply list_remove_elem_of. }
      exists st', (seat :: given). simpl in Hperm', Hlen, Hmap, Hrest.
      split; [done|]. split; [by rewrite Hperm, Hperm'|].
      split; [apply Permutation_length in Hperm; cbn [length] in *; lia|].
      split.
      { rewrite Hmap, (map_to_list_insert _ _ _ (Hfree _ Hin)).
        simpl. by rewrite <- Permutation_middle. }
      destruct Hrest as (-> & -> & -> & -> & ->). repeat split. simpl. lia.
    + apply truthy_false in Ht.
      destruct (IH st Hnd Hfree) as (st' & given & Hp & Hperm & Hlen & Hrest).
      rewrite Ht in Hlen. rewrite Nat.min_0_r in Hlen.
      destruct given; [|done]. exists st', [].
      split; [done|]. split; [done|]. split; [by rewrite Ht, Nat.min_0_r|].
      done.
Qed.

End Run.

(** ** The whole run *)

Lemma zip_given (given held : list string) :
  length given ≤ length held →
  (zip given held).*1 = given ∧
  (zip given held).*2 = take (length given) held.
Proof.
  intros Hle. split; [by apply fst_zip|].
  rewrite <- (zip_with_take_r pair given held).
  apply snd_zip. rewrite length_take. lia.
Qed.

Section Summary.

Variable rnd : nat → nat.
Variable A : gset string.
Variable R : dict.
Hypothesis R_wf : dict_wf R.

(** The run never raises and never runs out of fuel [length R]; [st1] is
    the state when the loop is left, [given] the seats handed out to the
    first students of the holding list, in that order. *)
Lemma run_spec fuel :
  length R ≤ fuel →
  ∃ st1 st' given,
    phase1 rnd fuel (init_state A R) = Some (Ok st1) ∧
    reachable rnd A R st1 ∧ loop_cond st1 = false ∧
    draws st1 + length (students st1) = length R ∧
    run rnd fuel A R = Some (Ok st') ∧
    phase2 rnd (holding st1 ++ students st1) (hold_rest st1) = Ok st' ∧
    seats st1 ≡ₚ given ++ seats st' ∧
    length given = length (holding st1 ++ students st1) `min` length (seats st1) ∧
    map_to_list (seat_assignments st') ≡ₚ
      zip given (holding st1 ++ students st1)
      ++ map_to_list (seat_assignments st1) ∧
    available_seats st' = A ∧ student_requests st' = R ∧
    draws st' = draws st1 + length given.
Proof.
  intros Hfuel.
  destruct (phase1_spec rnd A R R_wf fuel (init_state A R))
    as (st1 & Hp1 & Hreach & Hcond & Hdraws).
  { constructor. }
  { simpl. unfold keys. by rewrite length_fmap. }
  simpl in Hdraws. unfold keys in Hdraws. rewrite length_fmap in Hdraws.
  pose proof (reachable_inv rnd A R R_wf _ Hreach) as Hinv.
  destruct (hold_rest_frame st1) as (HfA & HfR & Hfm & Hfs & _ & Hfd).
  destruct (phase2_spec rnd (holding (hold_rest st1)) (hold_rest st1))
    as (st' & given & Hp2 & Hperm & Hlen & Hmap & HA & HR & _ & _ & Hd).
  { rewrite Hfs. by eapply inv_NoDup_seats. }
  { rewrite Hfs, Hfm. intros s. by eapply inv_free_seat. }
  rewrite hold_rest_holding in Hp2, Hlen, Hmap.
  rewrite Hfs in Hperm, Hlen. rewrite Hfm in Hmap.
  destruct Hinv as (HA1 & HR1 & _).
  exists st1, st', given. unfold run. rewrite Hp1.
  cbv zeta. rewrite hold_rest_holding, Hp2.
  repeat split; try done; try congruence; lia.
Qed.

(** The final state: the seats and students left without a partner. *)
Lemma run_final fuel :
  length R ≤ fuel →
  ∃ st' left_seats left_students,
    run rnd fuel A R = Some (Ok st') ∧
    available_seats st' = A ∧ student_requests st' = R ∧
    elements A ≡ₚ (map_to_list (seat_assignments st')).*1 ++ left_seats ∧
    keys R ≡ₚ (map_to_list (seat_assignments st')).*2 ++ left_students ∧
    (left_seats = [] ∨ left_students = []).
Proof.
  intros Hfuel.
  destruct (run_spec fuel Hfuel)
    as (st1 & st' & given & _ & Hreach & _ & _ & Hrun & _ & Hperm & Hlen
        & Hmap & HA & HR & _).
  pose proof (reachable_inv rnd A R R_wf _ Hreach) as (_ & _ & HA1 & HR1).
  set (H := holding st1 ++ students st1) in *.
  destruct (zip_given given H) as [Hz1 Hz2]; [lia|].
  exists st', (seats st'), (drop (length given) H).
  split; [done|]. split; [done|]. split; [done|].
  rewrite Hmap, !fmap_app, Hz1, Hz2. split; [|split].
  - rewrite HA1, Hperm. solve_Permutation.
  - rewrite HR1. rewrite (Permutation_app_comm (students st1)). fold H.
    rewrite <- (take_drop (length given) H) at 1. solve_Permutation.
  - destruct (decide (length H ≤ length (seats st1))) as [Hle|Hgt].
    + right. apply drop_ge. lia.
    + left. apply Permutation_length in Hperm. rewrite length_app in Hperm.
      destruct (seats st'); [done | simpl in Hperm; lia].
Qed.

Lemma run_fuel fuel st' :
  run rnd (length R) A R = Some (Ok st') → length R ≤ fuel →
  run rnd fuel A R = Some (Ok st').
Proof.
  unfold run. intros Hrun Hle.
  destruct (phase1 rnd (length R) (init_state A R)) as [r|] eqn:Hp; [|done].
  by rewrite (phase1_fuel rnd _ fuel _ _ Hp Hle).
Qed.

End Summary.

Lemma assign_seats_run rnd fuel A R st' :
  run rnd fuel A R = Some (Ok st') →
  assign_seats rnd fuel A R = Some (Ok (seat_assignments st')).
Proof. unfold assign_seats. by intros ->. Qed.

(** ** Listing every run *)

Lemma loop_body_draw rnd st :
  loop_body rnd st =
  loop_body (λ _, rnd (draws st) mod length (students st)) st.
Proof.
  unfold loop_body, choice. by rewrite Nat.Div0.mod_mod.
Qed.

Lemma phase2_cons rnd student held st :
  phase2 rnd (student :: held) st =
  match phase2 rnd [student] st with
  | Ok st' => phase2 rnd held st'
  | Raise e => Raise e
  end.
Proof.
  cbn [phase2]. destruct (truthy (seats st)); [|done].
  unfold mbind, result_bind.
  destruct (choice _ _); [|done]. cbv zeta.
  by destruct (list_remove _ _).
Qed.

Lemma phase2_draw rnd student st :
  phase2 rnd [student] st =
  phase2 (λ _, rnd (draws st) mod length (seats st)) [student] st.
Proof.
  cbn [phase2]. destruct (truthy (seats st)); [|done].
  unfold choice. by rewrite Nat.Div0.mod_mod.
Qed.

Lemma phase1_listed rnd fuel st : phase1 rnd fuel st ∈ all_phase1 fuel st.
Proof.
  revert st. induction fuel as [|fuel IH]; intros st; simpl;
    destruct (loop_cond st) eqn:Hc; try apply list_elem_of_singleton; try done.
  apply list_elem_of_bind.
  exists (rnd (draws st) mod length (students st)). split.
  - rewrite <- loop_body_draw.
    destruct (loop_body rnd st); [apply IH | by apply list_elem_of_singleton].
  - apply elem_of_seq. split; [lia|]. simpl.
    apply Nat.mod_upper_bound. apply loop_cond_true in Hc as [_ Hne].
    destruct (students st); [done | simpl; lia].
Qed.

Lemma phase2_listed rnd held st : phase2 rnd held st ∈ all_phase2 held st.
Proof.
  revert st. induction held as [|student held IH]; intros st.
  - by apply list_elem_of_singleton.
  - rewrite phase2_cons. cbn [all_phase2]. apply list_elem_of_bind.
    destruct (seats st) as [|s l] eqn:Hs.
    + exists 0. split; [|by apply elem_of_seq; simpl; lia].
      assert (∀ r, phase2 r [student] st = Ok st) as Hno.
      { intros r. cbn [phase2]. by rewrite Hs. }
      rewrite !Hno. apply IH.
    + exists (rnd (draws st) mod length (seats st)). split.
      * rewrite <- phase2_draw.
        destruct (phase2 rnd [student] st);
          [apply IH | by apply list_elem_of_singleton].
      * apply elem_of_seq. split; [lia|].
        pose proof (Nat.mod_upper_bound (rnd (draws st)) (length (seats st))).
        rewrite Hs in *. simpl in *. lia.
Qed.

Lemma run_listed rnd fuel A R : run rnd fuel A R ∈ all_runs fuel A R.
Proof.
  unfold run, all_runs. apply list_elem_of_bind.
  exists (phase1 rnd fuel (init_state A R)). split; [|apply phase1_listed].
  destruct (phase1 _ _ _) as [[st|e]|]; try by apply list_elem_of_singleton.
  cbv zeta. apply list_elem_of_fmap_2, phase2_listed.
Qed.

(** ** The end-to-end example *)

Lemma ex_requests_wf : dict_wf ex_requests.
Proof. apply (bool_decide_unpack _). by vm_compute. Qed.

Lemma ex_all_runs : forallb ex_check (all_runs 3 ex_seats ex_requests) = true.
Proof. vm_compute. reflexivity. Qed.

(** Whatever the generator draws, Alice gets seat 2, Bob seat 1 and Carol
    seat 3. *)
Lemma ex_run rnd fuel :
  3 ≤ fuel →
  ∃ st, run rnd fuel ex_seats ex_requests = Some (Ok st) ∧
        seat_assignments st = ex_result.
Proof.
  intros Hfuel.
  pose proof (proj1 (forallb_forall _ _) ex_all_runs
                (run rnd 3 ex_seats ex_requests)) as Hall.
  unfold ex_check in Hall.
  destruct (run rnd 3 ex_seats ex_requests) as [[st|e]|] eqn:Hrun.
  - exists st. split.
    + by apply (run_fuel rnd ex_seats ex_requests).
    + eapply bool_decide_eq_true_1. apply Hall.
      apply list_elem_of_In. rewrite <- Hrun. apply run_listed.
  - exfalso. cut (false = true); [done|]. apply Hall.
    apply list_elem_of_In. rewrite <- Hrun. apply run_listed.
  - exfalso. cut (false = true); [done|]. apply Hall.
    apply list_elem_of_In. rewrite <- Hrun. apply run_listed.
Qed.

(** ** Entries of the returned mapping *)

Lemma NoDup_fmap_inj {X Y} (f : X → Y) (l : list X) x y :
  NoDup (f <$> l) → x ∈ l → y ∈ l → f x = f y → x = y.
Proof.
  induction l as [|a l IH]; simpl; intros Hnd Hx Hy Heq.
  - by apply elem_of_nil in Hx.
  - apply NoDup_cons in Hnd as [Ha Hnd].
    apply elem_of_cons in Hx as [->|Hx]; apply elem_of_cons in Hy as [->|Hy].
    + done.
    + exfalso. apply Ha. rewrite Heq. by apply list_elem_of_fmap_2.
    + exfalso. apply Ha. rewrite <- Heq. by apply list_elem_of_fmap_2.
    + by apply IH.
Qed.

Lemma entry_key (m : gmap string string) k v :
  m !! k = Some v → k ∈ (map_to_list m).*1.
Proof.
  intros H%elem_of_map_to_list. apply list_elem_of_fmap. by exists (k, v).
Qed.

Lemma entry_value (m : gmap string string) k v :
  m !! k = Some v → v ∈ (map_to_list m).*2.
Proof.
  intros H%elem_of_map_to_list. apply list_elem_of_fmap. by exists (k, v).
Qed.

Lemma values_inj (m : gmap string string) k1 k2 v :
  NoDup (map_to_list m).*2 → m !! k1 = Some v → m !! k2 = Some v → k1 = k2.
Proof.
  intros Hnd H1%elem_of_map_to_list H2%elem_of_map_to_list.
  by pose proof (NoDup_fmap_inj snd _ (k1, v) (k2, v) Hnd H1 H2 eq_refl) as [= ->].
Qed.

Lemma map_img_size (m : gmap string string) :
  NoDup (map_to_list m).*2 → size (map_img m : gset string) = size m.
Proof.
  intros Hnd. unfold map_img, map_to_set.
  change (uncurry (λ (_ : string) (x : string), x) <$> map_to_list m)
    with ((map_to_list m).*2).
  rewrite size_list_to_set by done.
  by rewrite length_fmap, length_map_to_list.
Qed.

Lemma size_gset_elements (A : gset string) : size A = length (elements A).
Proof. done. Qed.

(** ** Properties of the engine *)

(** C1. For every seat set and every student-preference mapping, the
    mapping returned by [assign_seats] has exactly
    [min (|available_seats|, |student_requests|)] entries; when there are
    more students than seats, exactly [|seats|] distinct students are
    assigned. The preference lists need not satisfy any precondition. *)
Theorem assign_seats_size rnd fuel (A : gset string) (R : dict) :
  dict_wf R → length R ≤ fuel →
  ∃ m, assign_seats rnd fuel A R = Some (Ok m) ∧
       size m = size A `min` length R ∧
       (size A < length R →
        size m = size A ∧ size (map_img m : gset string) = size A).
Proof.
  intros Hwf Hfuel.
  destruct (run_final rnd A R Hwf fuel Hfuel)
    as (st' & ls & lt & Hrun & _ & _ & HA & HR & Hempty).
  exists (seat_assignments st'). split; [by apply assign_seats_run|].
  assert (NoDup (map_to_list (seat_assignments st')).*2) as Hnd.
  { unfold dict_wf in Hwf. rewrite HR in Hwf. by apply NoDup_app in Hwf as (? & _). }
  apply Permutation_length in HA, HR.
  rewrite length_app, length_fmap, length_map_to_list in HA, HR.
  unfold keys in HR. rewrite length_fmap in HR.
  rewrite size_gset_elements, map_img_size by done.
  destruct Hempty as [-> | ->]; simpl in *; lia.
Qed.

Lemma assign_seats_size_witness :
  dict_wf three_students ∧ length three_students ≤ 3 ∧
  ∃ m, assign_seats (λ n, n) 3 one_seat three_students = Some (Ok m) ∧
       size m = size one_seat `min` length three_students ∧
       (size one_seat < length three_students →
        size m = size one_seat ∧ size (map_img m : gset string) = size one_seat).
Proof.
  assert (dict_wf three_students) as Hwf
    by (apply (bool_decide_unpack _); vm_compute; exact I).
  assert (length three_students ≤ 3) as Hfuel by (simpl; lia).
  split; [exact Hwf|]. split; [exact Hfuel|].
  exact (assign_seats_size (λ n, n) 3 one_seat three_students Hwf Hfuel).
Defined.

(** C2. In every run the returned mapping has no seat key twice and no
    student as the value of two entries. *)
Theorem assign_seats_no_double_booking rnd fuel (A : gset string) (R : dict) :
  dict_wf R → length R ≤ fuel →
  ∃ m, assign_seats rnd fuel A R = Some (Ok m) ∧
       NoDup (map_to_list m).*1 ∧
       NoDup (map_to_list m).*2 ∧
       (∀ seat1 seat2 student,
           m !! seat1 = Some student → m !! seat2 = Some student →
           seat1 = seat2).
Proof.
  intros Hwf Hfuel.
  destruct (run_final rnd A R Hwf fuel Hfuel)
    as (st' & ls & lt & Hrun & _ & _ & _ & HR & _).
  exists (seat_assignments st'). split; [by apply assign_seats_run|].
  assert (NoDup (map_to_list (seat_assignments st')).*2) as Hnd.
  { unfold dict_wf in Hwf. rewrite HR in Hwf. by apply NoDup_app in Hwf as (? & _). }
  split; [apply NoDup_fst_map_to_list|]. split; [done|].
  intros seat1 seat2 student. by apply values_inj.
Qed.

Lemma assign_seats_no_double_booking_witness :
  dict_wf ex_requests ∧ length ex_requests ≤ 3 ∧
  ∃ m, assign_seats (λ n, 2 * n) 3 ex_seats ex_requests = Some (Ok m) ∧
       NoDup (map_to_list m).*1 ∧
       NoDup (map_to_list m).*2 ∧
       (∀ seat1 seat2 student,
           m !! seat1 = Some student → m !! seat2 = Some student →
           seat1 = seat2).
Proof.
  assert (dict_wf ex_requests) as Hwf
    by (apply (bool_decide_unpack _); vm_compute; exact I).
  assert (length ex_requests ≤ 3) as Hfuel by (simpl; lia).
  split; [exact Hwf|]. split; [exact Hfuel|].
  exact (assign_seats_no_double_booking (λ n, 2 * n) 3 ex_seats ex_requests
           Hwf Hfuel).
Defined.

(** C3. On seats 1, 2, 3 and the requests Alice: 2, 1; Bob: 1; Carol: none,
    every run assigns all three students (three entries), gives Alice seat 2
    or seat 1 and never both, and gives Carol the seat that neither Alice
    nor Bob holds. *)
Theorem example_run rnd fuel :
  3 ≤ fuel →
  ∃ m, assign_seats rnd fuel ex_seats ex_requests = Some (Ok m) ∧
       size m = 3 ∧
       (∀ student, student ∈ keys ex_requests → ∃ seat, m !! seat = Some student) ∧
       (m !! "2" = Some "Alice" ∨ m !! "1" = Some "Alice") ∧
       ¬ (m !! "2" = Some "Alice" ∧ m !! "1" = Some "Alice") ∧
       (∀ seat, seat ∈ ex_seats →
          m !! seat ≠ Some "Alice" → m !! seat ≠ Some "Bob" →
          m !! seat = Some "Carol").
Proof.
  intros Hfuel. destruct (ex_run rnd fuel Hfuel) as (st & Hrun & Hm).
  exists (seat_assignments st). split; [by apply assign_seats_run|].
  rewrite Hm. split; [by vm_compute|]. split; [|split; [|split]].
  - intros student Hin. unfold ex_requests, keys in Hin. simpl in Hin.
    apply elem_of_cons in Hin as [->|Hin]; [by exists "2"; vm_compute|].
    apply elem_of_cons in Hin as [->|Hin]; [by exists "1"; vm_compute|].
    apply elem_of_cons in Hin as [->|Hin]; [by exists "3"; vm_compute|].
    by apply elem_of_nil in Hin.
  - left. by vm_compute.
  - intros [_ H1]. vm_compute in H1. discriminate.
  - intros seat Hin HA HB. unfold ex_seats in Hin.
    apply elem_of_union in Hin as [Hin|Hin%elem_of_singleton];
      [apply elem_of_union in Hin as [Hin%elem_of_singleton|Hin%elem_of_singleton]|];
      subst seat.
    + exfalso. apply HB. by vm_compute.
    + exfalso. apply HA. by vm_compute.
    + by vm_compute.
Qed.

Lemma example_run_witness :
  3 ≤ 3 ∧
  ∃ m, assign_seats (λ n, n) 3 ex_seats ex_requests = Some (Ok m) ∧
       size m = 3 ∧
       (∀ student, student ∈ keys ex_requests → ∃ seat, m !! seat = Some student) ∧
       (m !! "2" = Some "Alice" ∨ m !! "1" = Some "Alice") ∧
       ¬ (m !! "2" = Some "Alice" ∧ m !! "1" = Some "Alice") ∧
       (∀ seat, seat ∈ ex_seats →
          m !! seat ≠ Some "Alice" → m !! seat ≠ Some "Bob" →
          m !! seat = Some "Carol").
Proof.
  assert (3 ≤ 3) as Hfuel by lia.
  split; [exact Hfuel|]. exact (example_run (λ n, n) 3 Hfuel).
Defined.

(** C4. [assign_seats] raises no error on any input: it returns a mapping,
    which is empty when the seat set or the student mapping is empty. In
    the model an empty [random.choice] and a [remove] of an absent element
    raise, so the statement covers every internal choice and removal. *)
Theorem assign_seats_never_raises rnd fuel (A : gset string) (R : dict) :
  dict_wf R → length R ≤ fuel →
  ∃ m, assign_seats rnd fuel A R = Some (Ok m) ∧
       (A = ∅ ∨ R = [] → m = ∅).
Proof.
  intros Hwf Hfuel.
  destruct (run_final rnd A R Hwf fuel Hfuel)
    as (st' & ls & lt & Hrun & _ & _ & HA & HR & _).
  exists (seat_assignments st'). split; [by apply assign_seats_run|].
  intros [-> | ->]; apply map_to_list_empty_iff.
  - rewrite elements_empty in HA. apply Permutation_nil in HA.
    apply app_eq_nil in HA as [HA _]. by apply fmap_nil_inv in HA.
  - simpl in HR. apply Permutation_nil in HR.
    apply app_eq_nil in HR as [HR _]. by apply fmap_nil_inv in HR.
Qed.

Lemma assign_seats_never_raises_witness :
  dict_wf three_students ∧ length three_students ≤ 5 ∧
  ∃ m, assign_seats (λ n, 7 * n + 1) 5 ∅ three_students = Some (Ok m) ∧
       ((∅ : gset string) = ∅ ∨ three_students = [] → m = ∅).
Proof.
  assert (dict_wf three_students) as Hwf
    by (apply (bool_decide_unpack _); vm_compute; exact I).
  assert (length three_students ≤ 5) as Hfuel by (simpl; lia).
  split; [exact Hwf|]. split; [exact Hfuel|].
  exact (assign_seats_never_raises (λ n, 7 * n + 1) 5 ∅ three_students Hwf Hfuel).
Defined.

(** ** The call on a store of objects *)

Lemma bind_ok {X Y} (m : prog X) (k : X → prog Y) σ x σ' :
  m σ = Some (Ok (x, σ')) → bind m k σ = k x σ'.
Proof. unfold bind. by intros ->. Qed.

Lemma bind_raise {X Y} (m : prog X) (k : X → prog Y) σ e :
  m σ = Some (Raise e) → bind m k σ = Some (Raise e).
Proof. unfold bind. by intros ->. Qed.

Lemma as_list_ok l xs σ :
  heap σ !! l = Some (ListObj xs) → as_list l σ = Some (Ok (xs, σ)).
Proof. unfold as_list, bind, load_obj. by intros ->. Qed.

Lemma as_set_ok l A σ :
  heap σ !! l = Some (SetObj A) → as_set l σ = Some (Ok (A, σ)).
Proof. unfold as_set, bind, load_obj. by intros ->. Qed.

Lemma list_truth_ok l xs σ :
  heap σ !! l = Some (ListObj xs) → list_truth l σ = Some (Ok (truthy xs, σ)).
Proof. intros H. unfold list_truth. by rewrite (bind_ok _ _ _ _ _ (as_list_ok _ _ _ H)). Qed.

Lemma list_contains_ok l x xs σ :
  heap σ !! l = Some (ListObj xs) →
  list_contains l x σ = Some (Ok (bool_decide (x ∈ xs), σ)).
Proof. intros H. unfold list_contains. by rewrite (bind_ok _ _ _ _ _ (as_list_ok _ _ _ H)). Qed.

Lemma list_item_ok l i xs σ :
  heap σ !! l = Some (ListObj xs) → list_item l i σ = Some (Ok (xs !! i, σ)).
Proof. intros H. unfold list_item. by rewrite (bind_ok _ _ _ _ _ (as_list_ok _ _ _ H)). Qed.

Lemma list_remove_at_ok l x xs σ :
  heap σ !! l = Some (ListObj xs) →
  list_remove_at l x σ =
  match list_remove x xs with
  | Ok xs' => Some (Ok ((), Store (<[l := ListObj xs']> (heap σ)) (drawn σ)))
  | Raise e => Some (Raise e)
  end.
Proof.
  intros H. unfold list_remove_at.
  rewrite (bind_ok _ _ _ _ _ (as_list_ok _ _ _ H)).
  by destruct (list_remove x xs).
Qed.

Lemma list_append_ok l x xs σ :
  heap σ !! l = Some (ListObj xs) →
  list_append l x σ =
  Some (Ok ((), Store (<[l := ListObj (xs ++ [x])]> (heap σ)) (drawn σ))).
Proof.
  intros H. unfold list_append.
  by rewrite (bind_ok _ _ _ _ _ (as_list_ok _ _ _ H)).
Qed.

Lemma list_extend_ok l l2 xs ys σ :
  heap σ !! l = Some (ListObj xs) → heap σ !! l2 = Some (ListObj ys) →
  list_extend l l2 σ =
  Some (Ok ((), Store (<[l := ListObj (xs ++ ys)]> (heap σ)) (drawn σ))).
Proof.
  intros H H2. unfold list_extend.
  rewrite (bind_ok _ _ _ _ _ (as_list_ok _ _ _ H2)).
  by rewrite (bind_ok _ _ _ _ _ (as_list_ok _ _ _ H)).
Qed.

Lemma seating_setitem_ok d k x m σ :
  heap σ !! d = Some (SeatingObj m) →
  seating_setitem d k x σ =
  Some (Ok ((), Store (<[d := SeatingObj (<[k := x]> m)]> (heap σ)) (drawn σ))).
Proof. unfold seating_setitem, bind, load_obj. by intros ->. Qed.

Lemma alloc_ok o σ :
  ∃ l, heap σ !! l = None ∧
       alloc o σ = Some (Ok (l, Store (<[l := o]> (heap σ)) (drawn σ))).
Proof.
  exists (fresh (dom (heap σ))). split; [|done].
  apply not_elem_of_dom, is_fresh.
Qed.

Lemma entries_get_sim (h : gmap loc object) entries (R : dict) k :
  Forall2 (λ (e : string * loc) (r : string * list string),
             e.1 = r.1 ∧ h !! e.2 = Some (ListObj r.2)) entries R →
  match dict_get R k with
  | Ok prefs => ∃ p, entries_get entries k = Ok p ∧ h !! p = Some (ListObj prefs)
  | Raise e => entries_get entries k = Raise e
  end.
Proof.
  induction 1 as [|[k1 p] [k2 prefs] entries R [Hk Hp] _ IH]; simpl; [done|].
  simpl in Hk, Hp. subst k2.
  destruct (decide (k1 = k)); [by exists p | done].
Qed.

Lemma entries_keys (h : gmap loc object) entries (R : dict) :
  Forall2 (λ (e : string * loc) (r : string * list string),
             e.1 = r.1 ∧ h !! e.2 = Some (ListObj r.2)) entries R →
  entries.*1 = keys R.
Proof.
  unfold keys. induction 1 as [|e r entries R [Hk _] _ IH]; [done|].
  rewrite !fmap_cons. by f_equal.
Qed.

Lemma local_vars_distinct h0 v :
  local_vars h0 v →
  v_seat_assignments v ≠ v_seats v ∧ v_seat_assignments v ≠ v_students v ∧
  v_seat_assignments v ≠ v_holding v ∧ v_seats v ≠ v_students v ∧
  v_seats v ≠ v_holding v ∧ v_students v ≠ v_holding v.
Proof.
  intros (_ & _ & _ & _ & Hnd).
  rewrite !NoDup_cons, !not_elem_of_cons in Hnd.
  by destruct Hnd as ((? & ? & ? & _) & (? & ? & _) & (? & _) & _).
Qed.

Section Simulation.

Variable rnd : nat → nat.
Variable h0 : gmap loc object.
Variable d0 : nat.
Variable v : vars.
Variable A : gset string.
Variable R : dict.
Variable budget : nat.
Hypothesis Hlocal : local_vars h0 v.
Hypothesis Hinputs :
  holds_inputs h0 (v_available_seats v) (v_student_requests v) A R.
Hypothesis Hbudget : Forall (λ r, length r.2 ≤ budget) R.

Lemma rep_set_seat_assignments σ st m :
  rep h0 d0 v A R σ st →
  rep h0 d0 v A R
      (Store (<[v_seat_assignments v := SeatingObj m]> (heap σ)) (drawn σ))
      (set_seat_assignments m st).
Proof.
  pose proof (local_vars_distinct _ _ Hlocal) as (? & ? & ? & ? & ? & ?).
  destruct Hlocal as (Ha & Hs & Ht & Hh & _).
  intros (Hf & Hm & Hse & Hst & Hho & Hd & HA & HR).
  unfold rep; simpl. repeat split; try done.
  - intros l o Hl. rewrite lookup_insert_ne; [by apply Hf | congruence].
  - by rewrite lookup_insert_eq.
  - by rewrite lookup_insert_ne.
  - by rewrite lookup_insert_ne.
  - by rewrite lookup_insert_ne.
Qed.

Lemma rep_set_seats σ st xs :
  rep h0 d0 v A R σ st →
  rep h0 d0 v A R
      (Store (<[v_seats v := ListObj xs]> (heap σ)) (drawn σ))
      (set_seats xs st).
Proof.
  pose proof (local_vars_distinct _ _ Hlocal) as (? & ? & ? & ? & ? & ?).
  destruct Hlocal as (Ha & Hs & Ht & Hh & _).
  intros (Hf & Hm & Hse & Hst & Hho & Hd & HA & HR).
  unfold rep; simpl. repeat split; try done.
  - intros l o Hl. rewrite lookup_insert_ne; [by apply Hf | congruence].
  - by rewrite lookup_insert_ne.
  - by rewrite lookup_insert_eq.
  - by rewrite lookup_insert_ne.
  - by rewrite lookup_insert_ne.
Qed.

Lemma rep_set_students σ st xs :
  rep h0 d0 v A R σ st →
  rep h0 d0 v A R
      (Store (<[v_students v := ListObj xs]> (heap σ)) (drawn σ))
      (set_students xs st).
Proof.
  pose proof (local_vars_distinct _ _ Hlocal) as (? & ? & ? & ? & ? & ?).
  destruct Hlocal as (Ha & Hs & Ht & Hh & _).
  intros (Hf & Hm & Hse & Hst & Hho & Hd & HA & HR).
  unfold rep; simpl. repeat split; try done.
  - intros l o Hl. rewrite lookup_insert_ne; [by apply Hf | congruence].
  - by rewrite lookup_insert_ne.
  - by rewrite lookup_insert_ne.
  - by rewrite lookup_insert_eq.
  - by rewrite lookup_insert_ne.
Qed.

Lemma rep_set_holding σ st xs :
  rep h0 d0 v A R σ st →
  rep h0 d0 v A R
      (Store (<[v_holding v := ListObj xs]> (heap σ)) (drawn σ))
      (set_holding xs st).
Proof.
  pose proof (local_vars_distinct _ _ Hlocal) as (? & ? & ? & ? & ? & ?).
  destruct Hlocal as (Ha & Hs & Ht & Hh & _).
  intros (Hf & Hm & Hse & Hst & Hho & Hd & HA & HR).
  unfold rep; simpl. repeat split; try done.
  - intros l o Hl. rewrite lookup_insert_ne; [by apply Hf | congruence].
  - by rewrite lookup_insert_ne.
  - by rewrite lookup_insert_ne.
  - by rewrite lookup_insert_ne.
  - by rewrite lookup_insert_eq.
Qed.

Lemma rep_tick σ st :
  rep h0 d0 v A R σ st →
  rep h0 d0 v A R (Store (heap σ) (S (drawn σ))) (tick st).
Proof.
  intros (Hf & Hm & Hse & Hst & Hho & Hd & HA & HR).
  unfold rep; simpl. repeat split; try done. lia.
Qed.

Lemma rep_frame σ st l o :
  rep h0 d0 v A R σ st → h0 !! l = Some o → heap σ !! l = Some o.
Proof. intros (Hf & _). apply Hf. Qed.

Lemma random_choice_students_sim σ st :
  rep h0 d0 v A R σ st →
  match choice (rnd (d0 + draws st)) (students st) with
  | Ok x => ∃ σ', random_choice rnd (v_students v) σ = Some (Ok (x, σ')) ∧
                  rep h0 d0 v A R σ' (tick st)
  | Raise e => random_choice rnd (v_students v) σ = Some (Raise e)
  end.
Proof.
  intros Hrep. pose proof Hrep as (_ & _ & _ & Hst & _ & Hd & _).
  unfold random_choice. rewrite (bind_ok _ _ _ _ _ (as_list_ok _ _ _ Hst)).
  rewrite <- Hd. destruct (choice _ _); [|done].
  eexists. split; [done|]. by apply rep_tick.
Qed.

Lemma random_choice_seats_sim σ st :
  rep h0 d0 v A R σ st →
  match choice (rnd (d0 + draws st)) (seats st) with
  | Ok x => ∃ σ', random_choice rnd (v_seats v) σ = Some (Ok (x, σ')) ∧
                  rep h0 d0 v A R σ' (tick st)
  | Raise e => random_choice rnd (v_seats v) σ = Some (Raise e)
  end.
Proof.
  intros Hrep. pose proof Hrep as (_ & _ & Hse & _ & _ & Hd & _).
  unfold random_choice. rewrite (bind_ok _ _ _ _ _ (as_list_ok _ _ _ Hse)).
  rewrite <- Hd. destruct (choice _ _); [|done].
  eexists. split; [done|]. by apply rep_tick.
Qed.

Lemma seating_setitem_sim σ st k x :
  rep h0 d0 v A R σ st →
  ∃ σ', seating_setitem (v_seat_assignments v) k x σ = Some (Ok ((), σ')) ∧
        rep h0 d0 v A R σ'
            (set_seat_assignments (<[k := x]> (seat_assignments st)) st).
Proof.
  intros Hrep. pose proof Hrep as (_ & Hm & _).
  eexists. split; [by apply seating_setitem_ok|].
  by apply rep_set_seat_assignments.
Qed.

Lemma remove_seat_sim σ st x :
  rep h0 d0 v A R σ st →
  match list_remove x (seats st) with
  | Ok xs => ∃ σ', list_remove_at (v_seats v) x σ = Some (Ok ((), σ')) ∧
                   rep h0 d0 v A R σ' (set_seats xs st)
  | Raise e => list_remove_at (v_seats v) x σ = Some (Raise e)
  end.
Proof.
  intros Hrep. pose proof Hrep as (_ & _ & Hse & _).
  rewrite (list_remove_at_ok _ x _ _ Hse).
  destruct (list_remove x (seats st)); [|done].
  eexists. split; [done|]. by apply rep_set_seats.
Qed.

Lemma remove_student_sim σ st x :
  rep h0 d0 v A R σ st →
  match list_remove x (students st) with
  | Ok xs => ∃ σ', list_remove_at (v_students v) x σ = Some (Ok ((), σ')) ∧
                   rep h0 d0 v A R σ' (set_students xs st)
  | Raise e => list_remove_at (v_students v) x σ = Some (Raise e)
  end.
Proof.
  intros Hrep. pose proof Hrep as (_ & _ & _ & Hst & _).
  rewrite (list_remove_at_ok _ x _ _ Hst).
  destruct (list_remove x (students st)); [|done].
  eexists. split; [done|]. by apply rep_set_students.
Qed.

Lemma append_holding_sim σ st x :
  rep h0 d0 v A R σ st →
  ∃ σ', list_append (v_holding v) x σ = Some (Ok ((), σ')) ∧
        rep h0 d0 v A R σ' (set_holding (holding st ++ [x]) st).
Proof.
  intros Hrep. pose proof Hrep as (_ & _ & _ & _ & Hho & _).
  eexists. split; [by apply list_append_ok|].
  by apply rep_set_holding.
Qed.

(** The loop over one preference list, read through its reference at
    every step, does what [scan_requests] does on the list the reference
    held at the call. *)
Lemma for_requests_sim fuel student p prefs i σ st :
  h0 !! p = Some (ListObj prefs) →
  rep h0 d0 v A R σ st → length prefs ≤ i + fuel →
  match scan_requests student (drop i prefs) st with
  | Ok st' => ∃ σ', for_requests fuel v student p i σ = Some (Ok ((), σ')) ∧
                    rep h0 d0 v A R σ' st'
  | Raise e => for_requests fuel v student p i σ = Some (Raise e)
  end.
Proof.
  intros Hp. revert i σ st.
  induction fuel as [|fuel IH]; intros i σ st Hrep Hlen.
  - rewrite drop_ge by lia. cbn [scan_requests for_requests].
    rewrite (bind_ok _ _ _ _ _ (list_item_ok _ i _ _ (rep_frame _ _ _ _ Hrep Hp))).
    rewrite (lookup_ge_None_2 prefs i) by lia. by exists σ.
  - cbn [for_requests].
    rewrite (bind_ok _ _ _ _ _ (list_item_ok _ i _ _ (rep_frame _ _ _ _ Hrep Hp))).
    destruct (prefs !! i) as [seat|] eqn:Hi.
    + rewrite (drop_S _ _ _ Hi). cbn [scan_requests].
      pose proof Hrep as (_ & _ & Hse & _).
      rewrite (bind_ok _ _ _ _ _ (list_contains_ok _ seat _ _ Hse)).
      destruct (decide (seat ∈ seats st)) as [Hin|Hnin].
      * rewrite bool_decide_eq_true_2 by done.
        destruct (seating_setitem_sim σ st seat student Hrep) as (σ1 & H1 & Hrep1).
        rewrite (bind_ok _ _ _ _ _ H1).
        pose proof (remove_seat_sim σ1 _ seat Hrep1) as H2.
        destruct (list_remove seat (seats _)) as [seats'|e];
          unfold mbind, result_bind; cbv beta iota;
          [|by rewrite (bind_raise _ _ _ _ H2)].
        destruct H2 as (σ2 & H2 & Hrep2). rewrite (bind_ok _ _ _ _ _ H2).
        pose proof (remove_student_sim σ2 _ student Hrep2) as H3.
        destruct (list_remove student (students _)) as [students'|e]; [|done].
        done.
      * rewrite bool_decide_eq_false_2 by done. apply IH; [done | lia].
    + apply lookup_ge_None in Hi. rewrite drop_ge by lia.
      cbn [scan_requests]. by exists σ.
Qed.

Lemma requests_getitem_sim σ st student :
  rep h0 d0 v A R σ st →
  match dict_get R student with
  | Ok prefs => ∃ p, requests_getitem (v_student_requests v) student σ
                       = Some (Ok (p, σ)) ∧
                     h0 !! p = Some (ListObj prefs)
  | Raise e => requests_getitem (v_student_requests v) student σ = Some (Raise e)
  end.
Proof.
  intros Hrep. destruct Hinputs as (_ & entries & Hsr & Hall).
  pose proof (rep_frame _ _ _ _ Hrep Hsr) as Hsr'.
  unfold requests_getitem, bind, load_obj. rewrite Hsr'.
  pose proof (entries_get_sim h0 entries R student Hall) as H.
  destruct (dict_get R student) as [prefs|e].
  - destruct H as (p & -> & Hp). by exists p.
  - by rewrite H.
Qed.

(** One iteration of the [while] loop. *)
Lemma loop_body_sim σ st :
  rep h0 d0 v A R σ st →
  match loop_body (λ n, rnd (d0 + n)) st with
  | Ok st' => ∃ σ', loop_body_on rnd budget v σ = Some (Ok ((), σ')) ∧
                    rep h0 d0 v A R σ' st'
  | Raise e => loop_body_on rnd budget v σ = Some (Raise e)
  end.
Proof.
  intros Hrep. unfold loop_body, loop_body_on.
  pose proof (random_choice_students_sim σ st Hrep) as H1.
  destruct (choice (rnd (d0 + draws st)) (students st)) as [student|e];
    unfold mbind, result_bind; cbv beta iota zeta;
    [|by rewrite (bind_raise _ _ _ _ H1)].
  destruct H1 as (σ1 & H1 & Hrep1). rewrite (bind_ok _ _ _ _ _ H1).
  pose proof (requests_getitem_sim σ1 _ student Hrep1) as H2.
  pose proof Hrep1 as (_ & _ & _ & _ & _ & _ & _ & HR). rewrite HR.
  destruct (dict_get R student) as [prefs|e] eqn:Hget;
    [|by rewrite (bind_raise _ _ _ _ H2)].
  destruct H2 as (p & H2 & Hp). rewrite (bind_ok _ _ _ _ _ H2).
  assert (length prefs ≤ 0 + budget) as Hlen.
  { apply dict_get_elem in Hget.
    by apply (proj1 (Forall_forall _ _) Hbudget (student, prefs)). }
  pose proof (for_requests_sim budget student p prefs 0 σ1 _ Hp Hrep1 Hlen) as H3.
  rewrite drop_0 in H3.
  destruct (scan_requests student prefs (tick st)) as [st2|e];
    [|by rewrite (bind_raise _ _ _ _ H3)].
  destruct H3 as (σ2 & H3 & Hrep2). rewrite (bind_ok _ _ _ _ _ H3).
  pose proof Hrep2 as (_ & _ & _ & Hst & _).
  rewrite (bind_ok _ _ _ _ _ (list_contains_ok _ student _ _ Hst)).
  destruct (decide (student ∈ students st2)) as [Hin|Hnin].
  - rewrite bool_decide_eq_true_2 by done.
    destruct (append_holding_sim σ2 st2 student Hrep2) as (σ3 & H4 & Hrep3).
    rewrite (bind_ok _ _ _ _ _ H4).
    pose proof (remove_student_sim σ3 _ student Hrep3) as H5.
    by destruct (list_remove student (students _)) as [students'|e].
  - rewrite bool_decide_eq_false_2 by done. by exists σ2.
Qed.

Lemma loop_cond_sim σ st :
  rep h0 d0 v A R σ st →
  loop_cond_on v σ = Some (Ok (loop_cond st, σ)).
Proof.
  intros (_ & _ & Hse & Hst & _). unfold loop_cond_on, loop_cond.
  rewrite (bind_ok _ _ _ _ _ (list_truth_ok _ _ _ Hse)).
  destruct (truthy (seats st)); [|done].
  by rewrite (list_truth_ok _ _ _ Hst).
Qed.

(** The [while] loop. *)
Lemma while_on_sim fuel σ st :
  rep h0 d0 v A R σ st →
  match phase1 (λ n, rnd (d0 + n)) fuel st with
  | Some (Ok st') => ∃ σ', while_on rnd budget fuel v σ = Some (Ok ((), σ')) ∧
                           rep h0 d0 v A R σ' st'
  | Some (Raise e) => while_on rnd budget fuel v σ = Some (Raise e)
  | None => while_on rnd budget fuel v σ = None
  end.
Proof.
  revert σ st. induction fuel as [|fuel IH]; intros σ st Hrep;
    cbn [phase1 while_on];
    rewrite (bind_ok _ _ _ _ _ (loop_cond_sim σ st Hrep));
    destruct (loop_cond st); try done; try by exists σ.
  pose proof (loop_body_sim σ st Hrep) as H.
  destruct (loop_body _ st) as [st1|e]; [|by rewrite (bind_raise _ _ _ _ H)].
  destruct H as (σ1 & H & Hrep1). rewrite (bind_ok _ _ _ _ _ H).
  by apply IH.
Qed.

(** Lines 133-134. *)
Lemma hold_rest_sim σ st :
  rep h0 d0 v A R σ st →
  ∃ σ', (if truthy (students st)
         then list_extend (v_holding v) (v_students v) else ret ()) σ
          = Some (Ok ((), σ')) ∧
        rep h0 d0 v A R σ' (hold_rest st).
Proof.
  intros Hrep. pose proof Hrep as (_ & _ & _ & Hst & Hho & _).
  unfold hold_rest. destruct (truthy (students st)); [|by exists σ].
  eexists. split; [by apply list_extend_ok|]. by apply rep_set_holding.
Qed.

(** The loop over [holding]. *)
Lemma for_holding_sim fuel i σ st :
  rep h0 d0 v A R σ st → length (holding st) ≤ i + fuel →
  match phase2 (λ n, rnd (d0 + n)) (drop i (holding st)) st with
  | Ok st' => ∃ σ', for_holding rnd fuel v i σ = Some (Ok ((), σ')) ∧
                    rep h0 d0 v A R σ' st'
  | Raise e => for_holding rnd fuel v i σ = Some (Raise e)
  end.
Proof.
  revert i σ st. induction fuel as [|fuel IH]; intros i σ st Hrep Hlen;
    pose proof Hrep as (_ & _ & Hse & _ & Hho & _).
  - rewrite drop_ge by lia. cbn [phase2 for_holding].
    rewrite (bind_ok _ _ _ _ _ (list_item_ok _ i _ _ Hho)).
    rewrite (lookup_ge_None_2 (holding st) i) by lia. by exists σ.
  - cbn [for_holding]. rewrite (bind_ok _ _ _ _ _ (list_item_ok _ i _ _ Hho)).
    destruct (holding st !! i) as [student|] eqn:Hi.
    + rewrite (drop_S _ _ _ Hi). cbn [phase2].
      rewrite (bind_ok _ _ _ _ _ (list_truth_ok _ _ _ Hse)).
      destruct (truthy (seats st)).
      * pose proof (random_choice_seats_sim σ st Hrep) as H1.
        destruct (choice (rnd (d0 + draws st)) (seats st)) as [seat|e];
          unfold mbind, result_bind; cbv beta iota zeta;
          [|by do 2 apply bind_raise].
        destruct H1 as (σ1 & H1 & Hrep1).
        destruct (seating_setitem_sim σ1 _ seat student Hrep1) as (σ2 & H2 & Hrep2).
        pose proof (remove_seat_sim σ2 _ seat Hrep2) as H3.
        destruct (list_remove seat (seats _)) as [seats'|e].
        -- destruct H3 as (σ3 & H3 & Hrep3).
           rewrite (bind_ok _ _ _ () σ3).
           2:{ by rewrite (bind_ok _ _ _ _ _ H1), (bind_ok _ _ _ _ _ H2). }
           apply (IH (S i) σ3 _ Hrep3). simpl. lia.
        -- apply bind_raise.
           by rewrite (bind_ok _ _ _ _ _ H1), (bind_ok _ _ _ _ _ H2).
      * apply (IH (S i) σ st Hrep). lia.
    + apply lookup_ge_None in Hi. rewrite drop_ge by lia.
      cbn [phase2]. by exists σ.
Qed.

End Simulation.

Lemma set_copy_ok s (A : gset string) σ :
  heap σ !! s = Some (SetObj A) →
  ∃ l, heap σ !! l = None ∧
       set_copy s σ = Some (Ok (l, Store (<[l := SetObj A]> (heap σ)) (drawn σ))).
Proof.
  intros H. unfold set_copy. rewrite (bind_ok _ _ _ _ _ (as_set_ok _ _ _ H)).
  apply alloc_ok.
Qed.

Lemma list_of_set_ok s (A : gset string) σ :
  heap σ !! s = Some (SetObj A) →
  ∃ l, heap σ !! l = None ∧
       list_of_set s σ
       = Some (Ok (l, Store (<[l := ListObj (elements A)]> (heap σ)) (drawn σ))).
Proof.
  intros H. unfold list_of_set. rewrite (bind_ok _ _ _ _ _ (as_set_ok _ _ _ H)).
  apply alloc_ok.
Qed.

Lemma keys_list_ok d entries σ :
  heap σ !! d = Some (RequestsObj entries) →
  ∃ l, heap σ !! l = None ∧
       keys_list d σ
       = Some (Ok (l, Store (<[l := ListObj entries.*1]> (heap σ)) (drawn σ))).
Proof.
  intros H. unfold keys_list, bind, load_obj. rewrite H. apply alloc_ok.
Qed.

Lemma holds_inputs_frame (h h' : gmap loc object) av sr (A : gset string) (R : dict) :
  (∀ l o, h !! l = Some o → h' !! l = Some o) →
  holds_inputs h av sr A R → holds_inputs h' av sr A R.
Proof.
  intros Hf (Hav & entries & Hsr & Hall). split; [by apply Hf|].
  exists entries. split; [by apply Hf|].
  eapply Forall2_impl; [done|]. intros e r [? ?]. split; [done | by apply Hf].
Qed.

(** C8. A call of [assign_seats] changes no object of its caller: every
    object the store held at the call, the seat set, the request mapping
    and every preference list among them, shared between students or not,
    is at its reference unchanged when the call returns; what the call
    hands back is a reference to a mapping that did not exist before, and
    that mapping is the result of [assign_seats] of the first embedding on
    the values the two arguments held. Besides, the random generator has
    advanced by the draws of the run; log records are not modelled. *)
Theorem assign_seats_leaves_objects rnd fuel σ available_seats student_requests
    (A : gset string) (R : dict) :
  dict_wf R →
  holds_inputs (heap σ) available_seats student_requests A R →
  length R ≤ fuel →
  Forall (λ r, length r.2 ≤ fuel) R →
  ∃ returned σ' st',
    assign_seats_on rnd fuel available_seats student_requests σ
      = Some (Ok (returned, σ')) ∧
    (∀ l o, heap σ !! l = Some o → heap σ' !! l = Some o) ∧
    holds_inputs (heap σ') available_seats student_requests A R ∧
    heap σ !! returned = None ∧
    heap σ' !! returned = Some (SeatingObj (seat_assignments st')) ∧
    run (λ n, rnd (drawn σ + n)) fuel A R = Some (Ok st') ∧
    assign_seats (λ n, rnd (drawn σ + n)) fuel A R
      = Some (Ok (seat_assignments st')) ∧
    drawn σ' = drawn σ + draws st'.
Proof.
  intros Hwf Hin Hfuel Hbudget.
  pose proof Hin as (Hav & entries & Hsr & Hall).
  unfold assign_seats_on.
  destruct (alloc_ok (SeatingObj ∅) σ) as (l1 & F1 & E1).
  rewrite (bind_ok _ _ _ _ _ E1).
  assert (l1 ≠ available_seats) as N1 by congruence.
  assert (l1 ≠ student_requests) as N1' by congruence.
  destruct (set_copy_ok available_seats A
              (Store (<[l1 := SeatingObj ∅]> (heap σ)) (drawn σ)))
    as (l2 & F2 & E2); [by simpl; rewrite lookup_insert_ne|].
  rewrite (bind_ok _ _ _ _ _ E2). simpl in F2.
  apply lookup_insert_None in F2 as [F2 N12].
  destruct (list_of_set_ok l2 A
              (Store (<[l2 := SetObj A]> (<[l1 := SeatingObj ∅]> (heap σ)))
                     (drawn σ)))
    as (l3 & F3 & E3); [by simpl; rewrite lookup_insert_eq|].
  rewrite (bind_ok _ _ _ _ _ E3). simpl in F3.
  apply lookup_insert_None in F3 as [F3 N23].
  apply lookup_insert_None in F3 as [F3 N13].
  assert (l2 ≠ student_requests ∧ l3 ≠ student_requests) as [N2' N3']
    by (split; congruence).
  destruct (keys_list_ok student_requests entries
              (Store (<[l3 := ListObj (elements A)]>
                        (<[l2 := SetObj A]> (<[l1 := SeatingObj ∅]> (heap σ))))
                     (drawn σ)))
    as (l4 & F4 & E4); [by simpl; rewrite !lookup_insert_ne|].
  rewrite (bind_ok _ _ _ _ _ E4). simpl in F4.
  apply lookup_insert_None in F4 as [F4 N34].
  apply lookup_insert_None in F4 as [F4 N24].
  apply lookup_insert_None in F4 as [F4 N14].
  rewrite (entries_keys _ _ _ Hall) in E4 |- *.
  destruct (alloc_ok (ListObj [])
              (Store (<[l4 := ListObj (keys R)]>
                        (<[l3 := ListObj (elements A)]>
                           (<[l2 := SetObj A]> (<[l1 := SeatingObj ∅]> (heap σ)))))
                     (drawn σ)))
    as (l5 & F5 & E5).
  rewrite (bind_ok _ _ _ _ _ E5). simpl in F5.
  apply lookup_insert_None in F5 as [F5 N45].
  apply lookup_insert_None in F5 as [F5 N35].
  apply lookup_insert_None in F5 as [F5 N25].
  apply lookup_insert_None in F5 as [F5 N15].
  cbv zeta. simpl heap. simpl drawn.
  set (v := Vars available_seats student_requests l1 l3 l4 l5).
  set (σ5 := Store _ (drawn σ)).
  assert (local_vars (heap σ) v) as Hlocal.
  { unfold local_vars; simpl. do 4 (split; [done|]).
    rewrite !NoDup_cons, !not_elem_of_cons.
    repeat split; try done; try apply not_elem_of_nil. apply NoDup_nil_2. }
  assert (rep (heap σ) (drawn σ) v A R σ5 (init_state A R)) as Hrep.
  { unfold rep, σ5; simpl. repeat split; try done.
    - intros l o Hl. rewrite !lookup_insert_ne by congruence. done.
    - rewrite !lookup_insert_ne by done. by rewrite lookup_insert_eq.
    - rewrite !lookup_insert_ne by done. by rewrite lookup_insert_eq.
    - rewrite !lookup_insert_ne by done. by rewrite lookup_insert_eq.
    - by rewrite lookup_insert_eq. }
  destruct (run_spec (λ n, rnd (drawn σ + n)) A R Hwf fuel Hfuel)
    as (st1 & st' & given & Hp1 & Hreach & _ & _ & Hrun & Hp2 & _).
  pose proof (while_on_sim rnd (heap σ) (drawn σ) v A R fuel Hlocal Hin Hbudget
                fuel σ5 _ Hrep) as H1.
  rewrite Hp1 in H1. destruct H1 as (σ6 & H1 & Hrep1).
  rewrite (bind_ok _ _ _ _ _ H1).
  pose proof Hrep1 as (_ & _ & _ & Hst & _).
  rewrite (bind_ok _ _ _ _ _ (list_truth_ok _ _ _ Hst)).
  destruct (hold_rest_sim (heap σ) (drawn σ) v A R Hlocal σ6 st1 Hrep1)
    as (σ7 & H2 & Hrep2).
  rewrite (bind_ok _ _ _ _ _ H2).
  pose proof (reachable_inv _ A R Hwf _ Hreach) as (_ & _ & _ & HR).
  assert (length (holding (hold_rest st1)) ≤ 0 + fuel) as Hlen.
  { rewrite hold_rest_holding. apply Permutation_length in HR.
    unfold keys in HR. rewrite length_fmap, !length_app in HR.
    rewrite length_app. lia. }
  pose proof (for_holding_sim rnd (heap σ) (drawn σ) v A R Hlocal
                fuel 0 σ7 _ Hrep2 Hlen) as H3.
  rewrite drop_0, hold_rest_holding, Hp2 in H3.
  destruct H3 as (σ8 & H3 & Hrep3). rewrite (bind_ok _ _ _ _ _ H3).
  pose proof Hrep3 as (Hf & Hm & _ & _ & _ & Hd & _).
  exists l1, σ8, st'. split; [done|].
  split; [done|]. split; [by apply (holds_inputs_frame (heap σ))|].
  split; [done|]. split; [done|]. split; [done|].
  split; [by apply assign_seats_run | done].
Qed.

Lemma assign_seats_leaves_objects_witness :
  dict_wf caller_requests ∧
  holds_inputs (heap (Store caller_heap 0)) 1%positive 2%positive
               ex_seats caller_requests ∧
  length caller_requests ≤ 3 ∧
  Forall (λ r, length r.2 ≤ 3) caller_requests ∧
  ∃ returned σ' st',
    assign_seats_on (λ n, n) 3 1%positive 2%positive (Store caller_heap 0)
      = Some (Ok (returned, σ')) ∧
    (∀ l o, heap (Store caller_heap 0) !! l = Some o → heap σ' !! l = Some o) ∧
    holds_inputs (heap σ') 1%positive 2%positive ex_seats caller_requests ∧
    heap (Store caller_heap 0) !! returned = None ∧
    heap σ' !! returned = Some (SeatingObj (seat_assignments st')) ∧
    run (λ n, drawn (Store caller_heap 0) + n) 3 ex_seats caller_requests
      = Some (Ok st') ∧
    assign_seats (λ n, drawn (Store caller_heap 0) + n) 3 ex_seats caller_requests
      = Some (Ok (seat_assignments st')) ∧
    drawn σ' = drawn (Store caller_heap 0) + draws st'.
Proof.
  assert (dict_wf caller_requests) as Hwf
    by (apply (bool_decide_unpack _); vm_compute; exact I).
  assert (holds_inputs (heap (Store caller_heap 0)) 1%positive 2%positive
                       ex_seats caller_requests) as Hin.
  { split; [vm_compute; reflexivity|].
    exists [("Alice", 3%positive); ("Bob", 4%positive); ("Carol", 4%positive)].
    split; [vm_compute; reflexivity|].
    repeat (constructor; [split; [reflexivity | vm_compute; reflexivity]|]).
    constructor. }
  assert (length caller_requests ≤ 3) as Hfuel by (simpl; lia).
  assert (Forall (λ r, length r.2 ≤ 3) caller_requests) as Hbudget
    by (apply (bool_decide_unpack _); vm_compute; exact I).
  split; [exact Hwf|]. split; [exact Hin|]. split; [exact Hfuel|].
  split; [exact Hbudget|].
  exact (assign_seats_leaves_objects (λ n, n) 3 (Store caller_heap 0)
           1%positive 2%positive ex_seats caller_requests Hwf Hin Hfuel Hbudget).
Defined.

(** C9. Whatever the preference lists hold, repeated seats and seats that
    do not exist included, every key of the returned mapping is one of the
    available seats and every value is a key of the request mapping. *)
Theorem assign_seats_range rnd fuel (A : gset string) (R : dict) :
  dict_wf R → length R ≤ fuel →
  ∃ m, assign_seats rnd fuel A R = Some (Ok m) ∧
       ∀ seat student, m !! seat = Some student →
                       seat ∈ A ∧ student ∈ keys R.
Proof.
  intros Hwf Hfuel.
  destruct (run_final rnd A R Hwf fuel Hfuel)
    as (st' & ls & lt & Hrun & _ & _ & HA & HR & _).
  exists (seat_assignments st'). split; [by apply assign_seats_run|].
  intros seat student Hm. split.
  - apply elem_of_elements. rewrite HA. apply elem_of_app; left.
    by eapply entry_key.
  - rewrite HR. apply elem_of_app; left. by eapply entry_value.
Qed.

Lemma assign_seats_range_witness :
  dict_wf unchecked_requests ∧ length unchecked_requests ≤ 2 ∧
  ∃ m, assign_seats (λ n, n) 2 ex_seats unchecked_requests = Some (Ok m) ∧
       ∀ seat student, m !! seat = Some student →
                       seat ∈ ex_seats ∧ student ∈ keys unchecked_requests.
Proof.
  assert (dict_wf unchecked_requests) as Hwf
    by (apply (bool_decide_unpack _); vm_compute; exact I).
  assert (length unchecked_requests ≤ 2) as Hfuel by (simpl; lia).
  split; [exact Hwf|]. split; [exact Hfuel|].
  exact (assign_seats_range (λ n, n) 2 ex_seats unchecked_requests Hwf Hfuel).
Defined.

(** C5. [assign_seats] always terminates. Each iteration of the first loop
    draws one student and takes exactly that one student out of [students],
    either into the result or into [holding]; the loop is over after at
    most [|students|] iterations (fuel [length R] is enough, and the number
    of draws, one per iteration, is at most [length R]); the second phase
    visits each held student once and draws at most once per student. *)
Theorem assign_seats_terminates rnd (A : gset string) (R : dict) :
  dict_wf R →
  (∀ st, reachable rnd A R st → loop_cond st = true →
     ∃ student st',
       choice (rnd (draws st)) (students st) = Ok student ∧
       loop_body rnd st = Ok st' ∧
       length (students st) = S (length (students st')) ∧
       (student ∉ students st') ∧
       (student ∈ holding st' ∨
        (∃ seat, seat_assignments st' !! seat = Some student)) ∧
       draws st' = S (draws st)) ∧
  ∃ st1 st',
    phase1 rnd (length R) (init_state A R) = Some (Ok st1) ∧
    draws st1 ≤ length R ∧
    phase2 rnd (holding (hold_rest st1)) (hold_rest st1) = Ok st' ∧
    draws st' ≤ draws st1 + length (holding (hold_rest st1)) ∧
    ∀ fuel, length R ≤ fuel → run rnd fuel A R = Some (Ok st').
Proof.
  intros Hwf. split.
  - intros st Hreach Hcond.
    pose proof (reachable_inv rnd A R Hwf st Hreach) as Hinv.
    destruct (loop_step rnd A R Hwf st Hinv Hcond)
      as (student & prefs & st' & Hc & _ & Hb & Ho & _).
    exists student, st'. split; [done|]. split; [done|].
    pose proof (inv_NoDup_students _ _ _ Hwf Hinv) as Hnd.
    destruct Ho as [pre seat post seats' students' _ _ _ _ Hr | students' _ Hr];
      simpl; pose proof (list_remove_length _ _ _ Hr) as Hlen;
      destruct (list_remove_NoDup _ _ _ Hr Hnd) as [_ Hnot];
      (split; [done|]); (split; [done|]); (split; [|done]).
    + right. exists seat. apply lookup_insert_eq.
    + left. apply elem_of_app; right. by apply list_elem_of_singleton.
  - destruct (run_spec rnd A R Hwf (length R) (le_n _))
      as (st1 & st' & given & Hp1 & _ & _ & Hdraws & Hrun & Hp2 & _ & Hlen & _
          & _ & _ & Hd).
    exists st1, st'. rewrite hold_rest_holding.
    split; [done|]. split; [lia|]. split; [done|]. split; [lia|].
    intros fuel Hfuel. by apply run_fuel.
Qed.

Lemma assign_seats_terminates_witness :
  dict_wf three_students ∧
  (∀ st, reachable (λ n, n) one_seat three_students st → loop_cond st = true →
     ∃ student st',
       choice (draws st) (students st) = Ok student ∧
       loop_body (λ n, n) st = Ok st' ∧
       length (students st) = S (length (students st')) ∧
       (student ∉ students st') ∧
       (student ∈ holding st' ∨
        (∃ seat, seat_assignments st' !! seat = Some student)) ∧
       draws st' = S (draws st)) ∧
  ∃ st1 st',
    phase1 (λ n, n) (length three_students) (init_state one_seat three_students)
      = Some (Ok st1) ∧
    draws st1 ≤ length three_students ∧
    phase2 (λ n, n) (holding (hold_rest st1)) (hold_rest st1) = Ok st' ∧
    draws st' ≤ draws st1 + length (holding (hold_rest st1)) ∧
    ∀ fuel, length three_students ≤ fuel →
            run (λ n, n) fuel one_seat three_students = Some (Ok st').
Proof.
  assert (dict_wf three_students) as Hwf
    by (apply (bool_decide_unpack _); vm_compute; exact I).
  split; [exact Hwf|].
  exact (assign_seats_terminates (λ n, n) one_seat three_students Hwf).
Defined.

(** C6. When the student drawn in an iteration of the first loop is
    assigned a seat, it is the first seat of the student's ranked list that
    is still unassigned at that moment (every seat ranked above it is gone),
    and the student is assigned whenever some listed seat is still
    unassigned; [seats] holds exactly the available seats that are not yet
    a key of the result. A single student whose top preference is
    available gets exactly that seat. *)
Theorem first_fit_by_rank rnd (A : gset string) (R : dict) :
  dict_wf R →
  (∀ st st' student prefs,
      reachable rnd A R st → loop_cond st = true →
      choice (rnd (draws st)) (students st) = Ok student →
      dict_get R student = Ok prefs →
      loop_body rnd st = Ok st' →
      (∀ p, p ∈ seats st ↔ p ∈ A ∧ seat_assignments st !! p = None) ∧
      (∀ seat, seat_assignments st' !! seat = Some student →
         ∃ pre post, prefs = pre ++ seat :: post ∧
                     Forall (λ p, p ∉ seats st) pre ∧ seat ∈ seats st) ∧
      ((∃ p, p ∈ prefs ∧ p ∈ seats st) →
       ∃ seat, seat_assignments st' !! seat = Some student)) ∧
  (∀ fuel student top rest,
      top ∈ A → 1 ≤ fuel →
      assign_seats rnd fuel A [(student, top :: rest)]
      = Some (Ok {[top := student]})).
Proof.
  intros Hwf. split.
  - intros st st' student prefs Hreach Hcond Hc Hg Hb.
    pose proof (reachable_inv rnd A R Hwf st Hreach) as Hinv.
    destruct (loop_step rnd A R Hwf st Hinv Hcond)
      as (student' & prefs' & st'' & Hc' & Hg' & Hb' & Ho & _).
    rewrite Hc in Hc'. injection Hc' as <-.
    rewrite Hg in Hg'. injection Hg' as <-.
    rewrite Hb in Hb'. injection Hb' as <-.
    assert (∀ seat, seat_assignments st !! seat ≠ Some student) as Hnew.
    { intros seat Hm%entry_value.
      pose proof (inv_NoDup_people _ _ _ Hwf Hinv) as (_ & Hdisj & _)%NoDup_app.
      apply (Hdisj _ Hm). apply elem_of_app; left. by eapply choice_elem. }
    split; [|split].
    + intros p. destruct Hinv as (_ & _ & HA & _). split.
      * intros Hp. split.
        -- apply elem_of_elements. rewrite HA. by apply elem_of_app; right.
        -- eapply free_seat; [|done]. rewrite <- HA. apply NoDup_elements.
      * intros [Hp%elem_of_elements Hnone]. rewrite HA in Hp.
        apply elem_of_app in Hp as [Hp|Hp]; [|done].
        apply list_elem_of_fmap in Hp as ([k v] & -> & Hkv%elem_of_map_to_list).
        simpl in Hnone. congruence.
    + intros seat Hm.
      destruct Ho as [pre seat0 post seats' students' -> Hall Hseat _ _ | students' _ _];
        simpl in Hm; [|by apply Hnew in Hm].
      destruct (decide (seat0 = seat)) as [->|Hne]; [by exists pre, post|].
      rewrite lookup_insert_ne in Hm by done. by apply Hnew in Hm.
    + intros (p & Hp & Hpin).
      destruct Ho as [pre seat0 post seats' students' _ _ _ _ _ | students' Hall _];
        simpl.
      * exists seat0. apply lookup_insert_eq.
      * exfalso. rewrite Forall_forall in Hall. by apply (Hall p).
  - intros fuel student top rest Htop Hfuel.
    set (R1 := [(student, top :: rest)] : dict).
    assert (dict_wf R1) as Hwf1 by apply NoDup_singleton.
    pose proof (inv_init A R1) as Hinv.
    assert (loop_cond (init_state A R1) = true) as Hcond.
    { apply loop_cond_true. simpl. split; [|done].
      intros Hnil. apply elem_of_elements in Htop. rewrite Hnil in Htop.
      by apply elem_of_nil in Htop. }
    destruct (loop_step rnd A R1 Hwf1 _ Hinv Hcond)
      as (student' & prefs' & st1 & Hc & Hg & Hb & Ho & _).
    apply choice_elem in Hc. simpl in Hc.
    apply list_elem_of_singleton in Hc as ->.
    simpl in Hg. rewrite decide_True in Hg by done. injection Hg as <-.
    assert (seat_assignments st1 = {[top := student]} ∧ students st1 = []
            ∧ holding st1 = []) as (Hm & Hs & Hh).
    { destruct Ho as [pre seat post seats' students' Heq Hall _ _ Hr | students' Hall _];
        simpl in *.
      - rewrite decide_True in Hr by done. injection Hr as <-.
        destruct pre as [|p pre]; simpl in Heq; injection Heq as -> ->.
        + by rewrite insert_empty.
        + exfalso. apply Forall_cons in Hall as [Hno _].
          apply Hno. by apply elem_of_elements.
      - exfalso. apply Forall_cons in Hall as [Hno _].
        apply Hno. by apply elem_of_elements. }
    assert (∀ f, phase1 rnd f st1 = Some (Ok st1)) as Hstop.
    { intros f. assert (loop_cond st1 = false) as Hc1.
      { apply loop_cond_false. by right. }
      destruct f; simpl; by rewrite Hc1. }
    destruct fuel as [|fuel]; [lia|].
    unfold assign_seats, run. cbn [phase1]. fold R1. rewrite Hcond, Hb, Hstop.
    cbv zeta. unfold hold_rest. rewrite Hs. simpl. rewrite Hh. simpl.
    by rewrite Hm.
Qed.

Lemma first_fit_by_rank_witness :
  dict_wf ex_requests ∧
  (∀ st st' student prefs,
      reachable (λ n, n) ex_seats ex_requests st → loop_cond st = true →
      choice (draws st) (students st) = Ok student →
      dict_get ex_requests student = Ok prefs →
      loop_body (λ n, n) st = Ok st' →
      (∀ p, p ∈ seats st ↔ p ∈ ex_seats ∧ seat_assignments st !! p = None) ∧
      (∀ seat, seat_assignments st' !! seat = Some student →
         ∃ pre post, prefs = pre ++ seat :: post ∧
                     Forall (λ p, p ∉ seats st) pre ∧ seat ∈ seats st) ∧
      ((∃ p, p ∈ prefs ∧ p ∈ seats st) →
       ∃ seat, seat_assignments st' !! seat = Some student)) ∧
  (∀ fuel student top rest,
      top ∈ ex_seats → 1 ≤ fuel →
      assign_seats (λ n, n) fuel ex_seats [(student, top :: rest)]
      = Some (Ok {[top := student]})).
Proof.
  assert (dict_wf ex_requests) as Hwf
    by (apply (bool_decide_unpack _); vm_compute; exact I).
  split; [exact Hwf|].
  exact (first_fit_by_rank (λ n, n) ex_seats ex_requests Hwf).
Defined.

(** C7. The second phase serves the holding list in the order in which
    the students entered it: with [r] seats left when it begins, the first
    [r] students of the list each receive one of these seats, in list
    order, and the students after them receive none. *)
Theorem holding_fifo rnd fuel (A : gset string) (R : dict) st1 :
  dict_wf R →
  phase1 rnd fuel (init_state A R) = Some (Ok st1) →
  length (seats (hold_rest st1)) < length (holding (hold_rest st1)) →
  ∃ st' given,
    phase2 rnd (holding (hold_rest st1)) (hold_rest st1) = Ok st' ∧
    run rnd fuel A R = Some (Ok st') ∧
    given ≡ₚ seats (hold_rest st1) ∧
    (∀ i student, holding (hold_rest st1) !! i = Some student →
       i < length (seats (hold_rest st1)) →
       ∃ seat, given !! i = Some seat ∧
               seat_assignments st' !! seat = Some student) ∧
    (∀ student, student ∈ drop (length (seats (hold_rest st1)))
                               (holding (hold_rest st1)) →
       ∀ seat, seat_assignments st' !! seat ≠ Some student).
Proof.
  intros Hwf Hp1 Hlt.
  destruct (run_spec rnd A R Hwf (fuel `max` length R))
    as (st1' & st' & given & Hp1' & Hreach & _ & _ & _ & Hp2 & Hperm & Hlen
        & Hmap & _); [lia|].
  rewrite (phase1_fuel rnd fuel _ _ _ Hp1) in Hp1' by lia.
  injection Hp1' as <-.
  pose proof (reachable_inv rnd A R Hwf _ Hreach) as Hinv.
  pose proof (inv_NoDup_people _ _ _ Hwf Hinv) as Hnd.
  destruct (hold_rest_frame st1) as (_ & _ & _ & Hfs & _).
  rewrite hold_rest_holding, Hfs in *.
  set (H := holding st1 ++ students st1) in *.
  assert (length given = length (seats st1)) as Hgiven by lia.
  assert (seats st' = []) as Hnone.
  { apply Permutation_length in Hperm. rewrite length_app in Hperm.
    destruct (seats st'); [done | simpl in Hperm; lia]. }
  rewrite Hnone, app_nil_r in Hperm.
  exists st', given. split; [done|]. split.
  { unfold run. rewrite Hp1. cbv zeta. rewrite hold_rest_holding.
    f_equal. exact Hp2. }
  split; [done|]. split.
  - intros i student Hi Hir.
    destruct (lookup_lt_is_Some_2 given i) as [seat Hseat]; [lia|].
    exists seat. split; [done|].
    apply elem_of_map_to_list. rewrite Hmap. apply elem_of_app; left.
    apply (list_elem_of_lookup_2 _ i). rewrite lookup_zip_with, Hseat, Hi. done.
  - intros student Hin seat Hm%elem_of_map_to_list.
    rewrite Hmap in Hm.
    assert (NoDup ((map_to_list (seat_assignments st1)).*2 ++ H)) as Hnd'.
    { unfold H. by rewrite (Permutation_app_comm (holding st1)). }
    apply NoDup_app in Hnd' as (_ & Hdisj & HndH).
    apply elem_of_app in Hm as [Hm|Hm].
    + assert (student ∈ take (length given) H) as Htake.
      { rewrite <- (proj2 (zip_given given H ltac:(lia))).
        apply list_elem_of_fmap. by exists (seat, student). }
      rewrite <- (take_drop (length given) H) in HndH.
      apply NoDup_app in HndH as (_ & Hsplit & _).
      apply (Hsplit _ Htake). by rewrite Hgiven.
    + apply (Hdisj student).
      * apply list_elem_of_fmap. by exists (seat, student).
      * rewrite <- (take_drop (length (seats st1)) H).
        by apply elem_of_app; right.
Qed.

Lemma holding_fifo_witness :
  dict_wf five_students ∧
  phase1 (λ n, n) 5 (init_state ex_seats five_students)
    = Some (Ok five_after_loop) ∧
  length (seats (hold_rest five_after_loop))
    < length (holding (hold_rest five_after_loop)) ∧
  ∃ st' given,
    phase2 (λ n, n) (holding (hold_rest five_after_loop))
           (hold_rest five_after_loop) = Ok st' ∧
    run (λ n, n) 5 ex_seats five_students = Some (Ok st') ∧
    given ≡ₚ seats (hold_rest five_after_loop) ∧
    (∀ i student, holding (hold_rest five_after_loop) !! i = Some student →
       i < length (seats (hold_rest five_after_loop)) →
       ∃ seat, given !! i = Some seat ∧
               seat_assignments st' !! seat = Some student) ∧
    (∀ student, student ∈ drop (length (seats (hold_rest five_after_loop)))
                               (holding (hold_rest five_after_loop)) →
       ∀ seat, seat_assignments st' !! seat ≠ Some student).
Proof.
  assert (dict_wf five_students) as Hwf
    by (apply (bool_decide_unpack _); vm_compute; exact I).
  assert (phase1 (λ n, n) 5 (init_state ex_seats five_students)
          = Some (Ok five_after_loop)) as Hp1 by (vm_compute; reflexivity).
  assert (length (seats (hold_rest five_after_loop))
          < length (holding (hold_rest five_after_loop))) as Hlt
    by (vm_compute; lia).
  split; [exact Hwf|]. split; [exact Hp1|]. split; [exact Hlt|].
  exact (holding_fifo (λ n, n) 5 ex_seats five_students five_after_loop
           Hwf Hp1 Hlt).
Defined.

(** ** The seat file *)

Lemma lstrip_all_space s : all_space s = true → lstrip s = EmptyString.
Proof.
  induction s as [|c s IH]; simpl; [done|].
  intros [Hc Hs]%andb_true_iff. rewrite Hc. by apply IH.
Qed.

Lemma strip_all_space s : all_space s = true → strip s = EmptyString.
Proof. intros H. unfold strip. by rewrite (lstrip_all_space s H). Qed.

Lemma seats_added (f : string → string) (l : list string) (S0 : gset string) x :
  x ∈ S0 ∨ (∃ line, line ∈ l ∧ x = f line) →
  x ∈ foldl (λ available_seats seat, {[f seat]} ∪ available_seats) S0 l.
Proof.
  revert S0. induction l as [|y l IH]; intros S0 [Hin|(line & Hl & ->)]; simpl.
  - done.
  - by apply elem_of_nil in Hl.
  - apply IH. left. by apply elem_of_union; right.
  - apply IH. apply elem_of_cons in Hl as [->|Hl].
    + left. apply elem_of_union; left. by apply elem_of_singleton.
    + right. by exists line.
Qed.

(** On a file system whose file decodes, the loader is the one on the
    texts of the files: a name that cannot be opened gives [None] like a
    name that is absent. *)
Lemma load_available_seats_file_texts (fs : gmap string file) file_name :
  (∀ read, fs !! file_name ≠ Some (Undecodable read)) →
  load_available_seats_file fs file_name
  = Ok (load_available_seats (texts fs) file_name).
Proof.
  unfold load_available_seats_file, load_available_seats, texts.
  rewrite lookup_omap. intros Hfile.
  destruct (fs !! file_name) as [[content|read|read]|]; try done.
  by destruct (Hfile read).
Qed.

(** C10. When the seat file has a line that is blank or holds white space
    only, the set returned by [load_available_seats] contains the empty
    string as a seat. *)
Theorem load_available_seats_blank_line
    (fs : gmap string string) file_name content line :
  fs !! file_name = Some content →
  line ∈ file_lines content →
  all_space line = true →
  ∃ S, load_available_seats fs file_name = Some S ∧ EmptyString ∈ S.
Proof.
  intros Hfile Hline Hblank. unfold load_available_seats. rewrite Hfile.
  eexists. split; [done|]. apply seats_added. right.
  exists line. split; [done|]. by rewrite strip_all_space.
Qed.

Lemma load_available_seats_blank_line_witness :
  ({["seats.txt" := seat_file]} : gmap string string) !! "seats.txt"
    = Some seat_file ∧
  String newline EmptyString ∈ file_lines seat_file ∧
  all_space (String newline EmptyString) = true ∧
  ∃ S, load_available_seats {["seats.txt" := seat_file]} "seats.txt" = Some S
       ∧ EmptyString ∈ S.
Proof.
  assert (({["seats.txt" := seat_file]} : gmap string string) !! "seats.txt"
          = Some seat_file) as Hfile by (vm_compute; reflexivity).
  assert (String newline EmptyString ∈ file_lines seat_file) as Hline
    by (apply (bool_decide_unpack _); vm_compute; exact I).
  assert (all_space (String newline EmptyString) = true) as Hblank
    by (vm_compute; reflexivity).
  split; [exact Hfile|]. split; [exact Hline|]. split; [exact Hblank|].
  exact (load_available_seats_blank_line _ "seats.txt" seat_file _
           Hfile Hline Hblank).
Defined.

(** ** Further properties of the engine *)

Lemma dict_get_keys (d : dict) k v : dict_get d k = Ok v → k ∈ keys d.
Proof.
  unfold keys. induction d as [|[k' v'] d IH]; simpl; [done|].
  destruct (decide (k' = k)) as [->|Hne]; intros H.
  - by apply elem_of_cons; left.
  - apply elem_of_cons; right. by apply IH.
Qed.

Lemma list_remove_other x l l' y :
  list_remove x l = Ok l' → y ∈ l → y ≠ x → y ∈ l'.
Proof.
  intros H%list_remove_perm Hy Hne. rewrite H in Hy.
  by apply elem_of_cons in Hy as [->|Hy].
Qed.

Lemma entry_of_key (m : gmap string string) k :
  k ∈ (map_to_list m).*1 → ∃ v, m !! k = Some v.
Proof.
  intros ([k' v] & -> & H%elem_of_map_to_list)%list_elem_of_fmap. by exists v.
Qed.

Lemma entry_of_value (m : gmap string string) v :
  v ∈ (map_to_list m).*2 → ∃ k, m !! k = Some v.
Proof.
  intros ([k v'] & -> & H%elem_of_map_to_list)%list_elem_of_fmap. by exists k.
Qed.

Section Reachable.

Variable rnd : nat → nat.
Variable A : gset string.
Variable R : dict.
Hypothesis R_wf : dict_wf R.

(** Induction over the loop heads of a run, with the iteration described
    by its [outcome]. *)
Lemma reachable_outcome_ind (P : state → Prop) :
  P (init_state A R) →
  (∀ st student prefs st',
      reachable rnd A R st → P st → loop_cond st = true →
      student ∈ students st → dict_get R student = Ok prefs →
      loop_body rnd st = Ok st' → outcome st student prefs st' → P st') →
  ∀ st, reachable rnd A R st → P st.
Proof.
  intros Hinit Hstep st Hreach.
  induction Hreach as [|st st' Hreach IH Hcond Hbody]; [done|].
  destruct (loop_step rnd A R R_wf st (reachable_inv rnd A R R_wf _ Hreach) Hcond)
    as (student & prefs & st'' & Hc & Hg & Hb & Ho & _).
  rewrite Hbody in Hb. injection Hb as <-.
  eapply Hstep; try done. by eapply choice_elem.
Qed.

(** Every entry made by the loop pairs a student with a seat of the
    student's own list. *)
Lemma reachable_listed st :
  reachable rnd A R st →
  ∀ seat student, seat_assignments st !! seat = Some student →
                  ∃ prefs, dict_get R student = Ok prefs ∧ seat ∈ prefs.
Proof.
  intros Hreach. pattern st. revert st Hreach. apply reachable_outcome_ind.
  - intros seat student H. simpl in H. by rewrite lookup_empty in H.
  - intros st student prefs st' _ IH _ _ Hg _ Ho seat s Hm.
    destruct Ho as [pre seat0 post seats' students' -> _ _ _ _ | students' _ _];
      simpl in Hm; [|by apply IH].
    destruct (decide (seat0 = seat)) as [->|Hne].
    + rewrite lookup_insert_eq in Hm. injection Hm as <-.
      exists (pre ++ seat :: post). split; [done|].
      apply elem_of_app; right. by apply elem_of_cons; left.
    + rewrite lookup_insert_ne in Hm by done. by apply IH.
Qed.

(** No listed seat of a held student is still in [seats]. *)
Lemma reachable_held_blocked st :
  reachable rnd A R st →
  ∀ student prefs p, student ∈ holding st → dict_get R student = Ok prefs →
                     p ∈ prefs → p ∉ seats st.
Proof.
  intros Hreach. pattern st. revert st Hreach. apply reachable_outcome_ind.
  - intros student prefs p H. simpl in H. by apply elem_of_nil in H.
  - intros st student prefs st' _ IH _ _ Hg _ Ho s prefs' p Hs Hg' Hp.
    destruct Ho as [pre seat0 post seats' students' _ _ _ Hr _ | students' Hall _];
      simpl in *.
    + intros Hin. apply (IH s prefs' p Hs Hg' Hp).
      by eapply list_remove_elem_of.
    + apply elem_of_app in Hs as [Hs|Hs%list_elem_of_singleton].
      * by eapply IH.
      * subst s. rewrite Hg in Hg'. injection Hg' as <-.
        rewrite Forall_forall in Hall. by apply Hall.
Qed.

(** An iteration never changes an entry that is already made. *)
Lemma outcome_grows st student prefs st' :
  inv A R st → outcome st student prefs st' →
  seat_assignments st ⊆ seat_assignments st'.
Proof.
  intros Hinv [pre seat post seats' students' _ _ Hseat _ _ | students' _ _];
    simpl; [|done].
  apply insert_subseteq. by eapply inv_free_seat.
Qed.

(** The run in full: the state [st1] at the end of the loop, the final
    state, and the entries of [st1] kept by the second phase. *)
Lemma run_phases fuel :
  length R ≤ fuel →
  ∃ st1 st',
    reachable rnd A R st1 ∧ loop_cond st1 = false ∧
    run rnd fuel A R = Some (Ok st') ∧
    seat_assignments st1 ⊆ seat_assignments st'.
Proof.
  intros Hfuel.
  destruct (run_spec rnd A R R_wf fuel Hfuel)
    as (st1 & st' & given & _ & Hreach & Hcond & _ & Hrun & _ & _ & _ & Hmap & _).
  exists st1, st'. repeat split; try done.
  apply map_subseteq_spec. intros k v Hkv%elem_of_map_to_list.
  apply elem_of_map_to_list. rewrite Hmap. by apply elem_of_app; right.
Qed.

Lemma run_counts fuel :
  length R ≤ fuel →
  ∃ st' left_seats left_students,
    run rnd fuel A R = Some (Ok st') ∧
    elements A ≡ₚ (map_to_list (seat_assignments st')).*1 ++ left_seats ∧
    keys R ≡ₚ (map_to_list (seat_assignments st')).*2 ++ left_students ∧
    size A = size (seat_assignments st') + length left_seats ∧
    length R = size (seat_assignments st') + length left_students ∧
    (left_seats = [] ∨ left_students = []).
Proof.
  intros Hfuel.
  destruct (run_final rnd A R R_wf fuel Hfuel)
    as (st' & ls & lt & Hrun & _ & _ & HA & HR & Hempty).
  exists st', ls, lt. do 3 (split; [done|]).
  pose proof (Permutation_length HA) as HlA.
  pose proof (Permutation_length HR) as HlR.
  rewrite length_app, length_fmap, length_map_to_list in HlA, HlR.
  unfold keys in HlR. rewrite length_fmap in HlR.
  by rewrite size_gset_elements.
Qed.

End Reachable.

(** X1. When there are at least as many seats as students, every student
    of the request mapping is assigned a seat, whatever the lists hold. *)
Theorem everyone_seated rnd fuel (A : gset string) (R : dict) :
  dict_wf R → length R ≤ fuel → length R ≤ size A →
  ∃ m, assign_seats rnd fuel A R = Some (Ok m) ∧
       ∀ student, student ∈ keys R → ∃ seat, m !! seat = Some student.
Proof.
  intros Hwf Hfuel Hle.
  destruct (run_counts rnd A R Hwf fuel Hfuel)
    as (st' & ls & lt & Hrun & _ & HR & HsA & HsR & Hempty).
  exists (seat_assignments st'). split; [by apply assign_seats_run|].
  assert (lt = []) as ->.
  { destruct Hempty as [-> | ->]; [|done].
    destruct lt; [done | simpl in *; lia]. }
  intros student Hin. rewrite HR, app_nil_r in Hin. by apply entry_of_value.
Qed.

Lemma everyone_seated_witness :
  dict_wf ex_requests ∧ length ex_requests ≤ 3 ∧
  length ex_requests ≤ size ex_seats ∧
  ∃ m, assign_seats (λ n, 5 * n) 3 ex_seats ex_requests = Some (Ok m) ∧
       ∀ student, student ∈ keys ex_requests → ∃ seat, m !! seat = Some student.
Proof.
  assert (dict_wf ex_requests) as Hwf
    by (apply (bool_decide_unpack _); vm_compute; exact I).
  assert (length ex_requests ≤ 3) as Hfuel by (simpl; lia).
  assert (length ex_requests ≤ size ex_seats) as Hle by (vm_compute; lia).
  split; [exact Hwf|]. split; [exact Hfuel|]. split; [exact Hle|].
  exact (everyone_seated (λ n, 5 * n) 3 ex_seats ex_requests Hwf Hfuel Hle).
Defined.

(** X2. When there are at least as many students as seats, every available
    seat is assigned: the keys of the result are exactly the seat set. *)
Theorem every_seat_used rnd fuel (A : gset string) (R : dict) :
  dict_wf R → length R ≤ fuel → size A ≤ length R →
  ∃ m, assign_seats rnd fuel A R = Some (Ok m) ∧ dom m = A.
Proof.
  intros Hwf Hfuel Hle.
  destruct (run_counts rnd A R Hwf fuel Hfuel)
    as (st' & ls & lt & Hrun & HA & _ & HsA & HsR & Hempty).
  exists (seat_assignments st'). split; [by apply assign_seats_run|].
  assert (ls = []) as ->.
  { destruct Hempty as [-> | ->]; [done|].
    destruct ls; [done | simpl in *; lia]. }
  rewrite app_nil_r in HA. apply set_eq. intros seat.
  rewrite elem_of_dom, <- elem_of_elements, HA. split.
  - intros [v Hv]. by eapply entry_key.
  - intros [v Hv]%entry_of_key. by exists v.
Qed.

Lemma every_seat_used_witness :
  dict_wf three_students ∧ length three_students ≤ 3 ∧
  size one_seat ≤ length three_students ∧
  ∃ m, assign_seats (λ n, n + 2) 3 one_seat three_students = Some (Ok m) ∧
       dom m = one_seat.
Proof.
  assert (dict_wf three_students) as Hwf
    by (apply (bool_decide_unpack _); vm_compute; exact I).
  assert (length three_students ≤ 3) as Hfuel by (simpl; lia).
  assert (size one_seat ≤ length three_students) as Hle by (vm_compute; lia).
  split; [exact Hwf|]. split; [exact Hfuel|]. split; [exact Hle|].
  exact (every_seat_used (λ n, n + 2) 3 one_seat three_students Hwf Hfuel Hle).
Defined.

(** X3. A student whose first preference is an available seat that no
    other student lists gets exactly that seat in every run. *)
Theorem uncontested_top_choice rnd fuel (A : gset string) (R : dict)
    student p rest :
  dict_wf R → length R ≤ fuel →
  dict_get R student = Ok (p :: rest) →
  p ∈ A →
  Forall (λ entry, entry.1 = student ∨ p ∉ entry.2) R →
  ∃ m, assign_seats rnd fuel A R = Some (Ok m) ∧ m !! p = Some student.
Proof.
  intros Hwf Hfuel Hg Hp Hothers.
  destruct (run_phases rnd A R Hwf fuel Hfuel)
    as (st1 & st' & Hreach & Hcond & Hrun & Hsub).
  exists (seat_assignments st'). split; [by apply assign_seats_run|].
  assert ((student ∈ students st1 ∧ p ∈ seats st1)
          ∨ seat_assignments st1 !! p = Some student) as [[Hs Hseat]|Hm].
  { pattern st1. revert st1 Hreach Hcond Hsub.
    intros st1 Hreach _ _. pattern st1. revert st1 Hreach.
    apply (reachable_outcome_ind rnd A R Hwf).
    - left. simpl. split; [by eapply dict_get_keys | by apply elem_of_elements].
    - intros st s prefs st2 Hreach IH _ Hs Hgs _ Ho.
      pose proof (reachable_inv rnd A R Hwf _ Hreach) as Hinv.
      destruct IH as [[Hin Hseat]|Hm].
      + destruct (decide (s = student)) as [->|Hne].
        * rewrite Hg in Hgs. injection Hgs as <-. right.
          destruct Ho as [pre seat post seats' students' Heq Hall _ _ _
                         | students' Hall _]; simpl.
          -- destruct pre as [|q pre]; simpl in Heq; injection Heq as -> ->.
             ++ apply lookup_insert_eq.
             ++ by apply Forall_cons in Hall as [Hno _].
          -- by apply Forall_cons in Hall as [Hno _].
        * left.
          destruct Ho as [pre seat post seats' students' Heq _ _ Hr1 Hr2
                         | students' _ Hr2]; simpl.
          -- split; [by eapply list_remove_other|].
             eapply list_remove_other; [done..|].
             intros ->. rewrite Forall_forall in Hothers.
             destruct (Hothers _ (dict_get_elem _ _ _ Hgs)) as [?|Hno]; [done|].
             apply Hno. simpl. rewrite Heq.
             apply elem_of_app; right. by apply elem_of_cons; left.
          -- split; [by eapply list_remove_other | done].
      + right. eapply lookup_weaken; [done|]. by eapply outcome_grows. }
  - exfalso. apply loop_cond_false in Hcond as [Hnil|Hnil].
    + rewrite Hnil in Hseat. by apply elem_of_nil in Hseat.
    + rewrite Hnil in Hs. by apply elem_of_nil in Hs.
  - by eapply lookup_weaken.
Qed.

Lemma uncontested_top_choice_witness :
  dict_wf ex_requests ∧ length ex_requests ≤ 3 ∧
  dict_get ex_requests "Alice" = Ok ["2"; "1"] ∧
  "2" ∈ ex_seats ∧
  Forall (λ entry, entry.1 = "Alice" ∨ "2" ∉ entry.2) ex_requests ∧
  ∃ m, assign_seats (λ n, 3 * n + 1) 3 ex_seats ex_requests = Some (Ok m) ∧
       m !! "2" = Some "Alice".
Proof.
  assert (dict_wf ex_requests) as Hwf
    by (apply (bool_decide_unpack _); vm_compute; exact I).
  assert (length ex_requests ≤ 3) as Hfuel by (simpl; lia).
  assert (dict_get ex_requests "Alice" = Ok ["2"; "1"]) as Hg
    by (vm_compute; reflexivity).
  assert ("2" ∈ ex_seats) as Hp
    by (apply (bool_decide_unpack _); vm_compute; exact I).
  assert (Forall (λ entry, entry.1 = "Alice" ∨ "2" ∉ entry.2) ex_requests)
    as Hothers by (apply (bool_decide_unpack _); vm_compute; exact I).
  split; [exact Hwf|]. split; [exact Hfuel|]. split; [exact Hg|].
  split; [exact Hp|]. split; [exact Hothers|].
  exact (uncontested_top_choice (λ n, 3 * n + 1) 3 ex_seats ex_requests
           "Alice" "2" ["1"] Hwf Hfuel Hg Hp Hothers).
Defined.

(** X4. Every entry present when the loop is left pairs a student with a
    seat of that student's own preference list: only the second phase
    hands out seats that were not asked for. *)
Theorem loop_gives_listed_seats rnd fuel (A : gset string) (R : dict) :
  dict_wf R → length R ≤ fuel →
  ∃ st1, phase1 rnd fuel (init_state A R) = Some (Ok st1) ∧
         ∀ seat student, seat_assignments st1 !! seat = Some student →
                         ∃ prefs, dict_get R student = Ok prefs ∧ seat ∈ prefs.
Proof.
  intros Hwf Hfuel.
  destruct (run_spec rnd A R Hwf fuel Hfuel) as (st1 & _ & _ & Hp1 & Hreach & _).
  exists st1. split; [done|]. by apply (reachable_listed rnd A R Hwf).
Qed.

Lemma loop_gives_listed_seats_witness :
  dict_wf unchecked_requests ∧ length unchecked_requests ≤ 2 ∧
  ∃ st1, phase1 (λ n, n) 2 (init_state ex_seats unchecked_requests)
         = Some (Ok st1) ∧
         ∀ seat student, seat_assignments st1 !! seat = Some student →
                         ∃ prefs, dict_get unchecked_requests student = Ok prefs
                                  ∧ seat ∈ prefs.
Proof.
  assert (dict_wf unchecked_requests) as Hwf
    by (apply (bool_decide_unpack _); vm_compute; exact I).
  assert (length unchecked_requests ≤ 2) as Hfuel by (simpl; lia).
  split; [exact Hwf|]. split; [exact Hfuel|].
  exact (loop_gives_listed_seats (λ n, n) 2 ex_seats unchecked_requests
           Hwf Hfuel).
Defined.

(** X5. No student misses a listed seat that stays free: in the returned
    mapping every student either holds a seat of their own list, or every
    available seat of their list is held by another student. *)
Theorem no_listed_seat_left_free rnd fuel (A : gset string) (R : dict) :
  dict_wf R → length R ≤ fuel →
  ∃ m, assign_seats rnd fuel A R = Some (Ok m) ∧
       ∀ student prefs, dict_get R student = Ok prefs →
         (∃ seat, seat ∈ prefs ∧ m !! seat = Some student) ∨
         (∀ p, p ∈ prefs → p ∈ A →
               ∃ other, other ≠ student ∧ m !! p = Some other).
Proof.
  intros Hwf Hfuel.
  destruct (run_phases rnd A R Hwf fuel Hfuel)
    as (st1 & st' & Hreach & Hcond & Hrun & Hsub).
  exists (seat_assignments st'). split; [by apply assign_seats_run|].
  intros student prefs Hg.
  pose proof (reachable_inv rnd A R Hwf _ Hreach) as Hinv.
  pose proof (inv_NoDup_people _ _ _ Hwf Hinv) as (_ & Hdisj & _)%NoDup_app.
  pose proof Hinv as (_ & _ & HA & HR).
  pose proof (dict_get_keys _ _ _ Hg) as Hin. rewrite HR in Hin.
  apply elem_of_app in Hin as [Hin|Hin].
  - left. apply entry_of_value in Hin as [seat Hm].
    destruct (reachable_listed rnd A R Hwf _ Hreach _ _ Hm) as (prefs' & Hg' & Hs).
    rewrite Hg in Hg'. injection Hg' as <-.
    exists seat. split; [done|]. by eapply lookup_weaken.
  - right. intros p Hp HpA.
    assert (p ∉ seats st1) as Hgone.
    { apply elem_of_app in Hin as [Hs|Hh].
      - apply loop_cond_false in Hcond as [Hnil|Hnil].
        + rewrite Hnil. apply not_elem_of_nil.
        + rewrite Hnil in Hs. by apply elem_of_nil in Hs.
      - by eapply (reachable_held_blocked rnd A R Hwf). }
    apply elem_of_elements in HpA. rewrite HA in HpA.
    apply elem_of_app in HpA as [Hkey|?]; [|done].
    apply entry_of_key in Hkey as [other Hm].
    exists other. split; [|by eapply lookup_weaken].
    intros ->. apply (Hdisj student); [by eapply entry_value | done].
Qed.

Lemma no_listed_seat_left_free_witness :
  dict_wf three_students ∧ length three_students ≤ 3 ∧
  ∃ m, assign_seats (λ n, n + 1) 3 one_seat three_students = Some (Ok m) ∧
       ∀ student prefs, dict_get three_students student = Ok prefs →
         (∃ seat, seat ∈ prefs ∧ m !! seat = Some student) ∨
         (∀ p, p ∈ prefs → p ∈ one_seat →
               ∃ other, other ≠ student ∧ m !! p = Some other).
Proof.
  assert (dict_wf three_students) as Hwf
    by (apply (bool_decide_unpack _); vm_compute; exact I).
  assert (length three_students ≤ 3) as Hfuel by (simpl; lia).
  split; [exact Hwf|]. split; [exact Hfuel|].
  exact (no_listed_seat_left_free (λ n, n + 1) 3 one_seat three_students
           Hwf Hfuel).
Defined.

(** X6. An entry is never overwritten or removed: an iteration of the loop
    keeps every entry made before it, and the returned mapping keeps every
    entry made by the loop. *)
Theorem entries_are_kept rnd fuel (A : gset string) (R : dict) :
  dict_wf R → length R ≤ fuel →
  (∀ st st', reachable rnd A R st → loop_cond st = true →
             loop_body rnd st = Ok st' →
             seat_assignments st ⊆ seat_assignments st') ∧
  ∃ st1 m, phase1 rnd fuel (init_state A R) = Some (Ok st1) ∧
           assign_seats rnd fuel A R = Some (Ok m) ∧
           seat_assignments st1 ⊆ m.
Proof.
  intros Hwf Hfuel. split.
  - intros st st' Hreach Hcond Hbody.
    pose proof (reachable_inv rnd A R Hwf _ Hreach) as Hinv.
    destruct (loop_step rnd A R Hwf st Hinv Hcond)
      as (student & prefs & st'' & _ & _ & Hb & Ho & _).
    rewrite Hbody in Hb. injection Hb as <-. by eapply outcome_grows.
  - destruct (run_spec rnd A R Hwf fuel Hfuel)
      as (st1 & st' & given & Hp1 & _ & _ & _ & Hrun & _ & _ & _ & Hmap & _).
    exists st1, (seat_assignments st'). split; [done|].
    split; [by apply assign_seats_run|].
    apply map_subseteq_spec. intros k v Hkv%elem_of_map_to_list.
    apply elem_of_map_to_list. rewrite Hmap. by apply elem_of_app; right.
Qed.

Lemma entries_are_kept_witness :
  dict_wf ex_requests ∧ length ex_requests ≤ 3 ∧
  (∀ st st', reachable (λ n, n) ex_seats ex_requests st → loop_cond st = true →
             loop_body (λ n, n) st = Ok st' →
             seat_assignments st ⊆ seat_assignments st') ∧
  ∃ st1 m, phase1 (λ n, n) 3 (init_state ex_seats ex_requests) = Some (Ok st1) ∧
           assign_seats (λ n, n) 3 ex_seats ex_requests = Some (Ok m) ∧
           seat_assignments st1 ⊆ m.
Proof.
  assert (dict_wf ex_requests) as Hwf
    by (apply (bool_decide_unpack _); vm_compute; exact I).
  assert (length ex_requests ≤ 3) as Hfuel by (simpl; lia).
  split; [exact Hwf|]. split; [exact Hfuel|].
  exact (entries_are_kept (λ n, n) 3 ex_seats ex_requests Hwf Hfuel).
Defined.

(** ** Trimming *)

Lemma rev_app_app s t u :
  String.rev_app s (t +:+ u) = String.rev_app s t +:+ u.
Proof.
  revert t. induction s as [|c s IH]; intros t; simpl; [done|].
  by rewrite <- IH.
Qed.

Lemma rev_cons c s : String.rev (String c s) = String.rev s +:+ String c "".
Proof.
  unfold String.rev. simpl.
  by rewrite <- rev_app_app.
Qed.

Lemma rev_app_app_l s t acc :
  String.rev_app (s +:+ t) acc = String.rev_app t (String.rev_app s acc).
Proof.
  revert acc. induction s as [|c s IH]; intros acc; simpl; [done|].
  apply IH.
Qed.

Lemma rev_snoc s c : String.rev (s +:+ String c "") = String c (String.rev s).
Proof. unfold String.rev. by rewrite rev_app_app_l. Qed.

Lemma string_app_nil_r s : s +:+ "" = s.
Proof. induction s as [|c s IH]; simpl; [done|]. unfold String.app in *. simpl. by f_equal. Qed.

Lemma rev_app_rev_app s t u :
  String.rev_app (String.rev_app s t) u = String.rev_app t (s +:+ u).
Proof.
  revert t. induction s as [|c s IH]; intros t; simpl; [done|].
  by rewrite IH.
Qed.

Lemma rev_involutive s : String.rev (String.rev s) = s.
Proof.
  unfold String.rev. rewrite rev_app_rev_app. simpl. apply string_app_nil_r.
Qed.

Lemma lstrip_starts_clean s : starts_clean (lstrip s).
Proof.
  induction s as [|c s IH]; simpl; [done|].
  destruct (isspace c) eqn:Hc; [done | by simpl].
Qed.

Lemma starts_clean_lstrip s : starts_clean s → lstrip s = s.
Proof. destruct s as [|c s]; simpl; [done|]. by intros ->. Qed.

Lemma lstrip_snoc s c :
  isspace c = false → ∃ t, lstrip (s +:+ String c "") = t +:+ String c "".
Proof.
  intros Hc. induction s as [|d s IH].
  - exists "". simpl. by rewrite Hc.
  - change (String d s +:+ String c "") with (String d (s +:+ String c "")).
    simpl. destruct (isspace d); [done|]. by exists (String d s).
Qed.

Lemma rstrip_starts_clean s : starts_clean s → starts_clean (rstrip s).
Proof.
  destruct s as [|c s]; [done|]. simpl. intros Hc.
  unfold rstrip. rewrite rev_cons.
  destruct (lstrip_snoc (String.rev s) c Hc) as [t ->].
  by rewrite rev_snoc.
Qed.

Lemma rstrip_idem s : rstrip (rstrip s) = rstrip s.
Proof.
  unfold rstrip. rewrite rev_involutive.
  by rewrite (starts_clean_lstrip _ (lstrip_starts_clean _)).
Qed.

Lemma strip_idem s : strip (strip s) = strip s.
Proof.
  unfold strip.
  rewrite (starts_clean_lstrip (rstrip (lstrip s))).
  - apply rstrip_idem.
  - apply rstrip_starts_clean, lstrip_starts_clean.
Qed.

(** ** The request file *)

Lemma split_comma_nonempty s : split_comma s ≠ [].
Proof.
  destruct s as [|c s]; simpl; [done|].
  destruct (decide (c = comma)); [done|]. by destruct (split_comma s).
Qed.

Lemma pieces_of_nonempty request :
  ∃ student pieces, pieces_of request = student :: pieces.
Proof.
  unfold pieces_of. pose proof (split_comma_nonempty request) as Hne.
  destruct (split_comma request) as [|p ps]; [done|]. simpl. by eexists _, _.
Qed.

Lemma valid_requests_spec available pieces seen seats :
  ∃ new, valid_requests available seen seats pieces = seats ++ new ∧
         new `sublist_of` pieces ∧ NoDup new ∧
         ∀ x, x ∈ new ↔ x ∈ pieces ∧ x ∈ available ∧ x ∉ seen.
Proof.
  revert seen seats. induction pieces as [|seat pieces IH]; intros seen seats; simpl.
  - exists []. rewrite app_nil_r. split; [done|]. split; [done|].
    split; [constructor|]. intros x. split; [by intros ?%elem_of_nil|].
    by intros [?%elem_of_nil _].
  - destruct (decide ((seat ∉ seen) ∧ seat ∈ available)) as [[Hns Hav]|Hskip].
    + destruct (IH ({[seat]} ∪ seen) (seats ++ [seat])) as (new & -> & Hsub & Hnd & Hin).
      exists (seat :: new). split; [by rewrite <- (assoc_L (++))|].
      split; [by constructor|]. split.
      * apply NoDup_cons. split; [|done]. rewrite Hin.
        intros (_ & _ & Hn). apply Hn, elem_of_union. left.
        by apply elem_of_singleton.
      * intros x. rewrite !elem_of_cons, Hin. split.
        -- intros [->|(? & ? & Hx)]; [by split; [left|]|].
           split; [by right|]. split; [done|].
           intros ?. apply Hx, elem_of_union. by right.
        -- intros ([->|?] & ? & ?); [by left|].
           destruct (decide (x = seat)) as [->|?]; [by left|]. right.
           split; [done|]. split; [done|].
           by intros [?%elem_of_singleton|?]%elem_of_union.
    + destruct (IH seen seats) as (new & -> & Hsub & Hnd & Hin).
      exists new. split; [done|]. split; [by apply sublist_cons|].
      split; [done|]. intros x. rewrite elem_of_cons, Hin. split.
      * intros (? & ? & ?). auto.
      * intros ([->|?] & ? & ?); [|done]. exfalso. by apply Hskip.
Qed.

Lemma keys_app (d1 d2 : dict) : keys (d1 ++ d2) = keys d1 ++ keys d2.
Proof. unfold keys. apply fmap_app. Qed.

Lemma keys_elem (d : dict) s : s ∈ keys d ↔ ∃ prefs, (s, prefs) ∈ d.
Proof.
  unfold keys. rewrite list_elem_of_fmap. split.
  - intros ([k v] & -> & H). by exists v.
  - intros [prefs H]. by exists (s, prefs).
Qed.

(** What the loop over the lines adds to the mapping and to the log. *)
Lemma read_requests_spec available lines i (d : dict) log :
  ∃ (d' : dict) log',
    read_requests available i lines d log = Ok (d ++ d', log ++ log') ∧
    length d' + length log' = length lines ∧
    NoDup (keys d') ∧
    (∀ s prefs, (s, prefs) ∈ d' →
       (s ∉ keys d) ∧ s ≠ "" ∧
       ∃ k l, lines !! k = Some l ∧ student_name l = s ∧
              prefs = requests_of_line available l ∧
              ∀ j l', j < k → lines !! j = Some l' → student_name l' ≠ s) ∧
    (∀ l, l ∈ lines → student_name l ≠ "" →
          student_name l ∈ keys d ∨ student_name l ∈ keys d') ∧
    (∀ r, r ∈ log' →
       ∃ k l, lines !! k = Some l ∧
              ((r = NoStudentName (S (i + k)) ∧ student_name l = "") ∨
               (r = DuplicateStudent (student_name l) (S (i + k)) ∧
                student_name l ≠ "" ∧
                (student_name l ∈ keys d ∨
                 ∃ j l', j < k ∧ lines !! j = Some l' ∧
                         student_name l' = student_name l)))).
Proof.
  revert i d log. induction lines as [|l lines IH]; intros i d log.
  - exists [], []. rewrite !app_nil_r. simpl. split; [done|]. split; [done|].
    split; [constructor|]. split; [by intros ?? ?%elem_of_nil|].
    split; [by intros ? ?%elem_of_nil|]. by intros ? ?%elem_of_nil.
  - cbn [read_requests]. unfold read_request.
    destruct (pieces_of_nonempty l) as (student & pieces & Hp).
    assert (student_name l = student) as Hname by (unfold student_name; by rewrite Hp).
    assert (requests_of_line available l = valid_requests available ∅ [] pieces)
      as Hline by (unfold requests_of_line; by rewrite Hp).
    rewrite Hp. destruct (decide (student = "")) as [Hblank|Hnonblank].
    + destruct (IH (S i) d (log ++ [NoStudentName (S i)]))
        as (d' & log' & -> & Hlen & Hnd & Hent & Hcov & Hlog).
      exists d', (NoStudentName (S i) :: log').
      split; [by rewrite <- (assoc_L (++))|]. split; [simpl; lia|].
      split; [done|]. split; [|split].
      * intros s prefs Hin.
        destruct (Hent s prefs Hin) as (? & ? & k & l0 & Hk & ? & ? & Hfirst).
        split; [done|]. split; [done|]. exists (S k), l0. repeat split; try done.
        intros [|j] l' Hj Hl'; simpl in Hl'.
        -- injection Hl' as <-. congruence.
        -- apply (Hfirst j); [lia | done].
      * intros l0 [->|Hin]%elem_of_cons Hne; [congruence | by apply Hcov].
      * intros r [->|Hin]%elem_of_cons.
        -- exists 0, l. split; [done|]. left. rewrite Nat.add_0_r. by rewrite Hname.
        -- destruct (Hlog r Hin) as (k & l0 & Hk & Hr).
           exists (S k), l0. split; [done|].
           replace (S (i + S k)) with (S (S i + k)) by lia.
           destruct Hr as [?|(? & ? & [?|(j & l' & ? & ? & ?)])]; [by left|right..].
           ++ split; [done|]. split; [done|]. by left.
           ++ split; [done|]. split; [done|]. right. exists (S j), l'.
              split; [lia|]. by split.
    + destruct (decide (student ∈ keys d)) as [Hdup|Hnew].
      * destruct (IH (S i) d (log ++ [DuplicateStudent student (S i)]))
          as (d' & log' & -> & Hlen & Hnd & Hent & Hcov & Hlog).
        exists d', (DuplicateStudent student (S i) :: log').
        split; [by rewrite <- (assoc_L (++))|]. split; [simpl; lia|].
        split; [done|]. split; [|split].
        -- intros s prefs Hin.
           destruct (Hent s prefs Hin) as (Hs & ? & k & l0 & Hk & ? & ? & Hfirst).
           split; [done|]. split; [done|]. exists (S k), l0. repeat split; try done.
           intros [|j] l' Hj Hl'; simpl in Hl'.
           ++ injection Hl' as <-. congruence.
           ++ apply (Hfirst j); [lia | done].
        -- intros l0 [->|Hin]%elem_of_cons Hne; [left; congruence | by apply Hcov].
        -- intros r [->|Hin]%elem_of_cons.
           ++ exists 0, l. split; [done|]. right. rewrite Nat.add_0_r, Hname.
              split; [done|]. split; [done|]. by left.
           ++ destruct (Hlog r Hin) as (k & l0 & Hk & Hr).
              exists (S k), l0. split; [done|].
              replace (S (i + S k)) with (S (S i + k)) by lia.
              destruct Hr as [?|(? & ? & [?|(j & l' & ? & ? & ?)])]; [by left|right..].
              ** split; [done|]. split; [done|]. by left.
              ** split; [done|]. split; [done|]. right. exists (S j), l'.
                 split; [lia|]. by split.
      * destruct (IH (S i) (d ++ [(student, valid_requests available ∅ [] pieces)]) log)
          as (d' & log' & -> & Hlen & Hnd & Hent & Hcov & Hlog).
        exists ((student, valid_requests available ∅ [] pieces) :: d'), log'.
        split; [by rewrite <- (assoc_L (++))|]. split; [simpl; lia|].
        split; [|split; [|split]].
        -- simpl. apply NoDup_cons. split; [|done].
           intros [prefs Hin]%keys_elem.
           destruct (Hent _ _ Hin) as (Hs & _). apply Hs.
           rewrite keys_app. apply elem_of_app; right. by apply elem_of_cons; left.
        -- intros s prefs [Heq|Hin]%elem_of_cons.
           ++ injection Heq as -> ->. split; [done|]. split; [done|].
              exists 0, l. repeat split; try done. intros j l' Hj. lia.
           ++ destruct (Hent s prefs Hin) as (Hs & ? & k & l0 & Hk & ? & ? & Hfirst).
              rewrite keys_app in Hs. apply not_elem_of_app in Hs as [Hs1 Hs2].
              split; [done|]. split; [done|]. exists (S k), l0.
              repeat split; try done.
              intros [|j] l' Hj Hl'; simpl in Hl'.
              ** injection Hl' as <-. rewrite Hname. intros ->.
                 apply Hs2. by apply elem_of_cons; left.
              ** apply (Hfirst j); [lia | done].
        -- intros l0 [->|Hin]%elem_of_cons Hne.
           ++ right. rewrite Hname. by apply elem_of_cons; left.
           ++ destruct (Hcov l0 Hin Hne) as [Hk|Hk].
              ** rewrite keys_app in Hk. apply elem_of_app in Hk as [?|Hk]; [by left|].
                 right. simpl in Hk. apply list_elem_of_singleton in Hk.
                 rewrite Hk. by apply elem_of_cons; left.
              ** right. by apply elem_of_cons; right.
        -- intros r Hin. destruct (Hlog r Hin) as (k & l0 & Hk & Hr).
           exists (S k), l0. split; [done|].
           replace (S (i + S k)) with (S (S i + k)) by lia.
           destruct Hr as [?|(? & ? & [Hd|(j & l' & ? & ? & ?)])]; [by left|right..].
           ++ split; [done|]. split; [done|].
              rewrite keys_app in Hd. apply elem_of_app in Hd as [?|Hd]; [by left|].
              right. exists 0, l. split; [lia|]. split; [done|].
              simpl in Hd. apply list_elem_of_singleton in Hd. congruence.
           ++ split; [done|]. split; [done|]. right. exists (S j), l'.
              split; [lia|]. by split.
Qed.

Lemma dict_get_of_elem (d : dict) k v :
  NoDup (keys d) → (k, v) ∈ d → dict_get d k = Ok v.
Proof.
  unfold keys. induction d as [|[k' v'] d IH]; simpl; intros Hnd Hin.
  - by apply elem_of_nil in Hin.
  - apply NoDup_cons in Hnd as [Hk Hnd].
    apply elem_of_cons in Hin as [[= -> ->]|Hin]; [by rewrite decide_True|].
    rewrite decide_False; [by apply IH|].
    intros ->. apply Hk. apply list_elem_of_fmap. by exists (k, v).
Qed.

(** The loader on a file that exists: what [read_requests_spec] says about
    the whole file. *)
Lemma load_student_requests_spec fs file_name available content :
  fs !! file_name = Some (Text content) →
  ∃ (d : dict) log,
    load_student_requests fs file_name available = Ok (Some d, log) ∧
    length d + length log = length (file_lines content) ∧
    dict_wf d ∧
    (∀ s prefs, (s, prefs) ∈ d →
       s ≠ "" ∧
       ∃ k l, file_lines content !! k = Some l ∧ student_name l = s ∧
              prefs = requests_of_line available l ∧
              ∀ j l', j < k → file_lines content !! j = Some l' →
                      student_name l' ≠ s) ∧
    (∀ l, l ∈ file_lines content → student_name l ≠ "" →
          student_name l ∈ keys d) ∧
    (∀ r, r ∈ log →
       ∃ k l, file_lines content !! k = Some l ∧
              ((r = NoStudentName (S k) ∧ student_name l = "") ∨
               (r = DuplicateStudent (student_name l) (S k) ∧
                student_name l ≠ "" ∧
                ∃ j l', j < k ∧ file_lines content !! j = Some l' ∧
                        student_name l' = student_name l))).
Proof.
  intros Hfile. unfold load_student_requests. rewrite Hfile.
  destruct (read_requests_spec available (file_lines content) 0 [] [])
    as (d & log & -> & Hlen & Hnd & Hent & Hcov & Hlog).
  exists d, log. simpl. split; [done|]. split; [done|]. split; [done|].
  split; [|split].
  - intros s prefs Hin. by destruct (Hent s prefs Hin) as (_ & ? & ?).
  - intros l Hl Hne. destruct (Hcov l Hl Hne) as [H|H]; [|done].
    by apply elem_of_nil in H.
  - intros r Hr. destruct (Hlog r Hr) as (k & l & Hk & Hcase).
    exists k, l. split; [done|].
    destruct Hcase as [?|(? & ? & [H|?])]; [by left| |by right].
    by apply elem_of_nil in H.
Qed.

Lemma load_student_requests_inv fs file_name available (d : dict) log :
  load_student_requests fs file_name available = Ok (Some d, log) →
  ∃ content, fs !! file_name = Some (Text content).
Proof.
  unfold load_student_requests.
  destruct (fs !! file_name) as [[content|read|read]|]; try done.
  - by exists content.
  - by destruct (read_requests _ _ _ _ _) as [[? ?]|].
  - by destruct (read_requests _ _ _ _ _) as [[? ?]|].
Qed.

Lemma pieces_of_trimmed request x : x ∈ pieces_of request → strip x = x.
Proof.
  unfold pieces_of. intros (y & -> & _)%list_elem_of_fmap. apply strip_idem.
Qed.

Lemma student_name_piece request : student_name request ∈ pieces_of request.
Proof.
  unfold student_name. destruct (pieces_of_nonempty request) as (s & ps & ->).
  by apply elem_of_cons; left.
Qed.

Lemma requests_of_line_spec available request :
  requests_of_line available request `sublist_of` tail (pieces_of request) ∧
  NoDup (requests_of_line available request) ∧
  ∀ x, x ∈ requests_of_line available request ↔
       x ∈ tail (pieces_of request) ∧ x ∈ available.
Proof.
  unfold requests_of_line.
  destruct (valid_requests_spec available (tail (pieces_of request)) ∅ [])
    as (new & -> & Hsub & Hnd & Hin). simpl.
  split; [done|]. split; [done|]. intros x. rewrite Hin.
  split; [by intros (? & ? & _)|]. intros [? ?].
  split; [done|]. split; [done|]. apply not_elem_of_empty.
Qed.

Lemma tail_elem {X} (l : list X) x : x ∈ tail l → x ∈ l.
Proof. destruct l; simpl; [done|]. intros ?. by apply elem_of_cons; right. Qed.

(** X7. The kind of the file decides what [load_student_requests] does.
    On a file that reads as text to its end it returns a mapping and
    raises nothing: [pieces[0]] always exists, an empty line included. It
    returns [None] only for a missing file, with the one error record, and
    for an [IOError], with the warnings of the lines read until then and
    the error record after them. It raises only when the bytes stop
    decoding, and then [UnicodeDecodeError]. *)
Theorem load_student_requests_outcomes
    (fs : gmap string file) file_name (available : gset string) :
  (∀ content, fs !! file_name = Some (Text content) →
     ∃ d log, load_student_requests fs file_name available = Ok (Some d, log)) ∧
  (∀ log, load_student_requests fs file_name available = Ok (None, log) →
     (fs !! file_name = None ∧ log = [RequestsFileNotFound file_name]) ∨
     (∃ read d warnings,
        fs !! file_name = Some (Unreadable read) ∧
        read_requests available 0 (file_lines read) [] [] = Ok (d, warnings) ∧
        log = warnings ++ [RequestsIOError])) ∧
  (∀ e, load_student_requests fs file_name available = Raise e →
     e = UnicodeDecodeError ∧
     ∃ read, fs !! file_name = Some (Undecodable read)).
Proof.
  split; [|split].
  - intros content Hfile.
    destruct (load_student_requests_spec fs file_name available content Hfile)
      as (d & log & -> & _). by exists d, log.
  - intros log. unfold load_student_requests.
    destruct (fs !! file_name) as [[content|read|read]|].
    + by destruct (read_requests _ _ _ _ _) as [[? ?]|].
    + destruct (read_requests _ _ _ _ _) as [[d warnings]|] eqn:Hread; [|done].
      intros [= <-]. right. by exists read, d, warnings.
    + by destruct (read_requests _ _ _ _ _) as [[? ?]|].
    + intros [= <-]. by left.
  - intros e. unfold load_student_requests.
    destruct (fs !! file_name) as [[content|read|read]|]; [| | |done].
    + destruct (read_requests_spec available (file_lines content) 0 [] [])
        as (d & log & -> & _). done.
    + destruct (read_requests_spec available (file_lines read) 0 [] [])
        as (d & log & -> & _). done.
    + destruct (read_requests_spec available (file_lines read) 0 [] [])
        as (d & log & -> & _). intros [= <-]. split; [done|]. by exists read.
Qed.

(** X8. The mapping the loader returns is what the engine expects: no
    student name twice, no blank name, and every preference list free of
    repetitions and made of available seats only. *)
Theorem loaded_requests_well_formed
    (fs : gmap string file) file_name (available : gset string)
    (d : dict) log :
  load_student_requests fs file_name available = Ok (Some d, log) →
  dict_wf d ∧
  ∀ student prefs, (student, prefs) ∈ d →
    student ≠ "" ∧ NoDup prefs ∧ ∀ p, p ∈ prefs → p ∈ available.
Proof.
  intros Hload.
  destruct (load_student_requests_inv _ _ _ _ _ Hload) as [content Hfile].
  destruct (load_student_requests_spec fs file_name available content Hfile)
    as (d' & log' & Hload' & _ & Hwf & Hent & _).
  rewrite Hload in Hload'. injection Hload' as <- <-.
  split; [done|]. intros student prefs Hin.
  destruct (Hent _ _ Hin) as (Hne & k & l & _ & _ & -> & _).
  destruct (requests_of_line_spec available l) as (_ & Hnd & Hspec).
  split; [done|]. split; [done|]. intros p Hp. by apply Hspec in Hp as [_ ?].
Qed.

Lemma loaded_requests_well_formed_witness :
  load_student_requests {["r" := Text request_file]} "r" ex_seats
  = Ok (Some [("Alice", ["2"; "1"]); ("Bob", ["1"])],
        [NoStudentName 3; DuplicateStudent "Alice" 4]) ∧
  dict_wf [("Alice", ["2"; "1"]); ("Bob", ["1"])] ∧
  ∀ student prefs, (student, prefs) ∈ [("Alice", ["2"; "1"]); ("Bob", ["1"])] →
    student ≠ "" ∧ NoDup prefs ∧ ∀ p, p ∈ prefs → p ∈ ex_seats.
Proof.
  assert (load_student_requests {["r" := Text request_file]} "r" ex_seats
          = Ok (Some [("Alice", ["2"; "1"]); ("Bob", ["1"])],
                [NoStudentName 3; DuplicateStudent "Alice" 4])) as Hload
    by (vm_compute; reflexivity).
  split; [exact Hload|].
  exact (loaded_requests_well_formed _ _ _ _ _ Hload).
Defined.

(** X9. Student names and preferences come out of the loader trimmed:
    stripping them again changes nothing. *)
Theorem loaded_requests_trimmed
    (fs : gmap string file) file_name (available : gset string)
    (d : dict) log :
  load_student_requests fs file_name available = Ok (Some d, log) →
  ∀ student prefs, (student, prefs) ∈ d →
    strip student = student ∧ ∀ p, p ∈ prefs → strip p = p.
Proof.
  intros Hload.
  destruct (load_student_requests_inv _ _ _ _ _ Hload) as [content Hfile].
  destruct (load_student_requests_spec fs file_name available content Hfile)
    as (d' & log' & Hload' & _ & _ & Hent & _).
  rewrite Hload in Hload'. injection Hload' as <- <-.
  intros student prefs Hin.
  destruct (Hent _ _ Hin) as (_ & k & l & _ & <- & -> & _). split.
  - eapply pieces_of_trimmed, student_name_piece.
  - intros p Hp.
    destruct (requests_of_line_spec available l) as (_ & _ & Hspec).
    apply Hspec in Hp as [Hp _]. by eapply pieces_of_trimmed, tail_elem.
Qed.

Lemma loaded_requests_trimmed_witness :
  load_student_requests {["r" := Text request_file]} "r" ex_seats
  = Ok (Some [("Alice", ["2"; "1"]); ("Bob", ["1"])],
        [NoStudentName 3; DuplicateStudent "Alice" 4]) ∧
  ∀ student prefs, (student, prefs) ∈ [("Alice", ["2"; "1"]); ("Bob", ["1"])] →
    strip student = student ∧ ∀ p, p ∈ prefs → strip p = p.
Proof.
  assert (load_student_requests {["r" := Text request_file]} "r" ex_seats
          = Ok (Some [("Alice", ["2"; "1"]); ("Bob", ["1"])],
                [NoStudentName 3; DuplicateStudent "Alice" 4])) as Hload
    by (vm_compute; reflexivity).
  split; [exact Hload|].
  exact (loaded_requests_trimmed _ _ _ _ _ Hload).
Defined.

Lemma seats_added_inv (f : string → string) (l : list string)
    (S0 : gset string) x :
  x ∈ foldl (λ available_seats seat, {[f seat]} ∪ available_seats) S0 l →
  x ∈ S0 ∨ ∃ line, line ∈ l ∧ x = f line.
Proof.
  revert S0. induction l as [|y l IH]; intros S0; simpl; [by left|].
  intros [Hin|(line & Hl & ->)]%IH.
  - apply elem_of_union in Hin as [->%elem_of_singleton|Hin]; [|by left].
    right. exists y. split; [by apply elem_of_cons; left | done].
  - right. exists line. split; [by apply elem_of_cons; right | done].
Qed.

Lemma seats_added_size (f : string → string) (l : list string)
    (S0 : gset string) :
  size (foldl (λ available_seats seat, {[f seat]} ∪ available_seats) S0 l)
  ≤ size S0 + length l.
Proof.
  revert S0. induction l as [|y l IH]; intros S0; simpl; [lia|].
  etrans; [apply IH|].
  rewrite size_union_alt, size_singleton.
  assert (size (S0 ∖ {[f y]}) ≤ size S0); [|lia].
  apply subseteq_size. intros z. rewrite elem_of_difference. tauto.
Qed.

(** X10. The set [load_available_seats] returns holds exactly the stripped
    lines of the seat file: repeated lines count once, no seat name
    starts or ends with white space, and there are at most as many seats
    as lines. *)
Theorem loaded_seats_are_stripped_lines
    (fs : gmap string string) file_name content :
  fs !! file_name = Some content →
  ∃ S, load_available_seats fs file_name = Some S ∧
       (∀ seat, seat ∈ S ↔
                ∃ line, line ∈ file_lines content ∧ seat = strip line) ∧
       (∀ seat, seat ∈ S → strip seat = seat) ∧
       size S ≤ length (file_lines content).
Proof.
  intros Hfile. unfold load_available_seats. rewrite Hfile.
  eexists. split; [done|].
  assert (∀ seat,
    seat ∈ foldl (λ available_seats seat, {[strip seat]} ∪ available_seats)
                 (∅ : gset string) (file_lines content) ↔
    ∃ line, line ∈ file_lines content ∧ seat = strip line) as Hchar.
  { intros seat. split.
    - intros [Hin|?]%seats_added_inv; [|done]. by apply not_elem_of_empty in Hin.
    - intros ?. apply seats_added. by right. }
  split; [done|]. split.
  - intros seat (line & _ & ->)%Hchar. apply strip_idem.
  - etrans; [apply seats_added_size|]. by rewrite size_empty.
Qed.

Lemma loaded_seats_are_stripped_lines_witness :
  ({["seats.txt" := seat_file]} : gmap string string) !! "seats.txt"
    = Some seat_file ∧
  ∃ S, load_available_seats {["seats.txt" := seat_file]} "seats.txt" = Some S ∧
       (∀ seat, seat ∈ S ↔
                ∃ line, line ∈ file_lines seat_file ∧ seat = strip line) ∧
       (∀ seat, seat ∈ S → strip seat = seat) ∧
       size S ≤ length (file_lines seat_file).
Proof.
  assert (({["seats.txt" := seat_file]} : gmap string string) !! "seats.txt"
          = Some seat_file) as Hfile by (vm_compute; reflexivity).
  split; [exact Hfile|].
  exact (loaded_seats_are_stripped_lines _ "seats.txt" seat_file Hfile).
Defined.

(** X11. The first line naming a student wins: the student's list in the
    returned mapping is the one parsed from the first line with that
    name, whatever later lines with the same name say. *)
Theorem first_record_wins
    (fs : gmap string file) file_name (available : gset string)
    content (d : dict) log k line :
  fs !! file_name = Some (Text content) →
  load_student_requests fs file_name available = Ok (Some d, log) →
  file_lines content !! k = Some line →
  student_name line ≠ "" →
  Forall (λ earlier, student_name earlier ≠ student_name line)
         (take k (file_lines content)) →
  dict_get d (student_name line) = Ok (requests_of_line available line).
Proof.
  intros Hfile Hload Hk Hne Hfirst.
  destruct (load_student_requests_spec fs file_name available content Hfile)
    as (d' & log' & Hload' & _ & Hwf & Hent & Hcov & _).
  rewrite Hload in Hload'. injection Hload' as <- <-.
  pose proof (Hcov line (list_elem_of_lookup_2 _ _ _ Hk) Hne) as Hin.
  apply keys_elem in Hin as [prefs Hin].
  destruct (Hent _ _ Hin) as (_ & k' & l' & Hk' & Hname & -> & Hfirst').
  apply dict_get_of_elem; [done|].
  assert (k' = k) as ->; [|by rewrite Hk in Hk'; injection Hk' as <-].
  destruct (Nat.lt_trichotomy k' k) as [Hlt|[?|Hlt]]; [|done|].
  - exfalso. rewrite Forall_forall in Hfirst. apply (Hfirst l'); [|done].
    apply (list_elem_of_lookup_2 _ k'). by rewrite lookup_take_lt.
  - exfalso. by apply (Hfirst' k line Hlt Hk).
Qed.

Lemma first_record_wins_witness :
  ({["r" := Text request_file]} : gmap string file) !! "r"
    = Some (Text request_file) ∧
  load_student_requests {["r" := Text request_file]} "r" ex_seats
  = Ok (Some [("Alice", ["2"; "1"]); ("Bob", ["1"])],
        [NoStudentName 3; DuplicateStudent "Alice" 4]) ∧
  file_lines request_file !! 1 = Some "Bob,9 ,1
" ∧
  student_name "Bob,9 ,1
" ≠ "" ∧
  Forall (λ earlier, student_name earlier ≠ student_name "Bob,9 ,1
")
         (take 1 (file_lines request_file)) ∧
  dict_get [("Alice", ["2"; "1"]); ("Bob", ["1"])] (student_name "Bob,9 ,1
")
  = Ok (requests_of_line ex_seats "Bob,9 ,1
").
Proof.
  assert (({["r" := Text request_file]} : gmap string file) !! "r"
          = Some (Text request_file)) as Hfile by (vm_compute; reflexivity).
  assert (load_student_requests {["r" := Text request_file]} "r" ex_seats
          = Ok (Some [("Alice", ["2"; "1"]); ("Bob", ["1"])],
                [NoStudentName 3; DuplicateStudent "Alice" 4])) as Hload
    by (vm_compute; reflexivity).
  assert (file_lines request_file !! 1 = Some "Bob,9 ,1
") as Hk by (vm_compute; reflexivity).
  assert (student_name "Bob,9 ,1
" ≠ "") as Hne by (vm_compute; discriminate).
  assert (Forall (λ earlier, student_name earlier ≠ student_name "Bob,9 ,1
") (take 1 (file_lines request_file))) as Hfirst
    by (apply (bool_decide_unpack _); vm_compute; exact I).
  split; [exact Hfile|]. split; [exact Hload|]. split; [exact Hk|].
  split; [exact Hne|]. split; [exact Hfirst|].
  exact (first_record_wins _ "r" ex_seats request_file _ _ 1 _
           Hfile Hload Hk Hne Hfirst).
Defined.

(** X12. Every line of the request file is accounted for: it either adds
    a student or leaves one warning, so entries plus warnings equal the
    number of lines; a warning carries the number of its line counted from
    1, names a blank line as such, and reports a duplicate only for a name
    an earlier line already gave. *)
Theorem every_line_accounted
    (fs : gmap string file) file_name (available : gset string)
    content (d : dict) log :
  fs !! file_name = Some (Text content) →
  load_student_requests fs file_name available = Ok (Some d, log) →
  length d + length log = length (file_lines content) ∧
  ∀ r, r ∈ log →
    ∃ k line, file_lines content !! k = Some line ∧
      ((r = NoStudentName (S k) ∧ student_name line = "") ∨
       (r = DuplicateStudent (student_name line) (S k) ∧
        student_name line ≠ "" ∧
        ∃ j earlier, j < k ∧ file_lines content !! j = Some earlier ∧
                     student_name earlier = student_name line)).
Proof.
  intros Hfile Hload.
  destruct (load_student_requests_spec fs file_name available content Hfile)
    as (d' & log' & Hload' & Hlen & _ & _ & _ & Hlog).
  rewrite Hload in Hload'. injection Hload' as <- <-. by split.
Qed.

Lemma every_line_accounted_witness :
  ({["r" := Text request_file]} : gmap string file) !! "r"
    = Some (Text request_file) ∧
  load_student_requests {["r" := Text request_file]} "r" ex_seats
  = Ok (Some [("Alice", ["2"; "1"]); ("Bob", ["1"])],
        [NoStudentName 3; DuplicateStudent "Alice" 4]) ∧
  length [("Alice", ["2"; "1"]); ("Bob", ["1"])]
  + length [NoStudentName 3; DuplicateStudent "Alice" 4]
  = length (file_lines request_file) ∧
  ∀ r, r ∈ [NoStudentName 3; DuplicateStudent "Alice" 4] →
    ∃ k line, file_lines request_file !! k = Some line ∧
      ((r = NoStudentName (S k) ∧ student_name line = "") ∨
       (r = DuplicateStudent (student_name line) (S k) ∧
        student_name line ≠ "" ∧
        ∃ j earlier, j < k ∧ file_lines request_file !! j = Some earlier ∧
                     student_name earlier = student_name line)).
Proof.
  assert (({["r" := Text request_file]} : gmap string file) !! "r"
          = Some (Text request_file)) as Hfile by (vm_compute; reflexivity).
  assert (load_student_requests {["r" := Text request_file]} "r" ex_seats
          = Ok (Some [("Alice", ["2"; "1"]); ("Bob", ["1"])],
                [NoStudentName 3; DuplicateStudent "Alice" 4])) as Hload
    by (vm_compute; reflexivity).
  split; [exact Hfile|]. split; [exact Hload|].
  exact (every_line_accounted _ "r" ex_seats request_file _ _ Hfile Hload).
Defined.

(** X13. The students of the returned mapping are exactly the non-blank
    names the lines of the file give. *)
Theorem loaded_students
    (fs : gmap string file) file_name (available : gset string)
    content (d : dict) log :
  fs !! file_name = Some (Text content) →
  load_student_requests fs file_name available = Ok (Some d, log) →
  ∀ student, student ∈ keys d ↔
             student ≠ "" ∧
             ∃ line, line ∈ file_lines content ∧ student_name line = student.
Proof.
  intros Hfile Hload.
  destruct (load_student_requests_spec fs file_name available content Hfile)
    as (d' & log' & Hload' & _ & _ & Hent & Hcov & _).
  rewrite Hload in Hload'. injection Hload' as <- <-.
  intros student. split.
  - intros [prefs Hin]%keys_elem.
    destruct (Hent _ _ Hin) as (Hne & k & l & Hk & Hname & _).
    split; [done|]. exists l. split; [|done]. by eapply list_elem_of_lookup_2.
  - intros (Hne & line & Hl & <-). by apply Hcov.
Qed.

Lemma loaded_students_witness :
  ({["r" := Text request_file]} : gmap string file) !! "r"
    = Some (Text request_file) ∧
  load_student_requests {["r" := Text request_file]} "r" ex_seats
  = Ok (Some [("Alice", ["2"; "1"]); ("Bob", ["1"])],
        [NoStudentName 3; DuplicateStudent "Alice" 4]) ∧
  ∀ student, student ∈ keys [("Alice", ["2"; "1"]); ("Bob", ["1"])] ↔
             student ≠ "" ∧
             ∃ line, line ∈ file_lines request_file ∧ student_name line = student.
Proof.
  assert (({["r" := Text request_file]} : gmap string file) !! "r"
          = Some (Text request_file)) as Hfile by (vm_compute; reflexivity).
  assert (load_student_requests {["r" := Text request_file]} "r" ex_seats
          = Ok (Some [("Alice", ["2"; "1"]); ("Bob", ["1"])],
                [NoStudentName 3; DuplicateStudent "Alice" 4])) as Hload
    by (vm_compute; reflexivity).
  split; [exact Hfile|]. split; [exact Hload|].
  exact (loaded_students _ "r" ex_seats request_file _ _ Hfile Hload).
Defined.

Lemma valid_requests_app available p q seen seats :
  ∃ seen', valid_requests available seen seats (p ++ q)
           = valid_requests available seen' (valid_requests available seen seats p) q.
Proof.
  revert seen seats. induction p as [|x p IH]; intros seen seats; simpl.
  - by exists seen.
  - destruct (decide _); apply IH.
Qed.

(** X14. The preferences kept from the pieces of a line are exactly the
    available seats among them, each once, in the order of their first
    mention: a seat first mentioned before another is ranked before it. *)
Theorem kept_preferences_ranked (available : gset string) (pieces : list string) :
  valid_requests available ∅ [] pieces `sublist_of` pieces ∧
  NoDup (valid_requests available ∅ [] pieces) ∧
  (∀ x, x ∈ valid_requests available ∅ [] pieces ↔ x ∈ pieces ∧ x ∈ available) ∧
  (∀ before x after y,
      pieces = before ++ x :: after → x ∈ available →
      y ∉ before → y ≠ x → y ∈ valid_requests available ∅ [] pieces →
      ∃ q1 q2, valid_requests available ∅ [] pieces = q1 ++ q2 ∧
               x ∈ q1 ∧ y ∈ q2).
Proof.
  destruct (valid_requests_spec available pieces ∅ [])
    as (new & Heq & Hsub & Hnd & Hin). simpl in Heq. rewrite Heq.
  split; [done|]. split; [done|]. split.
  - intros x. rewrite Hin. split; [by intros (? & ? & _)|]. intros [? ?].
    split; [done|]. split; [done|]. apply not_elem_of_empty.
  - intros before x after y -> Hx Hy Hne Hyin. rewrite <- Heq in Hyin |- *.
    replace (before ++ x :: after) with ((before ++ [x]) ++ after) in *
      by by rewrite <- (assoc_L (++)).
    destruct (valid_requests_app available (before ++ [x]) after ∅ [])
      as [seen' Happ]. rewrite Happ in Hyin |- *.
    destruct (valid_requests_spec available (before ++ [x]) ∅ [])
      as (q1 & Hq1 & _ & _ & Hin1). simpl in Hq1. rewrite Hq1 in Hyin |- *.
    destruct (valid_requests_spec available after seen' q1)
      as (q2 & Hq2 & _ & _ & _). rewrite Hq2 in Hyin |- *.
    exists q1, q2. split; [done|]. split.
    + apply Hin1. split; [|split; [done | apply not_elem_of_empty]].
      apply elem_of_app; right. by apply list_elem_of_singleton.
    + apply elem_of_app in Hyin as [Hy1|?]; [|done].
      apply Hin1 in Hy1 as (Hy1 & _).
      by apply elem_of_app in Hy1 as [?|?%list_elem_of_singleton].
Qed.

(** X15. The loaders feed the engine: for a seat file and a request file
    that exist, the run on what the two loaders return never raises and
    makes [min (|seats|, |students|)] entries, each pairing a seat of the
    loaded set with a student of the loaded mapping, both trimmed and the
    student not blank. *)
Theorem loaded_inputs_run rnd fuel (fs : gmap string file)
    seats_name requests_name (S : gset string) (R : dict) log :
  load_available_seats_file fs seats_name = Ok (Some S) →
  load_student_requests fs requests_name S = Ok (Some R, log) →
  length R ≤ fuel →
  ∃ m, assign_seats rnd fuel S R = Some (Ok m) ∧
       size m = size S `min` length R ∧
       ∀ seat student, m !! seat = Some student →
         seat ∈ S ∧ student ∈ keys R ∧
         strip seat = seat ∧ strip student = student ∧ student ≠ "".
Proof.
  intros Hseats Hload Hfuel.
  destruct (load_student_requests_inv _ _ _ _ _ Hload) as [content Hfile].
  destruct (load_student_requests_spec fs requests_name S content Hfile)
    as (d' & log' & Hload' & _ & Hwf & Hent & _).
  rewrite Hload in Hload'. injection Hload' as <- <-.
  destruct (run_counts rnd S R Hwf fuel Hfuel)
    as (st' & ls & lt & Hrun & HA & HR & HsA & HsR & Hempty).
  exists (seat_assignments st'). split; [by apply assign_seats_run|].
  split; [destruct Hempty as [-> | ->]; simpl in *; lia|].
  intros seat student Hm.
  assert (seat ∈ S) as HseatS.
  { apply elem_of_elements. rewrite HA. apply elem_of_app; left.
    by eapply entry_key. }
  assert (student ∈ keys R) as Hstudent.
  { rewrite HR. apply elem_of_app; left. by eapply entry_value. }
  split; [done|]. split; [done|]. split; [|split].
  - unfold load_available_seats_file in Hseats.
    destruct (fs !! seats_name) as [[seats_content| |]|]; try done.
    injection Hseats as <-.
    apply seats_added_inv in HseatS as [Hin|(line & _ & ->)].
    + by apply not_elem_of_empty in Hin.
    + apply strip_idem.
  - apply keys_elem in Hstudent as [prefs Hin].
    destruct (Hent _ _ Hin) as (_ & k & l & _ & <- & _).
    eapply pieces_of_trimmed, student_name_piece.
  - apply keys_elem in Hstudent as [prefs Hin].
    by destruct (Hent _ _ Hin) as (? & _).
Qed.

Lemma loaded_inputs_run_witness :
  load_available_seats_file {["s" := Text seat_file; "r" := Text request_file]} "s"
  = Ok (Some {["1"; ""; "2"; "3"]}) ∧
  load_student_requests {["s" := Text seat_file; "r" := Text request_file]} "r"
                        {["1"; ""; "2"; "3"]}
  = Ok (Some [("Alice", ["2"; "1"]); ("Bob", ["1"])],
        [NoStudentName 3; DuplicateStudent "Alice" 4]) ∧
  length [("Alice", ["2"; "1"]); ("Bob", ["1"])] ≤ 2 ∧
  ∃ m, assign_seats (λ n, n) 2 {["1"; ""; "2"; "3"]}
                    [("Alice", ["2"; "1"]); ("Bob", ["1"])] = Some (Ok m) ∧
       size m = size ({["1"; ""; "2"; "3"]} : gset string)
                `min` length [("Alice", ["2"; "1"]); ("Bob", ["1"])] ∧
       ∀ seat student, m !! seat = Some student →
         seat ∈ ({["1"; ""; "2"; "3"]} : gset string) ∧
         student ∈ keys [("Alice", ["2"; "1"]); ("Bob", ["1"])] ∧
         strip seat = seat ∧ strip student = student ∧ student ≠ "".
Proof.
  assert (load_available_seats_file
            {["s" := Text seat_file; "r" := Text request_file]} "s"
          = Ok (Some {["1"; ""; "2"; "3"]})) as Hseats
    by (vm_compute; reflexivity).
  assert (load_student_requests {["s" := Text seat_file; "r" := Text request_file]} "r"
                                {["1"; ""; "2"; "3"]}
          = Ok (Some [("Alice", ["2"; "1"]); ("Bob", ["1"])],
                [NoStudentName 3; DuplicateStudent "Alice" 4])) as Hload
    by (vm_compute; reflexivity).
  assert (length [("Alice", ["2"; "1"]); ("Bob", ["1"])] ≤ 2) as Hfuel
    by (simpl; lia).
  split; [exact Hseats|]. split; [exact Hload|]. split; [exact Hfuel|].
  exact (loaded_inputs_run (λ n, n) 2 _ "s" "r" _ _ _ Hseats Hload Hfuel).
Defined.

(** ** The result in insertion order *)

Lemma list_to_map_items_set k v (d : items) :
  list_to_map (items_set k v d) =@{gmap string string} <[k := v]> (list_to_map d).
Proof.
  induction d as [|[k' v'] d IH]; simpl; [done|].
  destruct (decide (k' = k)) as [->|Hne]; simpl.
  - by rewrite insert_insert_eq.
  - rewrite IH. by apply insert_insert_ne.
Qed.

Lemma items_set_keys k v (d : items) :
  (items_set k v d).*1 = if decide (k ∈ d.*1) then d.*1 else d.*1 ++ [k].
Proof.
  induction d as [|[k' v'] d IH].
  - simpl. destruct (decide (k ∈ [])) as [Hin|_]; [|done].
    by apply elem_of_nil in Hin.
  - cbn [items_set]. destruct (decide (k' = k)) as [->|Hne].
    + cbn [fmap list_fmap fst]. destruct (decide (k ∈ k :: d.*1)) as [_|Hnin]; [done|].
      exfalso. apply Hnin. by apply elem_of_cons; left.
    + cbn [fmap list_fmap fst]. change (list_fmap _ _ fst ?l) with (l.*1).
      rewrite IH.
      destruct (decide (k ∈ d.*1)) as [Hin|Hnin];
        destruct (decide (k ∈ k' :: d.*1)) as [Hin'|Hnin']; try done.
      * exfalso. apply Hnin'. by apply elem_of_cons; right.
      * exfalso. apply elem_of_cons in Hin' as [?|?]; [congruence | done].
Qed.

Lemma items_set_NoDup k v (d : items) :
  NoDup d.*1 → NoDup (items_set k v d).*1.
Proof.
  intros Hnd. rewrite items_set_keys. destruct (decide (k ∈ d.*1)); [done|].
  apply NoDup_app. split; [done|]. split; [|apply NoDup_singleton].
  intros x Hx ->%list_elem_of_singleton. done.
Qed.

Lemma items_get_ok (d : items) k : k ∈ d.*1 → ∃ v, items_get d k = Ok v ∧ (k, v) ∈ d.
Proof.
  induction d as [|[k' v'] d IH]; simpl; intros Hin.
  - by apply elem_of_nil in Hin.
  - destruct (decide (k' = k)) as [->|Hne].
    + exists v'. split; [done|]. by apply elem_of_cons; left.
    + apply elem_of_cons in Hin as [?|Hin]; [congruence|].
      destruct (IH Hin) as (v & -> & ?). exists v. split; [done|].
      by apply elem_of_cons; right.
Qed.

Section Refinement.

Variable rnd : nat → nat.

(** The ordered embedding takes the same steps as the first one; the
    result of the first is the ordered result read as a finite map. *)
Lemma o_scan_requests_refines student prefs st :
  o_wf st →
  match o_scan_requests student prefs st with
  | Ok st' => o_wf st' ∧ scan_requests student prefs (to_state st) = Ok (to_state st')
  | Raise e => scan_requests student prefs (to_state st) = Raise e
  end.
Proof.
  intros Hwf. induction prefs as [|seat prefs IH]; simpl; [done|].
  destruct (decide (seat ∈ o_seats st)); [|done].
  unfold mbind, result_bind. simpl.
  destruct (list_remove seat (o_seats st)); [|done]. simpl.
  destruct (list_remove student (o_students st)); [|done].
  split; [by apply items_set_NoDup|].
  unfold to_state. simpl. by rewrite list_to_map_items_set.
Qed.

Lemma o_loop_body_refines st :
  o_wf st →
  match o_loop_body rnd st with
  | Ok st' => o_wf st' ∧ loop_body rnd (to_state st) = Ok (to_state st')
  | Raise e => loop_body rnd (to_state st) = Raise e
  end.
Proof.
  intros Hwf. unfold o_loop_body, loop_body, mbind, result_bind.
  change (draws (to_state st)) with (o_draws st).
  change (students (to_state st)) with (o_students st).
  destruct (choice _ _) as [student|]; [|done]. cbv beta iota zeta.
  change (student_requests (tick (to_state st)))
    with (o_student_requests (o_tick st)).
  destruct (dict_get _ _) as [prefs|]; [|done].
  pose proof (o_scan_requests_refines student prefs (o_tick st) Hwf) as Hscan.
  change (to_state (o_tick st)) with (tick (to_state st)) in Hscan.
  destruct (o_scan_requests student prefs (o_tick st)) as [st1|e];
    [destruct Hscan as [Hwf1 ->] | by rewrite Hscan].
  change (students (to_state st1)) with (o_students st1).
  destruct (decide (student ∈ o_students st1)); [|done].
  change (students (set_holding _ (to_state st1))) with (o_students st1).
  change (o_students (o_set_holding _ st1)) with (o_students st1).
  by destruct (list_remove student (o_students st1)).
Qed.

Lemma o_loop_cond_refines st : o_loop_cond st = loop_cond (to_state st).
Proof. done. Qed.

Lemma o_phase1_refines fuel st :
  o_wf st →
  match o_phase1 rnd fuel st with
  | Some (Ok st') => o_wf st' ∧ phase1 rnd fuel (to_state st) = Some (Ok (to_state st'))
  | Some (Raise e) => phase1 rnd fuel (to_state st) = Some (Raise e)
  | None => phase1 rnd fuel (to_state st) = None
  end.
Proof.
  revert st. induction fuel as [|fuel IH]; intros st Hwf; simpl;
    rewrite <- o_loop_cond_refines; destruct (o_loop_cond st); try done.
  pose proof (o_loop_body_refines st Hwf) as Hbody.
  destruct (o_loop_body rnd st) as [st1|e];
    [destruct Hbody as [Hwf1 ->] | by rewrite Hbody].
  by apply IH.
Qed.

Lemma o_hold_rest_refines st :
  to_state (o_hold_rest st) = hold_rest (to_state st) ∧
  (o_wf st → o_wf (o_hold_rest st)) ∧
  o_holding (o_hold_rest st) = holding (hold_rest (to_state st)).
Proof.
  unfold o_hold_rest, hold_rest. simpl. by destruct (truthy (o_students st)).
Qed.

Lemma o_phase2_refines held st :
  o_wf st →
  match o_phase2 rnd held st with
  | Ok st' => o_wf st' ∧ phase2 rnd held (to_state st) = Ok (to_state st')
  | Raise e => phase2 rnd held (to_state st) = Raise e
  end.
Proof.
  revert st. induction held as [|student held IH]; intros st Hwf; simpl; [done|].
  destruct (truthy (o_seats st)); [|by apply IH].
  destruct (choice _ _) as [seat|]; [|done].
  unfold mbind, result_bind. simpl.
  destruct (list_remove seat (o_seats st)) as [seats'|]; [|done].
  set (st1 := o_set_seats seats' _).
  assert (o_wf st1) as Hwf1 by by apply items_set_NoDup.
  pose proof (IH st1 Hwf1) as Hrest.
  assert (to_state st1 =
          set_seats seats'
            (set_seat_assignments
               (<[seat:=student]> (list_to_map (o_seat_assignments st)))
               (tick (to_state st)))) as Heq.
  { unfold to_state, st1. simpl. by rewrite list_to_map_items_set. }
  by rewrite <- Heq.
Qed.

Lemma o_run_refines fuel (A : gset string) (R : dict) :
  match o_run rnd fuel A R with
  | Some (Ok st') => o_wf st' ∧ run rnd fuel A R = Some (Ok (to_state st'))
  | Some (Raise e) => run rnd fuel A R = Some (Raise e)
  | None => run rnd fuel A R = None
  end.
Proof.
  unfold o_run, run.
  assert (o_wf (o_init_state A R)) as Hwf0 by constructor.
  pose proof (o_phase1_refines fuel (o_init_state A R) Hwf0) as Hp1.
  change (to_state (o_init_state A R)) with (init_state A R) in Hp1.
  destruct (o_phase1 rnd fuel (o_init_state A R)) as [[st1|e]|];
    [destruct Hp1 as [Hwf1 ->] | by rewrite Hp1..].
  cbv zeta. destruct (o_hold_rest_refines st1) as (Hst & Hwf & Hhold).
  rewrite <- Hhold, <- Hst.
  pose proof (o_phase2_refines (o_holding (o_hold_rest st1)) (o_hold_rest st1)
                (Hwf Hwf1)) as Hp2.
  destruct (o_phase2 _ _ _) as [st'|e]; [destruct Hp2 as [? ->] | rewrite Hp2]; done.
Qed.

End Refinement.

Lemma run_fuel_mono rnd fuel fuel' (A : gset string) (R : dict) r :
  run rnd fuel A R = Some r → fuel ≤ fuel' → run rnd fuel' A R = Some r.
Proof.
  unfold run. intros Hrun Hle.
  destruct (phase1 rnd fuel (init_state A R)) as [r1|] eqn:Hp; [|done].
  by rewrite (phase1_fuel rnd fuel fuel' _ _ Hp Hle).
Qed.

(** Whatever the fuel, the ordered run that ends ends without an error,
    and its result read as a map is the result of [assign_seats]. *)
Lemma o_assign_seats_spec rnd fuel (A : gset string) (R : dict) r :
  dict_wf R →
  o_assign_seats rnd fuel A R = Some r →
  ∃ d : items, r = Ok d ∧ NoDup d.*1 ∧
       assign_seats rnd fuel A R = Some (Ok (list_to_map d)) ∧
       size (list_to_map d : gmap string string) = size A `min` length R ∧
       (∀ seat, seat ∈ d.*1 → seat ∈ A) ∧
       (size A ≤ length R → ∀ seat, seat ∈ A → seat ∈ d.*1).
Proof.
  intros Hwf Ho. unfold o_assign_seats in Ho.
  pose proof (o_run_refines rnd fuel A R) as Href.
  destruct (o_run rnd fuel A R) as [[st|e]|]; simpl in Ho; [| |done].
  - destruct Href as [Hd Hrun]. injection Ho as <-.
    destruct (run_counts rnd A R Hwf (fuel `max` length R))
      as (st' & ls & lt & Hrun' & HA & _ & HsA & HsR & Hempty); [lia|].
    rewrite (run_fuel_mono rnd fuel _ A R _ Hrun) in Hrun' by lia.
    injection Hrun' as <-. simpl in *.
    pose proof (map_to_list_to_map (M := gmap string) _ Hd) as Hperm.
    exists (o_seat_assignments st). split; [done|]. split; [done|].
    split; [by apply assign_seats_run in Hrun|].
    split; [destruct Hempty as [-> | ->]; simpl in *; lia|]. split.
    + intros seat Hseat. apply elem_of_elements. rewrite HA, Hperm.
      by apply elem_of_app; left.
    + intros Hle seat Hseat. assert (ls = []) as ->.
      { destruct Hempty as [-> | ->]; [done|].
        destruct ls; [done | simpl in *; lia]. }
      apply elem_of_elements in Hseat.
      by rewrite HA, app_nil_r, Hperm in Hseat.
  - exfalso.
    destruct (run_counts rnd A R Hwf (fuel `max` length R))
      as (st' & ls & lt & Hrun' & _); [lia|].
    by rewrite (run_fuel_mono rnd fuel _ A R _ Href) in Hrun' by lia.
Qed.

Lemma o_assign_seats_ends rnd fuel (A : gset string) (R : dict) :
  dict_wf R → length R ≤ fuel → ∃ r, o_assign_seats rnd fuel A R = Some r.
Proof.
  intros Hwf Hfuel. unfold o_assign_seats.
  pose proof (o_run_refines rnd fuel A R) as Href.
  destruct (o_run rnd fuel A R) as [r|]; [by eexists|].
  destruct (run_final rnd A R Hwf fuel Hfuel) as (st' & _ & _ & Hrun & _).
  by rewrite Hrun in Href.
Qed.

(** ** Sorting and printing *)

Section Printing.

Variable int : string → option Z.

Lemma keyed_spec l :
  (∃ ks, keyed int l = Ok ks ∧ ks.*2 = l ∧
         Forall (λ e, int e.2 = Some e.1) ks) ∨
  (keyed int l = Raise ValueError ∧ ∃ seat, seat ∈ l ∧ int seat = None).
Proof.
  induction l as [|seat l IH]; simpl.
  - left. exists []. by repeat split.
  - destruct (int seat) as [n|] eqn:Hn.
    + destruct IH as [(ks & -> & Hks & Hall)|(-> & bad & Hin & Hbad)].
      * left. exists ((n, seat) :: ks). unbind. split; [done|].
        split; [by rewrite <- Hks|]. by constructor.
      * right. split; [done|]. exists bad. split; [|done].
        by apply elem_of_cons; right.
    + right. split; [done|]. exists seat. split; [|done].
      by apply elem_of_cons; left.
Qed.

Lemma insert_by_key_perm x l : insert_by_key x l ≡ₚ x :: l.
Proof.
  induction l as [|y l IH]; simpl; [done|].
  destruct (x.1 <=? y.1)%Z; [done|]. rewrite IH. apply perm_swap.
Qed.

Lemma sort_by_key_perm l : sort_by_key l ≡ₚ l.
Proof.
  induction l as [|x l IH]; simpl; [done|].
  by rewrite insert_by_key_perm, IH.
Qed.

Lemma insert_by_key_sorted x l :
  StronglySorted (λ a b : Z * string, (a.1 ≤ b.1)%Z) l →
  StronglySorted (λ a b : Z * string, (a.1 ≤ b.1)%Z) (insert_by_key x l).
Proof.
  induction 1 as [|y l Hs IH Hall]; simpl.
  - repeat constructor.
  - destruct (x.1 <=? y.1)%Z eqn:Hle.
    + apply Z.leb_le in Hle. constructor; [by constructor|].
      constructor; [done|]. eapply Forall_impl; [done|].
      intros z Hz. simpl in *. lia.
    + apply Z.leb_gt in Hle. constructor; [done|].
      rewrite insert_by_key_perm. constructor; [lia | done].
Qed.

Lemma sort_by_key_sorted l :
  StronglySorted (λ a b : Z * string, (a.1 ≤ b.1)%Z) (sort_by_key l).
Proof.
  induction l as [|x l IH]; simpl; [constructor|].
  by apply insert_by_key_sorted.
Qed.

Lemma print_lines_spec (d : items) l :
  (∀ k, k ∈ l → k ∈ d.*1) →
  ∃ es : items, print_lines d l = Ok (line_of <$> es) ∧ es.*1 = l ∧
                ∀ e, e ∈ es → e ∈ d.
Proof.
  induction l as [|k l IH]; intros Hin; simpl.
  - exists []. split; [done|]. split; [done|]. by intros ? ?%elem_of_nil.
  - destruct (items_get_ok d k) as (v & -> & Hkv);
      [by apply Hin, elem_of_cons; left|].
    destruct IH as (es & -> & Hes & Hsub);
      [by intros; apply Hin, elem_of_cons; right|].
    exists ((k, v) :: es). unbind. split; [done|]. split; [by rewrite <- Hes|].
    intros e [->|?]%elem_of_cons; [done | by apply Hsub].
Qed.

Lemma sorted_transfer {X Y} (Rx : relation X) (Ry : relation Y)
    (P : X → Y → Prop) l es :
  Forall2 P l es →
  (∀ x1 x2 y1 y2, x1 ∈ l → x2 ∈ l → P x1 y1 → P x2 y2 → Rx x1 x2 → Ry y1 y2) →
  StronglySorted Rx l → StronglySorted Ry es.
Proof.
  induction 1 as [|x y l es Hxy Hrest IH]; intros Hrel Hs; [constructor|].
  apply StronglySorted_inv in Hs as [Hs Hall]. constructor.
  - apply IH; [|done]. intros x1 x2 y1 y2 H1 H2.
    apply Hrel; by apply elem_of_cons; right.
  - clear IH Hs. induction Hrest as [|x' y' l es Hxy' Hrest IH]; [constructor|].
    apply Forall_cons in Hall as [Hx Hall]. constructor.
    + apply (Hrel x x'); try done; [by apply elem_of_cons; left|].
      apply elem_of_cons; right. by apply elem_of_cons; left.
    + apply IH; [|done]. intros x1 x2 y1 y2 H1 H2. apply Hrel.
      * apply elem_of_cons in H1 as [->|H1]; [by apply elem_of_cons; left|].
        apply elem_of_cons; right. by apply elem_of_cons; right.
      * apply elem_of_cons in H2 as [->|H2]; [by apply elem_of_cons; left|].
        apply elem_of_cons; right. by apply elem_of_cons; right.
Qed.

(** The output for a result [d] whose keys [int] can all read. *)
Lemma print_sorted_spec (d : items) :
  NoDup d.*1 →
  (∀ seat, seat ∈ d.*1 → int seat ≠ None) →
  ∃ es : items,
    (ks ← keyed int d.*1; print_lines d (sort_by_key ks).*2) = Ok (line_of <$> es) ∧
    es ≡ₚ d ∧ StronglySorted (by_number int) es.
Proof.
  intros Hnd Hint.
  destruct (keyed_spec d.*1) as [(ks & Hk & Hks & Hall)|(_ & bad & Hin & Hbad)];
    [|by destruct (Hint bad Hin)].
  rewrite Hk. unbind.
  pose proof (sort_by_key_perm ks) as Hperm.
  destruct (print_lines_spec d (sort_by_key ks).*2) as (es & -> & Hes & Hsub).
  { intros k Hin. by rewrite Hperm, Hks in Hin. }
  exists es. split; [done|]. split.
  - apply submseteq_length_Permutation.
    + apply NoDup_submseteq; [|done].
      apply (NoDup_fmap_1 fst). rewrite Hes, Hperm, Hks. done.
    + apply (f_equal length) in Hes. rewrite !length_fmap in Hes.
      rewrite Hes, Hperm. apply (f_equal length) in Hks.
      rewrite !length_fmap in Hks. lia.
  - apply (sorted_transfer (λ a b : Z * string, (a.1 ≤ b.1)%Z) _
             (λ (k : Z * string) (e : string * string), k.2 = e.1)
             (sort_by_key ks)); [| |apply sort_by_key_sorted].
    + clear -Hes. revert es Hes.
      induction (sort_by_key ks) as [|k l IH]; intros [|e es] Hes;
        simpl in Hes; try discriminate.
      * constructor.
      * injection Hes as He Hes. constructor; [done | by apply IH].
    + intros x1 x2 y1 y2 H1 H2 He1 He2 Hle.
      rewrite Hperm in H1, H2. rewrite Forall_forall in Hall.
      exists x1.1, x2.1. by rewrite <- He1, <- He2, (Hall _ H1), (Hall _ H2).
Qed.

End Printing.

(** ** [main] *)

Lemma main_loaded rnd int fuel (fs : gmap string file) argv
    seats_name requests_name (S : gset string) (R : dict) log :
  argv !! 1 = Some seats_name → seats_name ≠ "" →
  argv !! 2 = Some requests_name → requests_name ≠ "" →
  load_available_seats_file fs seats_name = Ok (Some S) →
  load_student_requests fs requests_name S = Ok (Some R, log) →
  main rnd int fuel fs argv =
  match o_assign_seats rnd fuel S R with
  | None => None
  | Some (Raise e) => Some (Raise e)
  | Some (Ok d) => Some (ks ← keyed int d.*1; print_lines d (sort_by_key ks).*2)
  end.
Proof.
  intros H1 Hn1 H2 Hn2 Hs Hr. unfold main.
  rewrite H1, decide_False by done. rewrite H2, decide_False by done.
  by rewrite Hs, Hr.
Qed.

Lemma loaded_dict_wf (fs : gmap string file) file_name (available : gset string)
    (R : dict) log :
  load_student_requests fs file_name available = Ok (Some R, log) → dict_wf R.
Proof.
  intros Hload.
  destruct (load_student_requests_inv _ _ _ _ _ Hload) as [content Hfile].
  destruct (load_student_requests_spec fs file_name available content Hfile)
    as (d' & log' & Hload' & _ & Hwf & _).
  rewrite Hload in Hload'. by injection Hload' as <- <-.
Qed.

(** X16. With both files loaded and every seat name readable by [int],
    [main] prints one line [seat: student] per entry of the assignment and
    nothing else, in ascending order of the seat numbers. *)
Theorem main_prints_sorted_assignment rnd int fuel (fs : gmap string file)
    argv seats_name requests_name (S : gset string) (R : dict) log :
  argv !! 1 = Some seats_name → seats_name ≠ "" →
  argv !! 2 = Some requests_name → requests_name ≠ "" →
  load_available_seats_file fs seats_name = Ok (Some S) →
  load_student_requests fs requests_name S = Ok (Some R, log) →
  length R ≤ fuel →
  Forall (λ seat, int seat ≠ None) (elements S) →
  ∃ m (es : items),
    assign_seats rnd fuel S R = Some (Ok m) ∧
    main rnd int fuel fs argv = Some (Ok (line_of <$> es)) ∧
    es ≡ₚ map_to_list m ∧
    StronglySorted (by_number int) es ∧
    length es = size S `min` length R.
Proof.
  intros H1 Hn1 H2 Hn2 Hs Hr Hfuel Hint.
  pose proof (loaded_dict_wf _ _ _ _ _ Hr) as Hwf.
  rewrite (main_loaded rnd int fuel fs argv _ _ S R log H1 Hn1 H2 Hn2 Hs Hr).
  destruct (o_assign_seats_ends rnd fuel S R Hwf Hfuel) as [r Ho].
  destruct (o_assign_seats_spec rnd fuel S R r Hwf Ho)
    as (d & -> & Hnd & Hassign & Hsize & Hsub & _).
  rewrite Ho.
  destruct (print_sorted_spec int d Hnd) as (es & -> & Hperm & Hsorted).
  { intros seat Hin. rewrite Forall_forall in Hint.
    by apply Hint, elem_of_elements, Hsub. }
  exists (list_to_map d), es. split; [done|]. split; [done|].
  split; [by rewrite Hperm, map_to_list_to_map|]. split; [done|].
  rewrite <- Hsize, <- length_map_to_list.
  by rewrite (map_to_list_to_map d Hnd), Hperm.
Qed.

Lemma main_prints_sorted_assignment_witness :
  main_argv !! 1 = Some "s" ∧ "s" ≠ "" ∧
  main_argv !! 2 = Some "r" ∧ "r" ≠ "" ∧
  load_available_seats_file numbered_files "s" = Ok (Some {["10"; "9"]}) ∧
  load_student_requests numbered_files "r" {["10"; "9"]}
  = Ok (Some [("Alice", []); ("Bob", ["9"])],
        [NoStudentName 3; DuplicateStudent "Alice" 4]) ∧
  length [("Alice", []); ("Bob", ["9"])] ≤ 2 ∧
  Forall (λ seat, decimal seat ≠ None) (elements ({["10"; "9"]} : gset string)) ∧
  ∃ m (es : items),
    assign_seats (λ n, n) 2 {["10"; "9"]} [("Alice", []); ("Bob", ["9"])]
    = Some (Ok m) ∧
    main (λ n, n) decimal 2 numbered_files main_argv
    = Some (Ok (line_of <$> es)) ∧
    es ≡ₚ map_to_list m ∧
    StronglySorted (by_number decimal) es ∧
    length es = size ({["10"; "9"]} : gset string)
                `min` length [("Alice", []); ("Bob", ["9"])].
Proof.
  assert (main_argv !! 1 = Some "s") as H1 by reflexivity.
  assert ("s" ≠ "") as Hn1 by discriminate.
  assert (main_argv !! 2 = Some "r") as H2 by reflexivity.
  assert ("r" ≠ "") as Hn2 by discriminate.
  assert (load_available_seats_file numbered_files "s"
          = Ok (Some {["10"; "9"]})) as Hs by (vm_compute; reflexivity).
  assert (load_student_requests numbered_files "r" {["10"; "9"]}
          = Ok (Some [("Alice", []); ("Bob", ["9"])],
                [NoStudentName 3; DuplicateStudent "Alice" 4])) as Hr
    by (vm_compute; reflexivity).
  assert (length [("Alice", []); ("Bob", ["9"])] ≤ 2) as Hfuel
    by (simpl; lia).
  assert (Forall (λ seat, decimal seat ≠ None)
                 (elements ({["10"; "9"]} : gset string))) as Hint
    by (apply (bool_decide_unpack _); vm_compute; exact I).
  split; [exact H1|]. split; [exact Hn1|]. split; [exact H2|].
  split; [exact Hn2|]. split; [exact Hs|]. split; [exact Hr|].
  split; [exact Hfuel|]. split; [exact Hint|].
  exact (main_prints_sorted_assignment (λ n, n) decimal 2 numbered_files
           main_argv "s" "r" _ _ _ H1 Hn1 H2 Hn2 Hs Hr Hfuel Hint).
Defined.

(** X17. When [int] cannot read one of the loaded seat names (the empty
    name a blank line of the seat file leaves, for one) and there are at
    least as many students as seats, [main] raises [ValueError] while
    sorting and prints nothing. *)
Theorem main_raises_on_unreadable_seat rnd int fuel (fs : gmap string file)
    argv seats_name requests_name (S : gset string) (R : dict) log bad :
  argv !! 1 = Some seats_name → seats_name ≠ "" →
  argv !! 2 = Some requests_name → requests_name ≠ "" →
  load_available_seats_file fs seats_name = Ok (Some S) →
  load_student_requests fs requests_name S = Ok (Some R, log) →
  length R ≤ fuel →
  bad ∈ S → int bad = None → size S ≤ length R →
  main rnd int fuel fs argv = Some (Raise ValueError).
Proof.
  intros H1 Hn1 H2 Hn2 Hs Hr Hfuel Hbad Hint Hle.
  pose proof (loaded_dict_wf _ _ _ _ _ Hr) as Hwf.
  rewrite (main_loaded rnd int fuel fs argv _ _ S R log H1 Hn1 H2 Hn2 Hs Hr).
  destruct (o_assign_seats_ends rnd fuel S R Hwf Hfuel) as [r Ho].
  destruct (o_assign_seats_spec rnd fuel S R r Hwf Ho)
    as (d & -> & _ & _ & _ & _ & Hall).
  rewrite Ho.
  destruct (keyed_spec int d.*1) as [(ks & _ & Hks & Hok)|(-> & _)]; [|done].
  exfalso. pose proof (Hall Hle bad Hbad) as Hin. rewrite <- Hks in Hin.
  apply list_elem_of_fmap in Hin as (e & -> & He).
  rewrite Forall_forall in Hok. specialize (Hok e He). congruence.
Qed.

Lemma main_raises_on_unreadable_seat_witness :
  main_argv !! 1 = Some "s" ∧ "s" ≠ "" ∧
  main_argv !! 2 = Some "r" ∧ "r" ≠ "" ∧
  load_available_seats_file blank_line_files "s" = Ok (Some {["1"; ""]}) ∧
  load_student_requests blank_line_files "r" {["1"; ""]}
  = Ok (Some [("Alice", ["1"]); ("Bob", ["1"])],
        [NoStudentName 3; DuplicateStudent "Alice" 4]) ∧
  length [("Alice", ["1"]); ("Bob", ["1"])] ≤ 2 ∧
  "" ∈ ({["1"; ""]} : gset string) ∧ decimal "" = None ∧
  size ({["1"; ""]} : gset string) ≤ length [("Alice", ["1"]); ("Bob", ["1"])] ∧
  main (λ n, n) decimal 2 blank_line_files main_argv = Some (Raise ValueError).
Proof.
  assert (main_argv !! 1 = Some "s") as H1 by reflexivity.
  assert ("s" ≠ "") as Hn1 by discriminate.
  assert (main_argv !! 2 = Some "r") as H2 by reflexivity.
  assert ("r" ≠ "") as Hn2 by discriminate.
  assert (load_available_seats_file blank_line_files "s"
          = Ok (Some {["1"; ""]})) as Hs by (vm_compute; reflexivity).
  assert (load_student_requests blank_line_files "r" {["1"; ""]}
          = Ok (Some [("Alice", ["1"]); ("Bob", ["1"])],
                [NoStudentName 3; DuplicateStudent "Alice" 4])) as Hr
    by (vm_compute; reflexivity).
  assert (length [("Alice", ["1"]); ("Bob", ["1"])] ≤ 2) as Hfuel
    by (simpl; lia).
  assert ("" ∈ ({["1"; ""]} : gset string)) as Hbad
    by (apply (bool_decide_unpack _); vm_compute; exact I).
  assert (decimal "" = None) as Hint by reflexivity.
  assert (size ({["1"; ""]} : gset string)
          ≤ length [("Alice", ["1"]); ("Bob", ["1"])]) as Hle
    by (vm_compute; lia).
  split; [exact H1|]. split; [exact Hn1|]. split; [exact H2|].
  split; [exact Hn2|]. split; [exact Hs|]. split; [exact Hr|].
  split; [exact Hfuel|]. split; [exact Hbad|]. split; [exact Hint|].
  split; [exact Hle|].
  exact (main_raises_on_unreadable_seat (λ n, n) decimal 2 blank_line_files
           main_argv "s" "r" _ _ _ "" H1 Hn1 H2 Hn2 Hs Hr Hfuel Hbad Hint Hle).
Defined.


